(** * DC3 pricing core: quote generation, bundle pricing, quote lifecycle

    Shallow embedding of
      - [backend/controllers/pricingController.ts]  (quoteController,
        calculateComplexity, the rate and multiplier tables,
        PricingController.calculatePricing),
      - [backend/services/pricingService.ts]        (PricingService.calculatePricing), and
      - [backend/services/otpService.ts]            (sendWhatsAppOTP, verifyOTP),
    together with the column types of the Prisma migrations that the
    controllers write through.

    Numbers.  JavaScript numbers are IEEE-754 binary64 values.  They are
    modelled by their exact rational value; every arithmetic operation
    rounds the exact result to the nearest binary64 value, ties to even
    ([rnd]).  The model covers the finite, normal range (no NaN, no
    infinities, no subnormals, unbounded exponent), which contains every
    amount a DECIMAL(10,2) column accepts.  A Prisma [Decimal] read from the
    database is an exact decimal.

    Database.  Tables with a primary key are finite maps from the key, the
    lookup tables of the bundle pricing are lists of rows.  A NUMERIC(p,s)
    column rounds what is written to [s] decimals and rejects what does not
    fit; a DATE column keeps the day.  Columns that no handler below reads
    back (names, descriptions, created_at, the address and agent of an audit
    entry) are left out.

    Environment.  A request handler runs against one reading [now] of the
    clock (milliseconds since the epoch), the key [uuid] drawn for a new
    row, and [process.env].  [Date.setDate] and [Date.setMinutes] count in
    the local time of the server, whose zone is part of the environment
    ([TimeZone]).

    Lookups.  A comparison with [mode: 'insensitive'] reaches the database
    as ILIKE: the key is a pattern ([like]).  An integer bound to an INTEGER
    column has to fit it ([isInt4]). *)

From stdpp Require Import gmap strings list fin_maps.
From Stdlib Require Import QArith Qround Qabs Qpower Lqa ZArith Lia.
From Stdlib Require Import SpecFloat.

Local Open Scope Q_scope.

(* ===================================================================== *)
(** ** Binary64 arithmetic on exact rationals                             *)
(* ===================================================================== *)

Module Ieee.

(** [ilog2 q] is the binade of a positive rational: [2^(ilog2 q) <= q < 2^(ilog2 q + 1)]. *)
Definition ilog2 (q : Q) : Z :=
  let e := (Z.log2 (Qnum q) - Z.log2 (Zpos (Qden q)))%Z in
  if Qle_bool (2 ^ e) q then e else (e - 1)%Z.

(** Round to the nearest integer, ties to the even one. *)
Definition rne (q : Q) : Z :=
  let f := Qfloor q in
  match Qcompare (q - inject_Z f) (1 # 2) with
  | Lt => f
  | Gt => (f + 1)%Z
  | Eq => if Z.even f then f else (f + 1)%Z
  end.

(** Unit in the last place of the binade of [q], for a 53-bit significand. *)
Definition ulp (q : Q) : Q := 2 ^ (ilog2 (Qabs q) - 52).

(** Round to the nearest binary64 value, ties to even. *)
Definition rnd (q : Q) : Q :=
  if Qeq_bool q 0 then 0 else Qred (inject_Z (rne (q / ulp q)) * ulp q).

Definition fadd (x y : Q) : Q := rnd (x + y).
Definition fsub (x y : Q) : Q := rnd (x - y).
Definition fmul (x y : Q) : Q := rnd (x * y).
Definition fdiv (x y : Q) : Q := rnd (x / y).

(** A numeric literal of the source denotes the nearest binary64 value. *)
Definition lit (q : Q) : Q := rnd q.

(** A value is a binary64 number when rounding leaves it unchanged. *)
Definition is_double (q : Q) : Prop := rnd q == q.

Definition ltb (x y : Q) : bool := negb (Qle_bool y x).

End Ieee.

Import Ieee.

(** [Math.min], [Math.ceil], [Math.round] (half-way cases towards +infinity).
    On binary64 inputs the three results are exact. *)
Module Math.
Definition min (x y : Q) : Q := if Qle_bool x y then x else y.
Definition ceil (x : Q) : Q := inject_Z (Qceiling x).
Definition round (x : Q) : Q := inject_Z (Qfloor (x + (1 # 2))).
Definition floor (x : Q) : Q := inject_Z (Qfloor x).
End Math.

(** JavaScript's [x || d] on numbers: [0] is falsy. *)
Definition js_or (x d : Q) : Q := if Qeq_bool x 0 then d else x.

(** [parseFloat(decimal.toString())] and [Number(decimal)]: the binary64
    value nearest to an exact decimal. *)
Definition parseFloat (d : Q) : Q := lit d.

(** The significand and exponent of a binary64 value, in the format of the
    Standard Library's reference implementation of IEEE 754 ([SpecFloat]). *)
Definition to_spec (x : Q) : spec_float :=
  if Qeq_bool x 0 then S754_zero false
  else
    let e := (ilog2 (Qabs x) - 52)%Z in
    match Qfloor (Qabs x / 2 ^ e) with
    | Zpos m => S754_finite (negb (Qle_bool 0 x)) m e
    | _ => S754_zero false
    end.

(* ===================================================================== *)
(** ** Data model                                                         *)
(* ===================================================================== *)

#[warnings="-register-all"]
Inductive JsonValue :=
  | JNull
  | JBool (b : bool)
  | JNumber (n : Q)
  | JString (s : string)
  | JArray (items : list JsonValue)
  | JObject (fields : list (string * JsonValue)).

(** Prisma enums (migration 20260122195001_init). *)
Inductive ProjectType := creative | fullstack | web3 | ai_automation.
Inductive Urgency := standard | urgent | critical.
Inductive ProjectStatus :=
  | initiated | assessment_complete | quote_generated | strategy_call_booked
  | quote_accepted | in_progress | completed.
Inductive QuoteStatus := pending | sent | accepted | declined | expired.

(** Keys of [COMPLEXITY_MULTIPLIERS]. *)
Inductive ComplexityLevel := low | medium | high | critical_level.

(** The parts of [project.projectScope] (JSONB, nullable) that
    [calculateComplexity] reads; [None] is an absent field. *)
Record Integration := { i_type : option string }.
Record Scope := {
  features : option (list JsonValue);
  integrations : option (list Integration);
  timeline : option string
}.

(** A NUMERIC(p,s) column: the value is rounded to [s] decimals, half-way
    cases away from zero; the write fails when the rounded value needs more
    than [p] digits.  The number written is taken at its exact value (the
    driver sends its shortest decimal spelling, which rounds the same way
    unless the number lies within half a unit in the last place of a
    half-way case). *)
Definition round_half_away (q : Q) : Z :=
  if Qle_bool 0 q then Qfloor (q + (1 # 2)) else Qceiling (q - (1 # 2)).

Definition toDecimal (p s : Z) (v : Q) : option Q :=
  let c := round_half_away (v * inject_Z (10 ^ s)) in
  if (Z.abs c <? 10 ^ p)%Z then Some (Qred (inject_Z c / inject_Z (10 ^ s))) else None.

(** A DATE column keeps the day of a timestamp (milliseconds since the epoch, UTC). *)
Definition msPerDay : Z := 86400000.
Definition toDate (t : Z) : Z := (t / msPerDay * msPerDay)%Z.

(** An INTEGER column holds 32-bit signed integers. *)
Definition isInt4 (n : Z) : bool := ((- 2147483648 <=? n) && (n <=? 2147483647))%Z.

(** The time zone of the server, as ECMAScript reads it: [LocalTZA(t, isUTC)]
    is the offset of local time from UTC in milliseconds, at the instant [t]
    when [isUTC] holds, at the local time [t] otherwise. *)
Definition TimeZone : Type := Z -> bool -> Z.

Definition LocalTime (tz : TimeZone) (t : Z) : Z := (t + tz t true)%Z.
Definition UTC (tz : TimeZone) (t : Z) : Z := (t - tz t false)%Z.

(** [d.setDate(d.getDate() + n)] on the date [d] of the instant [t]: the
    same local time of day, [n] days later on the local calendar. *)
Definition setDate_plus (tz : TimeZone) (t n : Z) : Z :=
  UTC tz (LocalTime tz t + n * msPerDay).

(** [d.setMinutes(d.getMinutes() + n)] *)
Definition setMinutes_plus (tz : TimeZone) (t n : Z) : Z :=
  UTC tz (LocalTime tz t + n * 60000).

Module ProjectAssessment.
Record t := mk {
  id : string;
  userId : string;
  projectType : ProjectType;
  projectScope : option Scope;
  urgency : option Urgency;
  complexityScore : option Q;      (* DECIMAL(3,2), nullable *)
  status : ProjectStatus
}.
End ProjectAssessment.

Record PaymentStructure := {
  deposit : Q;
  milestone_1 : Q;
  milestone_2 : Q;
  final : Q
}.

Module ProjectQuote.
Record t := mk {
  id : string;
  projectId : string;
  userId : string;
  baseRate : Q;                    (* DECIMAL(10,2) *)
  complexityAdjustment : Q;        (* DECIMAL(10,2) *)
  urgencyAdjustment : Q;           (* DECIMAL(10,2) *)
  totalEstimate : Q;               (* DECIMAL(10,2) *)
  notToExceed : Q;                 (* DECIMAL(10,2) *)
  estimatedTimelineWeeks : Z;      (* INTEGER *)
  deliveryDate : Z;                (* DATE *)
  paymentStructure : PaymentStructure;   (* JSONB *)
  termsAccepted : bool;
  acceptedAt : option Z;
  validUntil : Z;                  (* DATE *)
  status : QuoteStatus;
  metadata : gmap string JsonValue (* JSONB NOT NULL DEFAULT '{}' *)
}.
End ProjectQuote.

Module AuditLog.
Record t := mk {
  userId : string;
  action : string;
  entityType : string;
  entityId : string;
  requestData : option JsonValue
}.
End AuditLog.

Module RevenueCategory.
Record t := mk { id : string; name : string; code : string }.
End RevenueCategory.

Module CompanyScale.
Record t := mk { id : string; name : string; code : string; multiplier : Q (* DECIMAL(5,2) *) }.
End CompanyScale.

Module ComplexityTier.
Record t := mk { rating : Z; name : string; adjustmentMultiplier : Q (* DECIMAL(5,2) *) }.
End ComplexityTier.

Module BasePricing.
Record t := mk {
  bundleId : string;
  revenueCategoryId : string;
  companyScaleId : string;
  basePrice : Q                    (* DECIMAL(10,2) *)
}.
End BasePricing.

(** The database behind the Prisma client: rows with a primary key as finite
    maps from the key, lookup tables in the order the database returns them. *)
Module prisma.
Record DB := mk {
  projectAssessment : gmap string ProjectAssessment.t;
  projectQuote : gmap string ProjectQuote.t;
  auditLog : list AuditLog.t;
  revenueCategory : list RevenueCategory.t;
  companyScale : list CompanyScale.t;
  basePricing : list BasePricing.t;
  complexityTier : list ComplexityTier.t
}.
End prisma.

Abbreviation DB := prisma.DB.

Definition set_projectAssessment (db : DB) (m : gmap string ProjectAssessment.t) : DB :=
  prisma.mk m (prisma.projectQuote db) (prisma.auditLog db) (prisma.revenueCategory db)
    (prisma.companyScale db) (prisma.basePricing db) (prisma.complexityTier db).

Definition set_projectQuote (db : DB) (m : gmap string ProjectQuote.t) : DB :=
  prisma.mk (prisma.projectAssessment db) m (prisma.auditLog db) (prisma.revenueCategory db)
    (prisma.companyScale db) (prisma.basePricing db) (prisma.complexityTier db).

Definition set_auditLog (db : DB) (l : list AuditLog.t) : DB :=
  prisma.mk (prisma.projectAssessment db) (prisma.projectQuote db) l (prisma.revenueCategory db)
    (prisma.companyScale db) (prisma.basePricing db) (prisma.complexityTier db).

(** [process.env]: each rate variable is unset ([None]) or holds a decimal
    numeral; [TZ] is the time zone the process runs in. *)
Record Env := {
  BASE_RATE_CREATIVE : option Q;
  BASE_RATE_FULLSTACK : option Q;
  BASE_RATE_WEB3 : option Q;
  BASE_RATE_AI_AUTOMATION : option Q;
  TZ : TimeZone
}.

(** What a handler reads from the Express request.  [req_param] is the id
    in the path.  The tables are keyed by UUID columns, and the handlers are
    modelled for an id that is a well-formed UUID: for any other text the
    lookup by id raises a database error, which the handler passes on. *)
Record Request := {
  req_userId : option string;          (* req.userId *)
  req_param : string;                  (* req.params.projectId / req.params.quoteId *)
  req_reason : option JsonValue        (* req.body.reason *)
}.

Inductive PrismaError :=
  | NumericOverflow | UniqueConstraint | RecordNotFound
  (* a value bound to an INTEGER column does not fit it *)
  | IntegerOutOfRange (value : Z).

(** What a handler answers. *)
Inductive Reply :=
  (* res.status(code).json({ success: false, error }) *)
  | Failure (code : Z) (error : string)
  (* res.json({ success: true, message, quote }) *)
  | QuoteReply (message : option string) (quote : ProjectQuote.t)
  (* next(error) *)
  | Thrown (e : PrismaError).

(** Handlers thread the database through their Prisma calls; a response or
    an exception ends the handler, and the writes made so far stay. *)
Inductive Step (A : Type) :=
  | Continue (a : A)
  | Respond (r : Reply).
Arguments Continue {A} a.
Arguments Respond {A} r.

Definition Handler (A : Type) : Type := DB -> Step A * DB.

Definition pure {A} (a : A) : Handler A := fun db => (Continue a, db).
Definition respond {A} (r : Reply) : Handler A := fun db => (Respond r, db).
Definition bind {A B} (m : Handler A) (k : A -> Handler B) : Handler B :=
  fun db => match m db with
            | (Continue a, db') => k a db'
            | (Respond r, db') => (Respond r, db')
            end.
Definition when_ (b : bool) (r : Reply) : Handler unit :=
  if b then respond r else pure tt.
Definition read {A} (f : DB -> A) : Handler A := fun db => (Continue (f db), db).
Definition write (f : DB -> DB) : Handler unit := fun db => (Continue tt, f db).
Definition run (h : Handler Reply) (db : DB) : Reply * DB :=
  match h db with
  | (Continue r, db') => (r, db')
  | (Respond r, db') => (r, db')
  end.

Notation "'do' x <- m ; k" := (bind m (fun x => k))
  (at level 10, x name, m at level 100, k at level 200).

(* ===================================================================== *)
(** ** Rate tables and the complexity estimator (pricingController.ts)    *)
(* ===================================================================== *)

Section Rates.

Variable env : Env.

(** [parseFloat(process.env.X || 'dflt')]. *)
Definition rateFromEnv (v : option Q) (dflt : Q) : Q :=
  match v with
  | Some d => parseFloat d
  | None => parseFloat dflt
  end.

Definition BASE_RATES (t : ProjectType) : Q :=
  match t with
  | creative => rateFromEnv (BASE_RATE_CREATIVE env) 5000
  | fullstack => rateFromEnv (BASE_RATE_FULLSTACK env) 8000
  | web3 => rateFromEnv (BASE_RATE_WEB3 env) 12000
  | ai_automation => rateFromEnv (BASE_RATE_AI_AUTOMATION env) 10000
  end.

End Rates.

Definition COMPLEXITY_MULTIPLIERS (l : ComplexityLevel) : Q :=
  match l with
  | low => lit 1.0
  | medium => lit 1.3
  | high => lit 1.5
  | critical_level => lit 1.8
  end.

Definition URGENCY_MULTIPLIERS (u : Urgency) : Q :=
  match u with
  | standard => lit 1.0
  | urgent => lit 1.3
  | critical => lit 1.5
  end.

(** [['payment', 'blockchain', 'ai', 'custom_api'].includes(i.type)] *)
Definition isComplexIntegration (i : Integration) : bool :=
  match i_type i with
  | Some ty => existsb (String.eqb ty) ["payment"; "blockchain"; "ai"; "custom_api"]%string
  | None => false
  end.

(** [array.length] as a number. *)
Definition lengthOf {A} (l : list A) : Q := inject_Z (Z.of_nat (length l)).

Definition typeComplexity (t : ProjectType) : Q :=
  match t with
  | creative => lit 1.0
  | fullstack => lit 2.0
  | web3 => lit 3.0
  | ai_automation => lit 2.5
  end.

Definition calculateComplexity (projectType : ProjectType) (scope : option Scope)
    (urgency : Urgency) : Q :=
  let score := 0 in
  (* Feature count scoring *)
  let features := default [] (scope ≫= features) in
  let score := fadd score (Math.min (fmul (lengthOf features) (lit 0.5)) (lit 3.0)) in
  (* Integration complexity *)
  let integrations := default [] (scope ≫= integrations) in
  let complexIntegrations := List.filter isComplexIntegration integrations in
  let score := fadd score (Math.min (fmul (lengthOf complexIntegrations) (lit 0.8)) (lit 3.0)) in
  (* Timeline pressure *)
  let timeline :=
    match scope ≫= timeline with
    | Some s => if (s =? "")%string then "standard"%string else s
    | None => "standard"%string
    end in
  let score := if (timeline =? "urgent")%string then fadd score (lit 1.5) else score in
  let score := if (timeline =? "critical")%string then fadd score (lit 2.5) else score in
  (* Project type base complexity *)
  let score := fadd score (js_or (typeComplexity projectType) (lit 1.0)) in
  (* Urgency factor *)
  let score := match urgency with urgent => fadd score (lit 0.5) | _ => score end in
  let score := match urgency with critical => fadd score (lit 1.0) | _ => score end in
  (* Cap at 10.00 *)
  Math.min score (lit 10.0).

(** [project.complexityScore
        ? parseFloat(project.complexityScore.toString())
        : calculateComplexity(project.projectType, scope, project.urgency || 'standard')]
    (generateQuote, lines 268-273). *)
Definition complexityScoreOf (project : ProjectAssessment.t) : Q :=
  let scope := ProjectAssessment.projectScope project in
  match ProjectAssessment.complexityScore project with
  | Some d => parseFloat d
  | None => calculateComplexity (ProjectAssessment.projectType project) scope
              (default standard (ProjectAssessment.urgency project))
  end.

Definition complexityLevel (complexityScore : Q) : ComplexityLevel :=
  if ltb complexityScore 3 then low
  else if ltb complexityScore 6 then medium
  else if ltb complexityScore 8 then high
  else critical_level.

Definition baseTimeline (t : ProjectType) : Q :=
  match t with
  | creative => 4
  | fullstack => 8
  | web3 => 12
  | ai_automation => 10
  end.

(** The [data] object that [generateQuote] hands to
    [prisma.projectQuote.create] (pricingController.ts, lines 283-348),
    before the columns round it. *)
Module QuoteData.
Record t := mk {
  baseRate : Q;
  complexityAdjustment : Q;
  urgencyAdjustment : Q;
  totalEstimate : Q;
  notToExceed : Q;
  estimatedTimelineWeeks : Q;
  deliveryDate : Z;
  paymentStructure : PaymentStructure;
  validUntil : Z
}.
End QuoteData.

Definition quoteData (env : Env) (project : ProjectAssessment.t) (complexityScore : Q)
    (now : Z) : QuoteData.t :=
  (* Base rate for project type *)
  let baseRate := js_or (BASE_RATES env (ProjectAssessment.projectType project)) 5000 in
  (* Complexity adjustment *)
  let complexityMultiplier := COMPLEXITY_MULTIPLIERS (complexityLevel complexityScore) in
  let complexityAdjustment := fmul baseRate (fsub complexityMultiplier 1) in
  (* Urgency adjustment *)
  let urgencyMultiplier :=
    URGENCY_MULTIPLIERS (default standard (ProjectAssessment.urgency project)) in
  let urgencyAdjustment := fmul baseRate (fsub urgencyMultiplier 1) in
  (* Total estimate *)
  let totalEstimate := fadd (fadd baseRate complexityAdjustment) urgencyAdjustment in
  (* "Not to Exceed" guarantee (15% buffer) *)
  let notToExceed := Math.ceil (fmul totalEstimate (lit 1.15)) in
  (* Estimated timeline (weeks) *)
  let estimatedTimeline :=
    Math.ceil (fmul (js_or (baseTimeline (ProjectAssessment.projectType project)) 6)
                    complexityMultiplier) in
  {| QuoteData.baseRate := baseRate;
     QuoteData.complexityAdjustment := complexityAdjustment;
     QuoteData.urgencyAdjustment := urgencyAdjustment;
     QuoteData.totalEstimate := totalEstimate;
     QuoteData.notToExceed := notToExceed;
     QuoteData.estimatedTimelineWeeks := estimatedTimeline;
     (* Delivery date *)
     QuoteData.deliveryDate := setDate_plus (TZ env) now (Qfloor estimatedTimeline * 7);
     QuoteData.paymentStructure :=
       {| deposit := Math.round (fmul totalEstimate (lit 0.3));
          milestone_1 := Math.round (fmul totalEstimate (lit 0.3));
          milestone_2 := Math.round (fmul totalEstimate (lit 0.2));
          final := Math.round (fmul totalEstimate (lit 0.2)) |};
     (* Valid for 30 days *)
     QuoteData.validUntil := setDate_plus (TZ env) now 30 |}.

(* ===================================================================== *)
(** ** Prisma calls used by the quote controller                          *)
(* ===================================================================== *)

Definition isActive (s : QuoteStatus) : bool :=
  match s with
  | pending | sent | accepted => true
  | declined | expired => false
  end.

(** [findFirst({ where: { projectId, status: { in: ['pending', 'sent', 'accepted'] } } })] *)
Definition findFirstActiveQuote (quotes : gmap string ProjectQuote.t) (projectId : string)
    : option ProjectQuote.t :=
  snd <$> List.find
    (fun kq => String.eqb (ProjectQuote.projectId (snd kq)) projectId
               && isActive (ProjectQuote.status (snd kq)))
    (map_to_list quotes).

(** [!value]-style guards: a missing value answers [r]. *)
Definition require {A} (o : option A) (r : Reply) : Handler A :=
  match o with
  | Some a => pure a
  | None => respond r
  end.

(** [req.userId], falsy when undefined or empty. *)
Definition authenticated (req : Request) : option string :=
  match req_userId req with
  | Some u => if (u =? "")%string then None else Some u
  | None => None
  end.

(** [prisma.projectAssessment.update({ where: { id }, data: { complexityScore } })] *)
Definition updateComplexityScore (id : string) (complexityScore : Q) : Handler unit :=
  fun db =>
    match prisma.projectAssessment db !! id, toDecimal 3 2 complexityScore with
    | None, _ => (Respond (Thrown RecordNotFound), db)
    | Some _, None => (Respond (Thrown NumericOverflow), db)
    | Some p, Some d =>
        let p' := ProjectAssessment.mk (ProjectAssessment.id p) (ProjectAssessment.userId p)
                    (ProjectAssessment.projectType p) (ProjectAssessment.projectScope p)
                    (ProjectAssessment.urgency p) (Some d) (ProjectAssessment.status p) in
        (Continue tt, set_projectAssessment db (<[id := p']> (prisma.projectAssessment db)))
    end.

(** [prisma.projectAssessment.update({ where: { id }, data: { status } })] *)
Definition updateProjectStatus (id : string) (status : ProjectStatus) : Handler unit :=
  fun db =>
    match prisma.projectAssessment db !! id with
    | None => (Respond (Thrown RecordNotFound), db)
    | Some p =>
        let p' := ProjectAssessment.mk (ProjectAssessment.id p) (ProjectAssessment.userId p)
                    (ProjectAssessment.projectType p) (ProjectAssessment.projectScope p)
                    (ProjectAssessment.urgency p) (ProjectAssessment.complexityScore p) status in
        (Continue tt, set_projectAssessment db (<[id := p']> (prisma.projectAssessment db)))
    end.

(** [prisma.projectQuote.create({ data })]: the row gets a fresh primary key
    [uuid], the DECIMAL(10,2) and DATE columns round what they are given. *)
Definition createQuote (uuid projectId userId : string) (data : QuoteData.t)
    : Handler ProjectQuote.t :=
  fun db =>
    match prisma.projectQuote db !! uuid with
    | Some _ => (Respond (Thrown UniqueConstraint), db)
    | None =>
        match toDecimal 10 2 (QuoteData.baseRate data),
              toDecimal 10 2 (QuoteData.complexityAdjustment data),
              toDecimal 10 2 (QuoteData.urgencyAdjustment data),
              toDecimal 10 2 (QuoteData.totalEstimate data),
              toDecimal 10 2 (QuoteData.notToExceed data) with
        | Some baseRate, Some complexityAdjustment, Some urgencyAdjustment,
          Some totalEstimate, Some notToExceed =>
            let quote :=
              ProjectQuote.mk uuid projectId userId
                baseRate complexityAdjustment urgencyAdjustment totalEstimate notToExceed
                (Qfloor (QuoteData.estimatedTimelineWeeks data))
                (toDate (QuoteData.deliveryDate data))
                (QuoteData.paymentStructure data)
                false None
                (toDate (QuoteData.validUntil data))
                pending
                ∅ in
            (Continue quote, set_projectQuote db (<[uuid := quote]> (prisma.projectQuote db)))
        | _, _, _, _, _ => (Respond (Thrown NumericOverflow), db)
        end
    end.

(** [prisma.auditLog.create({ data })] *)
Definition createAuditLog (entry : AuditLog.t) : Handler unit :=
  write (fun db => set_auditLog db (prisma.auditLog db ++ [entry])).

(** [{ ...quote, baseRate: parseFloat(quote.baseRate.toString()), ... }] *)
Definition withNumbers (quote : ProjectQuote.t) : ProjectQuote.t :=
  ProjectQuote.mk (ProjectQuote.id quote) (ProjectQuote.projectId quote)
    (ProjectQuote.userId quote)
    (parseFloat (ProjectQuote.baseRate quote))
    (parseFloat (ProjectQuote.complexityAdjustment quote))
    (parseFloat (ProjectQuote.urgencyAdjustment quote))
    (parseFloat (ProjectQuote.totalEstimate quote))
    (parseFloat (ProjectQuote.notToExceed quote))
    (ProjectQuote.estimatedTimelineWeeks quote) (ProjectQuote.deliveryDate quote)
    (ProjectQuote.paymentStructure quote) (ProjectQuote.termsAccepted quote)
    (ProjectQuote.acceptedAt quote) (ProjectQuote.validUntil quote)
    (ProjectQuote.status quote) (ProjectQuote.metadata quote).

(* ===================================================================== *)
(** ** quoteController                                                    *)
(* ===================================================================== *)

(** POST /api/quotes/generate/:projectId.  [now] is the clock, [uuid] the
    key [gen_random_uuid()] draws for the new row. *)
Definition generateQuote (env : Env) (now : Z) (uuid : string) (req : Request)
    : DB -> Reply * DB :=
  run (
    let projectId := req_param req in
    do userId <- require (authenticated req) (Failure 401 "Unauthorized");
    (* Fetch project details *)
    do found <- read (fun db => prisma.projectAssessment db !! projectId);
    do project <- require found (Failure 404 "Project not found");
    (* Verify ownership *)
    do _ <- when_ (negb (ProjectAssessment.userId project =? userId)%string)
                  (Failure 403 "Access denied");
    (* Check if quote already exists *)
    do existingQuote <- read (fun db => findFirstActiveQuote (prisma.projectQuote db) projectId);
    do _ <- when_ (bool_decide (is_Some existingQuote))
                  (Failure 400 "Active quote already exists for this project");
    (* Calculate complexity if not already set *)
    let complexityScore := complexityScoreOf project in
    (* Update project with complexity score if not set *)
    do _ <- match ProjectAssessment.complexityScore project with
            | Some _ => pure tt
            | None => updateComplexityScore projectId complexityScore
            end;
    (* Create quote record *)
    do quote <- createQuote uuid projectId userId (quoteData env project complexityScore now);
    (* Update project status *)
    do _ <- updateProjectStatus projectId quote_generated;
    (* Log action *)
    do _ <- createAuditLog
              (AuditLog.mk userId "quote_generated" "quote" (ProjectQuote.id quote)
                 (Some (JObject [("projectId"%string, JString projectId)])));
    pure (QuoteReply (Some "Quote generated successfully"%string) (withNumbers quote))).

Definition QuoteStatus_toString (s : QuoteStatus) : string :=
  match s with
  | pending => "pending"
  | sent => "sent"
  | accepted => "accepted"
  | declined => "declined"
  | expired => "expired"
  end.

(** [prisma.projectQuote.update({ where: { id }, data })] *)
Definition updateQuote (id : string) (f : ProjectQuote.t -> ProjectQuote.t)
    : Handler ProjectQuote.t :=
  fun db =>
    match prisma.projectQuote db !! id with
    | None => (Respond (Thrown RecordNotFound), db)
    | Some q => (Continue (f q), set_projectQuote db (<[id := f q]> (prisma.projectQuote db)))
    end.

(** POST /api/quotes/:quoteId/accept *)
Definition acceptQuote (now : Z) (req : Request) : DB -> Reply * DB :=
  run (
    let quoteId := req_param req in
    do userId <- require (authenticated req) (Failure 401 "Unauthorized");
    do found <- read (fun db => prisma.projectQuote db !! quoteId);
    do quote <- require found (Failure 404 "Quote not found");
    (* Verify ownership *)
    do _ <- when_ (negb (ProjectQuote.userId quote =? userId)%string)
                  (Failure 403 "Access denied");
    (* Check if quote is still valid *)
    do _ <- when_ (now >? ProjectQuote.validUntil quote)%Z (Failure 400 "Quote has expired");
    (* Check if quote is in pending or sent status *)
    do _ <- when_ (match ProjectQuote.status quote with pending | sent => false | _ => true end)
                  (Failure 400 ("Quote cannot be accepted (status: "
                                ++ QuoteStatus_toString (ProjectQuote.status quote) ++ ")"));
    (* Update quote status *)
    do updatedQuote <- updateQuote quoteId (fun q =>
         ProjectQuote.mk (ProjectQuote.id q) (ProjectQuote.projectId q) (ProjectQuote.userId q)
           (ProjectQuote.baseRate q) (ProjectQuote.complexityAdjustment q)
           (ProjectQuote.urgencyAdjustment q) (ProjectQuote.totalEstimate q)
           (ProjectQuote.notToExceed q) (ProjectQuote.estimatedTimelineWeeks q)
           (ProjectQuote.deliveryDate q) (ProjectQuote.paymentStructure q)
           true (Some now) (ProjectQuote.validUntil q) accepted (ProjectQuote.metadata q));
    (* Update project status *)
    do _ <- updateProjectStatus (ProjectQuote.projectId quote) quote_accepted;
    (* Log action *)
    do _ <- createAuditLog (AuditLog.mk userId "quote_accepted" "quote" quoteId None);
    pure (QuoteReply (Some "Quote accepted successfully"%string) (withNumbers updatedQuote))).

(** [{ ...metadata, declineReason: reason, declinedAt: ... }] as it is
    stored in the JSONB column: a property whose value is [undefined] is
    left out of the stored object. *)
Definition declineMetadata (metadata : gmap string JsonValue) (reason : option JsonValue)
    (declinedAt : string) : gmap string JsonValue :=
  <["declinedAt"%string := JString declinedAt]>
    (match reason with
     | Some r => <["declineReason"%string := r]> metadata
     | None => delete "declineReason"%string metadata
     end).

(** POST /api/quotes/:quoteId/decline.  [toISOString] is
    [Date.prototype.toISOString]. *)
Definition declineQuote (toISOString : Z -> string) (now : Z) (req : Request)
    : DB -> Reply * DB :=
  run (
    let quoteId := req_param req in
    let reason := req_reason req in
    do userId <- require (authenticated req) (Failure 401 "Unauthorized");
    do found <- read (fun db => prisma.projectQuote db !! quoteId);
    do quote <- require found (Failure 404 "Quote not found");
    (* Verify ownership *)
    do _ <- when_ (negb (ProjectQuote.userId quote =? userId)%string)
                  (Failure 403 "Access denied");
    (* Update quote status *)
    do updatedQuote <- updateQuote quoteId (fun q =>
         ProjectQuote.mk (ProjectQuote.id q) (ProjectQuote.projectId q) (ProjectQuote.userId q)
           (ProjectQuote.baseRate q) (ProjectQuote.complexityAdjustment q)
           (ProjectQuote.urgencyAdjustment q) (ProjectQuote.totalEstimate q)
           (ProjectQuote.notToExceed q) (ProjectQuote.estimatedTimelineWeeks q)
           (ProjectQuote.deliveryDate q) (ProjectQuote.paymentStructure q)
           (ProjectQuote.termsAccepted q) (ProjectQuote.acceptedAt q)
           (ProjectQuote.validUntil q) declined
           (declineMetadata (ProjectQuote.metadata quote) reason (toISOString now)));
    (* Log action *)
    do _ <- createAuditLog
              (AuditLog.mk userId "quote_declined" "quote" quoteId
                 (Some (JObject match reason with
                                | Some r => [("reason"%string, r)]
                                | None => []
                                end)));
    pure (QuoteReply (Some "Quote declined"%string) updatedQuote)).

(* ===================================================================== *)
(** ** PricingService.calculatePricing (pricingService.ts)                *)
(* ===================================================================== *)

Module Breakdown.
Record t := mk { base : Q; scaleAdjustment : Q; complexityAdjustment : Q }.
End Breakdown.

Module PricingCalculation.
Record t := mk {
  basePricing : Q;
  scaleMultiplier : Q;
  complexityAdjustment : Q;
  finalPrice : Q;
  breakdown : Breakdown.t
}.
End PricingCalculation.

(** [throw new Error(message)], and an error that a call of the Prisma
    client raises and the service throws on. *)
Inductive Result (A : Type) :=
  | Ok (a : A)
  | Throw (message : string)
  | Raise (e : PrismaError).
Arguments Ok {A} a.
Arguments Throw {A} message.
Arguments Raise {A} e.

Definition toLowerAscii (c : Ascii.ascii) : Ascii.ascii :=
  let n := Ascii.nat_of_ascii c in
  if ((65 <=? n) && (n <=? 90))%nat then Ascii.ascii_of_nat (n + 32) else c.

Fixpoint toLower (s : string) : string :=
  match s with
  | EmptyString => EmptyString
  | String c rest => String (toLowerAscii c) (toLower rest)
  end.

(** [text LIKE pattern] of PostgreSQL, on ASCII text: in the pattern [%]
    stands for any run of characters, [_] for any one character, a backslash
    makes the character after it stand for itself, and every other character
    stands for itself.  The database raises an error when the match arrives
    at a backslash that ends the pattern; [like] answers [false] there, and
    the theorems on lookups leave keys with a backslash out. *)
Definition percent : Ascii.ascii := Ascii.ascii_of_nat 37.
Definition underscore : Ascii.ascii := Ascii.ascii_of_nat 95.
Definition backslash : Ascii.ascii := Ascii.ascii_of_nat 92.

(** [f] holds of [t] or of what is left of [t] after some of its first characters. *)
Fixpoint anySuffix (f : string -> bool) (t : string) : bool :=
  f t || match t with EmptyString => false | String _ t' => anySuffix f t' end.

Fixpoint like (pattern text : string) {struct pattern} : bool :=
  match pattern with
  | EmptyString => match text with EmptyString => true | String _ _ => false end
  | String p rest =>
      if Ascii.eqb p percent then anySuffix (like rest) text
      else if Ascii.eqb p underscore then
        match text with EmptyString => false | String _ t' => like rest t' end
      else if Ascii.eqb p backslash then
        match rest, text with
        | String q rest', String c t' => Ascii.eqb q c && like rest' t'
        | _, _ => false
        end
      else
        match text with EmptyString => false | String c t' => Ascii.eqb p c && like rest t' end
  end.

(** [{ equals: key, mode: 'insensitive' }]: the client sends
    [value ILIKE key], and the database compares the two in lower case, the
    key as a pattern. *)
Definition equalsInsensitive (value key : string) : bool :=
  like (toLower key) (toLower value).

(** ASCII text, and text without a backslash. *)
Definition isText (s : string) : bool :=
  forallb (fun c => (Ascii.nat_of_ascii c <? 128)%nat) (String.list_ascii_of_string s).

Definition noEscape (s : string) : bool :=
  forallb (fun c => negb (Ascii.eqb c backslash)) (String.list_ascii_of_string s).

(** A key without pattern characters. *)
Definition plainChar (c : Ascii.ascii) : bool :=
  negb (Ascii.eqb c percent) && negb (Ascii.eqb c underscore) && negb (Ascii.eqb c backslash).


(** [findFirst({ where })] over a table. *)
Definition findFirst {A} (where_ : A -> bool) (rows : list A) : option A :=
  List.find where_ rows.

(** [Number(decimal)] *)
Definition Number (d : Q) : Q := lit d.

Definition CategoryNotFound (revenueCategory : string) : string :=
  "Revenue category '" ++ revenueCategory ++ "' not found".

Definition ScaleNotFound (companyRevenueScale : string) : string :=
  "Company scale '" ++ companyRevenueScale ++ "' not found".

Definition PricingNotFound (bundleId revenueCategory companyRevenueScale : string) : string :=
  "No pricing found for bundle '" ++ bundleId ++ "', category '" ++ revenueCategory
  ++ "', and scale '" ++ companyRevenueScale ++ "'".

(** The [where] clauses of the four lookups. *)
Definition categoryWhere (revenueCategory : string) (r : RevenueCategory.t) : bool :=
  (RevenueCategory.code r =? revenueCategory)%string
  || equalsInsensitive (RevenueCategory.name r) revenueCategory.

Definition scaleWhere (companyRevenueScale : string) (r : CompanyScale.t) : bool :=
  (CompanyScale.code r =? companyRevenueScale)%string
  || equalsInsensitive (CompanyScale.name r) companyRevenueScale.

Definition pricingWhere (bundleId revenueCategoryId companyScaleId : string)
    (r : BasePricing.t) : bool :=
  (BasePricing.bundleId r =? bundleId)%string
  && (BasePricing.revenueCategoryId r =? revenueCategoryId)%string
  && (BasePricing.companyScaleId r =? companyScaleId)%string.

(** [rating] is an INTEGER column: no row has a rating that does not fit. *)
Definition tierWhere (complexityRating : Z) (r : ComplexityTier.t) : bool :=
  isInt4 complexityRating && (ComplexityTier.rating r =? complexityRating)%Z.

(** [Math.round(x * 100) / 100] *)
Definition round2 (x : Q) : Q := fdiv (Math.round (fmul x 100)) 100.

(** The arithmetic of [calculatePricing] (lines 269-286). *)
Definition pricingOf (base scaleMultiplier complexityMultiplier : Q) : PricingCalculation.t :=
  let scaleAdjustment := fmul base (fsub scaleMultiplier 1) in
  let complexityAdjustmentValue := fmul (fadd base scaleAdjustment) (fsub complexityMultiplier 1) in
  let finalPrice := fadd (fadd base scaleAdjustment) complexityAdjustmentValue in
  {| PricingCalculation.basePricing := base;
     PricingCalculation.scaleMultiplier := scaleMultiplier;
     PricingCalculation.complexityAdjustment := complexityMultiplier;
     PricingCalculation.finalPrice := round2 finalPrice;
     PricingCalculation.breakdown :=
       {| Breakdown.base := base;
          Breakdown.scaleAdjustment := round2 scaleAdjustment;
          Breakdown.complexityAdjustment := round2 complexityAdjustmentValue |} |}.

Definition calculatePricing (db : DB) (bundleId revenueCategory companyRevenueScale : string)
    (complexityRating : Z) : Result PricingCalculation.t :=
  (* Find revenue category *)
  match findFirst (categoryWhere revenueCategory) (prisma.revenueCategory db) with
  | None => Throw (CategoryNotFound revenueCategory)
  | Some revCategory =>
  (* Find company scale *)
  match findFirst (scaleWhere companyRevenueScale) (prisma.companyScale db) with
  | None => Throw (ScaleNotFound companyRevenueScale)
  | Some scale =>
  (* Find base pricing *)
  match findFirst (pricingWhere bundleId (RevenueCategory.id revCategory) (CompanyScale.id scale))
                  (prisma.basePricing db) with
  | None => Throw (PricingNotFound bundleId revenueCategory companyRevenueScale)
  | Some basePricing =>
  (* Find complexity tier: the client refuses a rating that does not fit the column *)
  if negb (isInt4 complexityRating) then Raise (IntegerOutOfRange complexityRating) else
  let complexityTier := findFirst (tierWhere complexityRating) (prisma.complexityTier db) in
  let complexityMultiplier :=
    match complexityTier with
    | Some tier => Number (ComplexityTier.adjustmentMultiplier tier)
    | None => lit 1.0
    end in
  (* Calculate pricing *)
  let base := Number (BasePricing.basePrice basePricing) in
  let scaleMultiplier := Number (CompanyScale.multiplier scale) in
  Ok (pricingOf base scaleMultiplier complexityMultiplier)
  end end end.

(* ===================================================================== *)
(** ** PricingController.calculatePricing (pricingController.ts)          *)
(* ===================================================================== *)

(** [req.body] of POST /api/pricing/calculate, for bodies in which each of
    the three keys is absent or a string and [complexityRating] is absent
    or an integer. *)
Module PricingBody.
Record t := mk {
  bundleId : option string;
  revenueCategory : option string;
  companyRevenueScale : option string;
  complexityRating : option Z
}.
End PricingBody.

Inductive PricingReply :=
  (* res.status(code).json({ success: false, error }) *)
  | PricingFailure (code : Z) (error : string)
  (* res.json({ success: true, pricing }) *)
  | PricingSuccess (pricing : PricingCalculation.t).

(** A string that is there and not empty: [!s] is false. *)
Definition truthy (s : option string) : option string :=
  match s with
  | Some v => if (v =? "")%string then None else Some v
  | None => None
  end.

(** [messageOf e] is the [message] of the error [e] of the Prisma client. *)
Module PricingController.
Definition calculatePricing (messageOf : PrismaError -> string) (db : DB)
    (body : PricingBody.t) : PricingReply :=
  match truthy (PricingBody.bundleId body),
        truthy (PricingBody.revenueCategory body),
        truthy (PricingBody.companyRevenueScale body) with
  | Some bundleId, Some revenueCategory, Some companyRevenueScale =>
      (* complexityRating || 5 *)
      let complexityRatingValue :=
        match PricingBody.complexityRating body with
        | Some r => if (r =? 0)%Z then 5%Z else r
        | None => 5%Z
        end in
      match calculatePricing db bundleId revenueCategory companyRevenueScale
              complexityRatingValue with
      | Ok pricing => PricingSuccess pricing
      | Throw message =>
          (* error.message || 'Failed to calculate pricing' *)
          PricingFailure 500
            (if (message =? "")%string then "Failed to calculate pricing"%string else message)
      | Raise e =>
          PricingFailure 500
            (if (messageOf e =? "")%string then "Failed to calculate pricing"%string
             else messageOf e)
      end
  | _, _, _ =>
      PricingFailure 400 "bundleId, revenueCategory, and companyRevenueScale are required"
  end.
End PricingController.

(* ===================================================================== *)
(** ** otpService: WhatsApp one-time codes (otpService.ts)                *)
(* ===================================================================== *)

Inductive OtpType := email | whatsapp | phone.

(** A row of [otp_verifications], without its primary key [id]. *)
Module OtpVerification.
Record t := mk {
  userId : string;
  otpType : OtpType;
  otpCode : string;                (* VARCHAR(6) *)
  destination : string;            (* VARCHAR(255) *)
  verified : bool;
  expiresAt : Z;                   (* TIMESTAMPTZ, milliseconds since the epoch *)
  createdAt : Z                    (* TIMESTAMPTZ DEFAULT CURRENT_TIMESTAMP *)
}.
End OtpVerification.

(** The tables that otpService reads and writes: the ids of [users] (the
    target of the foreign key of [otp_verifications.user_id]) and the rows
    of [otp_verifications] by their primary key [id]. *)
Module otpTables.
Record DB := mk {
  user : gset string;
  otpVerification : gmap string OtpVerification.t
}.
End otpTables.

(** [n.toString()] for an integer [0 <= n < 10^21]: its decimal digits. *)
Definition digit (d : Z) : Ascii.ascii := Ascii.ascii_of_nat (48 + Z.to_nat d).

Fixpoint digits (fuel : nat) (n : Z) (acc : string) : string :=
  match fuel with
  | O => acc
  | S fuel' =>
      let acc' := String (digit (n mod 10)) acc in
      if (n <? 10)%Z then acc' else digits fuel' (n / 10) acc'
  end.

Definition Number_toString (n : Q) : string := digits 21 (Qfloor n) "".

(** [Math.floor(100000 + Math.random() * 900000).toString()], [random]
    being what [Math.random()] returned. *)
Definition generateOtpCode (random : Q) : string :=
  Number_toString (Math.floor (fadd 100000 (fmul random 900000))).

(** [prisma.otpVerification.create({ data })]: [None] when the insert is
    refused (primary key taken, no such user, value too long for its
    column). [uuid] is the key [gen_random_uuid()] draws, [dbNow] the clock
    of the database. *)
Definition createOtpVerification (uuid : string) (dbNow : Z)
    (userId : string) (otpType : OtpType) (otpCode destination : string) (expiresAt : Z)
    (db : otpTables.DB) : option otpTables.DB :=
  if bool_decide (is_Some (otpTables.otpVerification db !! uuid)) then None
  else if negb (bool_decide (userId ∈ otpTables.user db)) then None
  else if (6 <? String.length otpCode)%nat then None
  else if (255 <? String.length destination)%nat then None
  else
    Some (otpTables.mk (otpTables.user db)
            (<[uuid := OtpVerification.mk userId otpType otpCode destination false
                         expiresAt dbNow]> (otpTables.otpVerification db))).

(** [sendWhatsAppOTP(phoneNumber, userId)].  [now] is the clock of the
    server and [tz] its time zone; [delivered] tells whether
    [twilioClient.messages.create] resolved. *)
Definition sendWhatsAppOTP (tz : TimeZone) (random : Q) (now dbNow : Z) (uuid : string)
    (delivered : bool) (phoneNumber userId : string) (db : otpTables.DB)
    : Result string * otpTables.DB :=
  (* Generate 6-digit OTP *)
  let otpCode := generateOtpCode random in
  (* Set expiration to 5 minutes from now *)
  let expiresAt := setMinutes_plus tz now 5 in
  (* Save OTP to database *)
  match createOtpVerification uuid dbNow userId whatsapp otpCode phoneNumber expiresAt db with
  | None => (Throw "Failed to send WhatsApp OTP", db)
  | Some db' =>
      (* Send OTP via WhatsApp *)
      if delivered then (Ok otpCode, db')
      else (Throw "Failed to send WhatsApp OTP", db')
  end.

(** The [where] clause of [verifyOTP]. *)
Definition otpWhere (phoneNumber otpCode : string) (now : Z) (r : OtpVerification.t) : bool :=
  (OtpVerification.destination r =? phoneNumber)%string
  && (OtpVerification.otpCode r =? otpCode)%string
  && negb (OtpVerification.verified r)
  && (now <=? OtpVerification.expiresAt r)%Z.

Definition later (a b : string * OtpVerification.t) : string * OtpVerification.t :=
  if (OtpVerification.createdAt (snd a) <? OtpVerification.createdAt (snd b))%Z then b else a.

(** [findFirst({ where, orderBy: { createdAt: 'desc' } })]: a matching row
    that no other matching row is created after, with its [id].  Which one
    the database returns among rows created at the same instant is not
    determined; here it is the first of them in the order of the keys. *)
Definition findFirstLatest (where_ : OtpVerification.t -> bool)
    (rows : gmap string OtpVerification.t) : option (string * OtpVerification.t) :=
  match List.filter (fun kr => where_ (snd kr)) (map_to_list rows) with
  | [] => None
  | kr :: rest => Some (fold_left later rest kr)
  end.

(** [verifyOTP(phoneNumber, otpCode)] *)
Definition verifyOTP (now : Z) (phoneNumber otpCode : string) (db : otpTables.DB)
    : bool * otpTables.DB :=
  match findFirstLatest (otpWhere phoneNumber otpCode now) (otpTables.otpVerification db) with
  | None => (false, db)
  | Some (id, otpRecord) =>
      (* Mark OTP as verified *)
      let row :=
        OtpVerification.mk (OtpVerification.userId otpRecord)
          (OtpVerification.otpType otpRecord) (OtpVerification.otpCode otpRecord)
          (OtpVerification.destination otpRecord) true
          (OtpVerification.expiresAt otpRecord) (OtpVerification.createdAt otpRecord) in
      (true, otpTables.mk (otpTables.user db) (<[id := row]> (otpTables.otpVerification db)))
  end.

(* ===================================================================== *)
(** ** Properties named by the specification                              *)
(* ===================================================================== *)

(** The project-type base contribution, as the specification lists it. *)
Definition baseContribution (t : ProjectType) : Q :=
  match t with
  | creative => 1
  | fullstack => 2
  | web3 => 3
  | ai_automation => 5 # 2
  end.

(** At most one quote per project is pending, sent or accepted. *)
Definition at_most_one_active (quotes : gmap string ProjectQuote.t) : Prop :=
  forall (i j : string) (qi qj : ProjectQuote.t),
    quotes !! i = Some qi -> quotes !! j = Some qj ->
    ProjectQuote.projectId qi = ProjectQuote.projectId qj ->
    isActive (ProjectQuote.status qi) = true ->
    isActive (ProjectQuote.status qj) = true ->
    i = j.

(** A text matches a pattern: [%] stands for any run of characters, [_] for
    one character, a backslash and a character for that character, any
    other character for itself. *)
Inductive Like : string -> string -> Prop :=
  | Like_end : Like "" ""
  | Like_run_none (p t : string) :
      Like p t -> Like (String percent p) t
  | Like_run_more (p : string) (c : Ascii.ascii) (t : string) :
      Like (String percent p) t -> Like (String percent p) (String c t)
  | Like_one (p : string) (c : Ascii.ascii) (t : string) :
      Like p t -> Like (String underscore p) (String c t)
  | Like_escaped (c : Ascii.ascii) (p t : string) :
      Like p t -> Like (String backslash (String c p)) (String c t)
  | Like_same (c : Ascii.ascii) (p t : string) :
      plainChar c = true -> Like p t -> Like (String c p) (String c t).

(** A row answers a key by its code, letter for letter, or by its display
    name, which the key matches as a pattern, letter case ignored. *)
Definition categoryMatches (key : string) (r : RevenueCategory.t) : Prop :=
  RevenueCategory.code r = key \/ Like (toLower key) (toLower (RevenueCategory.name r)).

Definition scaleMatches (key : string) (r : CompanyScale.t) : Prop :=
  CompanyScale.code r = key \/ Like (toLower key) (toLower (CompanyScale.name r)).

(* ===================================================================== *)
(** ** Sample inputs                                                      *)
(* ===================================================================== *)

(** The zone of a server that runs in UTC. *)
Definition utc : TimeZone := fun _ _ => 0%Z.

(** No rate variable is set; the server runs in UTC. *)
Definition default_env : Env :=
  {| BASE_RATE_CREATIVE := None; BASE_RATE_FULLSTACK := None;
     BASE_RATE_WEB3 := None; BASE_RATE_AI_AUTOMATION := None; TZ := utc |}.

Definition example_scope : Scope :=
  {| features := Some [JString "catalog"; JString "cart"; JString "checkout"; JString "admin"];
     integrations := Some [ {| i_type := Some "payment"%string |};
                            {| i_type := Some "payment"%string |} ];
     timeline := None |}.

Definition example_project : ProjectAssessment.t :=
  ProjectAssessment.mk "p1" "u1" fullstack (Some example_scope) (Some urgent) None initiated.

Definition example_db : DB :=
  prisma.mk {[ "p1"%string := example_project ]} ∅ [] [] [] [] [].

Definition example_request : Request :=
  {| req_userId := Some "u1"%string; req_param := "p1"%string; req_reason := None |}.

(** The revenue categories and company scales of [seedController.ts]. *)
Definition seed_categories : list RevenueCategory.t :=
  [ RevenueCategory.mk "rc-1" "SaaS" "saas";
    RevenueCategory.mk "rc-2" "E-Commerce" "ecommerce";
    RevenueCategory.mk "rc-3" "Consulting" "consulting";
    RevenueCategory.mk "rc-4" "Agency" "agency";
    RevenueCategory.mk "rc-5" "Marketplace" "marketplace";
    RevenueCategory.mk "rc-6" "Fintech" "fintech";
    RevenueCategory.mk "rc-7" "Healthcare" "healthcare" ].

Definition seed_scales : list CompanyScale.t :=
  [ CompanyScale.mk "cs-1" "Pre-Revenue" "pre_revenue" 0.5;
    CompanyScale.mk "cs-2" "Startup (< $100K)" "startup_100k" 1.0;
    CompanyScale.mk "cs-3" "Small ($100K - $1M)" "small_1m" 1.2;
    CompanyScale.mk "cs-4" "Medium ($1M - $10M)" "medium_10m" 1.5;
    CompanyScale.mk "cs-5" "Large ($10M - $50M)" "large_50m" 2.0;
    CompanyScale.mk "cs-6" "Enterprise ($50M+)" "enterprise_50m_plus" 3.0 ].

Definition seed_tiers : list ComplexityTier.t :=
  [ ComplexityTier.mk 1 "Very Simple" 0.7;
    ComplexityTier.mk 2 "Simple" 0.85;
    ComplexityTier.mk 3 "Low-Medium" 0.95;
    ComplexityTier.mk 4 "Medium" 1.0;
    ComplexityTier.mk 5 "Medium-High" 1.1;
    ComplexityTier.mk 6 "High" 1.2;
    ComplexityTier.mk 7 "Very High" 1.35;
    ComplexityTier.mk 8 "Extremely High" 1.5;
    ComplexityTier.mk 9 "Expert Level" 1.75;
    ComplexityTier.mk 10 "Maximum" 2.0 ].

(** A price row of 5000 for the SaaS category at the medium scale. *)
Definition pricing_db : DB :=
  prisma.mk ∅ ∅ [] seed_categories seed_scales
    [ BasePricing.mk "bundle_saas_pro" "rc-1" "cs-4" 5000 ]
    seed_tiers.

(** A stored quote of the example project, in a given status. *)
Definition sample_quote (status : QuoteStatus) : ProjectQuote.t :=
  ProjectQuote.mk "q1" "p1" "u1" 8000 4000 2400 14400 16560 12 7257600000
    {| deposit := 4320; milestone_1 := 4320; milestone_2 := 2880; final := 2880 |}
    false None 2592000000 status ∅.

Definition quote_db (status : QuoteStatus) : DB :=
  prisma.mk {[ "p1"%string := example_project ]} {[ "q1"%string := sample_quote status ]}
    [] [] [] [] [].

Definition quote_request (reason : option JsonValue) : Request :=
  {| req_userId := Some "u1"%string; req_param := "q1"%string; req_reason := reason |}.

(** The rates and multipliers of the quote calculator, for checking the
    arithmetic against [SpecFloat]. *)
Definition sample_grid : list (Q * Q * Q) :=
  b ← [5000; 8000; 12000; 10000];
  m ← [lit 1.0; lit 1.3; lit 1.5; lit 1.8];
  u ← [lit 1.0; lit 1.3; lit 1.5];
  [(b, m, u)].

Definition quote_total (b m u : Q) : Q :=
  fadd (fadd b (fmul b (fsub m 1))) (fmul b (fsub u 1)).

Definition quote_total_spec (b m u : Q) : spec_float :=
  let one := to_spec 1 in
  SFadd 53 1024
    (SFadd 53 1024 (to_spec b) (SFmul 53 1024 (to_spec b) (SFsub 53 1024 (to_spec m) one)))
    (SFmul 53 1024 (to_spec b) (SFsub 53 1024 (to_spec u) one)).

(** BASE_RATE_CREATIVE=4995, and a creative project rated 7.00. *)
Definition env_4995 : Env :=
  {| BASE_RATE_CREATIVE := Some 4995; BASE_RATE_FULLSTACK := None;
     BASE_RATE_WEB3 := None; BASE_RATE_AI_AUTOMATION := None; TZ := utc |}.

Definition creative_project : ProjectAssessment.t :=
  ProjectAssessment.mk "p1" "u1" creative None None (Some 7) assessment_complete.

Definition creative_db : DB :=
  prisma.mk {[ "p1"%string := creative_project ]} ∅ [] [] [] [] [].




(** A zone five hours behind UTC that moves its clocks one hour forward at
    the instant [spring] (2026-03-08T07:00:00Z): a local time before 03:00
    of that day is read with the offset of before the change. *)
Definition hour : Z := 3600000.
Definition spring : Z := 1772953200000.

Definition spring_zone : TimeZone :=
  fun t isUTC =>
    if isUTC then (if t <? spring then - 5 * hour else - 4 * hour)%Z
    else (if t <? spring - 4 * hour then - 5 * hour else - 4 * hour)%Z.

Definition spring_env : Env :=
  {| BASE_RATE_CREATIVE := None; BASE_RATE_FULLSTACK := None;
     BASE_RATE_WEB3 := None; BASE_RATE_AI_AUTOMATION := None; TZ := spring_zone |}.

(** BASE_RATE_CREATIVE=-1000. *)
Definition env_negative : Env :=
  {| BASE_RATE_CREATIVE := Some (- 1000); BASE_RATE_FULLSTACK := None;
     BASE_RATE_WEB3 := None; BASE_RATE_AI_AUTOMATION := None; TZ := utc |}.

(** A web3 project whose scope and urgency take the complexity score to
    its cap: 6 features, 4 integrations of the complex kinds, a critical
    timeline. *)
Definition maximal_scope : Scope :=
  {| features := Some [JString "wallet"; JString "swap"; JString "staking";
                       JString "bridge"; JString "governance"; JString "analytics"];
     integrations := Some [ {| i_type := Some "blockchain"%string |};
                            {| i_type := Some "payment"%string |};
                            {| i_type := Some "ai"%string |};
                            {| i_type := Some "custom_api"%string |} ];
     timeline := Some "critical"%string |}.

Definition maximal_project : ProjectAssessment.t :=
  ProjectAssessment.mk "p1" "u1" web3 (Some maximal_scope) (Some critical) None initiated.

Definition maximal_db : DB :=
  prisma.mk {[ "p1"%string := maximal_project ]} ∅ [] [] [] [] [].

(** The same project with two features and one integration. *)
Definition small_scope : Scope :=
  {| features := Some [JString "wallet"; JString "swap"];
     integrations := Some [ {| i_type := Some "blockchain"%string |};
                            {| i_type := Some "email"%string |} ];
     timeline := Some "critical"%string |}.

(** A price row of 1999.99 for the SaaS category at the startup scale, whose
    multiplier is 1.0. *)
Definition startup_db : DB :=
  prisma.mk ∅ ∅ [] seed_categories seed_scales
    [ BasePricing.mk "bundle_starter" "rc-1" "cs-2" 1999.99 ]
    seed_tiers.

(** BASE_RATE_FULLSTACK=60000000: the total of the example project then
    needs more than the 10 digits of its column. *)
Definition env_60m : Env :=
  {| BASE_RATE_CREATIVE := None; BASE_RATE_FULLSTACK := Some 60000000;
     BASE_RATE_WEB3 := None; BASE_RATE_AI_AUTOMATION := None; TZ := utc |}.

(** Request bodies of POST /api/pricing/calculate. *)
Definition unknown_category_body : PricingBody.t :=
  PricingBody.mk (Some "bundle_saas_pro"%string) (Some "crypto"%string)
    (Some "medium_10m"%string) None.

(** One user, no code sent yet. *)
Definition otp_db : otpTables.DB := otpTables.mk {[ "u1"%string ]} ∅.

(* ===================================================================== *)
(** ** Facts about binary64 rounding                                      *)
(* ===================================================================== *)

Section Pow2.

Lemma pow2_pos (e : Z) : 0 < 2 ^ e.
Proof. apply Qpower_0_lt. reflexivity. Qed.

Lemma pow2_add (a b : Z) : 2 ^ (a + b) == 2 ^ a * 2 ^ b.
Proof. apply Qpower_plus. discriminate. Qed.

Lemma pow2_succ (e : Z) : 2 ^ (e + 1) == 2 * 2 ^ e.
Proof. rewrite pow2_add. change (2 ^ 1) with 2. ring. Qed.

Lemma pow2_le (a b : Z) : (a <= b)%Z -> 2 ^ a <= 2 ^ b.
Proof. intros H. apply Qpower_le_compat_l; [exact H | discriminate]. Qed.

Lemma pow2_lt_inv (a b : Z) : 2 ^ a < 2 ^ b -> (a < b)%Z.
Proof.
  intros H. destruct (Z_lt_le_dec a b) as [L | L]; [exact L | exfalso].
  apply pow2_le in L. lra.
Qed.

Lemma pow2_Z (n : Z) : (0 <= n)%Z -> inject_Z (2 ^ n) == 2 ^ n.
Proof. intros H. rewrite Zpower_Qpower by exact H. reflexivity. Qed.

End Pow2.

Section Ilog2.

Lemma Qmake_pos_num (q : Q) : 0 < q -> (0 < Qnum q)%Z.
Proof. destruct q as [n d]. unfold Qlt. simpl. lia. Qed.

Lemma Z_log2_Q (n : Z) : (0 < n)%Z ->
  2 ^ (Z.log2 n) <= inject_Z n /\ inject_Z n < 2 ^ (Z.log2 n + 1).
Proof.
  intros H. destruct (Z.log2_spec n H) as [L U].
  pose proof (Z.log2_nonneg n) as N.
  rewrite <- !pow2_Z by lia. rewrite <- Zle_Qle, <- Zlt_Qlt.
  replace (Z.log2 n + 1)%Z with (Z.succ (Z.log2 n)) by lia. split; assumption.
Qed.

Lemma ilog2_spec (q : Q) : 0 < q -> 2 ^ (ilog2 q) <= q /\ q < 2 ^ (ilog2 q + 1).
Proof.
  intros Hq. pose proof (Qmake_pos_num q Hq) as Hn.
  destruct (Z_log2_Q (Qnum q) Hn) as [Ln Un].
  destruct (Z_log2_Q (Zpos (Qden q)) eq_refl) as [Ld Ud].
  assert (Eq : q * inject_Z (Zpos (Qden q)) == inject_Z (Qnum q)).
  { destruct q as [n d]. unfold Qeq, Qmult, inject_Z. simpl. lia. }
  assert (Dpos : 0 < inject_Z (Zpos (Qden q))) by (unfold Qlt; simpl; lia).
  unfold ilog2.
  set (a := Z.log2 (Qnum q)) in *. set (b := Z.log2 (Zpos (Qden q))) in *.
  set (D := inject_Z (Zpos (Qden q))) in *. set (N := inject_Z (Qnum q)) in *.
  pose proof (pow2_pos (a - b)) as P0.
  pose proof (pow2_pos b) as Pb.
  assert (E1 : 2 ^ (a - b) * 2 ^ b == 2 ^ a).
  { rewrite <- pow2_add. replace (a - b + b)%Z with a by lia. reflexivity. }
  assert (E2 : 2 ^ (a - b + 1) == 2 * 2 ^ (a - b)) by apply pow2_succ.
  assert (E3 : 2 ^ (a - b) == 2 * 2 ^ (a - b - 1)).
  { rewrite <- pow2_succ. replace (a - b - 1 + 1)%Z with (a - b)%Z by lia. reflexivity. }
  assert (E4 : 2 ^ (b + 1) == 2 * 2 ^ b) by apply pow2_succ.
  assert (E5 : 2 ^ (a + 1) == 2 * 2 ^ a) by apply pow2_succ.
  assert (Up : q < 2 ^ (a - b + 1)).
  { rewrite E2. apply Qnot_le_lt. intros C.
    assert (2 * 2 ^ (a - b) * 2 ^ b <= q * D) by nra. nra. }
  assert (Lo : 2 ^ (a - b - 1) <= q).
  { apply Qnot_lt_le. intros C.
    assert (q * D <= 2 ^ (a - b - 1) * 2 ^ (b + 1)) by nra. nra. }
  destruct (Qle_bool (2 ^ (a - b)) q) eqn:B.
  - apply Qle_bool_iff in B. split; assumption.
  - assert (B' : q < 2 ^ (a - b)).
    { apply Qnot_le_lt. intros C. apply Qle_bool_iff in C. congruence. }
    replace (a - b - 1 + 1)%Z with (a - b)%Z by lia. split; assumption.
Qed.

Lemma ilog2_unique (q : Q) (e : Z) :
  2 ^ e <= q -> q < 2 ^ (e + 1) -> ilog2 q = e.
Proof.
  intros L U. assert (Hq : 0 < q) by (pose proof (pow2_pos e); lra).
  destruct (ilog2_spec q Hq) as [L' U'].
  assert ((e < ilog2 q + 1)%Z) by (apply pow2_lt_inv; lra).
  assert ((ilog2 q < e + 1)%Z) by (apply pow2_lt_inv; lra).
  lia.
Qed.

Lemma ilog2_comp (x y : Q) : 0 < x -> x == y -> ilog2 x = ilog2 y.
Proof.
  intros Hx E. destruct (ilog2_spec x Hx) as [L U].
  symmetry. apply ilog2_unique; rewrite <- E; assumption.
Qed.

Lemma ilog2_le (x y : Q) : 0 < x -> x <= y -> (ilog2 x <= ilog2 y)%Z.
Proof.
  intros Hx Hxy. destruct (ilog2_spec x Hx) as [L _].
  destruct (ilog2_spec y ltac:(lra)) as [_ U].
  assert ((ilog2 x < ilog2 y + 1)%Z) by (apply pow2_lt_inv; lra). lia.
Qed.

End Ilog2.

Section Rne.

Lemma Qfloor_bounds (x : Q) : inject_Z (Qfloor x) <= x /\ x < inject_Z (Qfloor x) + 1.
Proof.
  split; [apply Qfloor_le |].
  pose proof (Qlt_floor x) as H. rewrite inject_Z_plus in H. exact H.
Qed.

Lemma inject_Z_sub (x y : Z) : inject_Z (x - y) = inject_Z x - inject_Z y.
Proof. unfold Z.sub, Qminus. rewrite inject_Z_plus, inject_Z_opp. reflexivity. Qed.

Lemma rne_cases (x : Q) :
  let f := Qfloor x in
  (x - inject_Z f < 1 # 2 /\ rne x = f) \/
  (1 # 2 < x - inject_Z f /\ rne x = (f + 1)%Z) \/
  (x - inject_Z f == 1 # 2 /\ rne x = if Z.even f then f else (f + 1)%Z).
Proof.
  intros f. unfold rne. fold f.
  destruct (Qcompare (x - inject_Z f) (1 # 2)) eqn:C.
  - right; right. split; [apply (proj2 (Qeq_alt _ _)); exact C | reflexivity].
  - left. split; [apply (proj2 (Qlt_alt _ _)); exact C | reflexivity].
  - right; left. split; [apply (proj2 (Qgt_alt _ _)); exact C | reflexivity].
Qed.

Lemma rne_comp (x y : Q) : x == y -> rne x = rne y.
Proof.
  intros E. unfold rne. rewrite (Qfloor_comp x y E).
  rewrite (Qcompare_comp (x - inject_Z (Qfloor y)) (y - inject_Z (Qfloor y))
             ltac:(rewrite E; reflexivity) (1 # 2) (1 # 2) ltac:(reflexivity)).
  reflexivity.
Qed.

Lemma rne_Z (z : Z) : rne (inject_Z z) = z.
Proof.
  unfold rne. rewrite Qfloor_Z.
  replace (Qcompare (inject_Z z - inject_Z z) (1 # 2)) with Lt; [reflexivity |].
  symmetry. apply (proj1 (Qlt_alt _ _)). lra.
Qed.

Lemma rne_err (x : Q) :
  inject_Z (rne x) - x <= 1 # 2 /\ x - inject_Z (rne x) <= 1 # 2.
Proof.
  pose proof (Qfloor_bounds x) as [L U].
  destruct (rne_cases x) as [[C ->] | [[C ->] | [C ->]]].
  - lra.
  - rewrite inject_Z_plus. change (inject_Z 1) with 1. lra.
  - destruct (Z.even (Qfloor x)).
    + lra.
    + rewrite inject_Z_plus. change (inject_Z 1) with 1. lra.
Qed.

Lemma rne_floor_or_succ (x : Q) : rne x = Qfloor x \/ rne x = (Qfloor x + 1)%Z.
Proof.
  destruct (rne_cases x) as [[_ ->] | [[_ ->] | [_ ->]]]; auto.
  destruct (Z.even (Qfloor x)); auto.
Qed.

Lemma rne_le (x y : Q) : x <= y -> (rne x <= rne y)%Z.
Proof.
  intros H. pose proof (Qfloor_resp_le x y H) as F.
  destruct (Z.eq_dec (Qfloor x) (Qfloor y)) as [E | NE].
  - destruct (rne_cases x) as [[Cx Rx] | [[Cx Rx] | [Cx Rx]]];
    destruct (rne_cases y) as [[Cy Ry] | [[Cy Ry] | [Cy Ry]]];
    rewrite Rx, Ry; rewrite E in *; try lia; try (exfalso; lra);
    destruct (Z.even (Qfloor y)); lia.
  - destruct (rne_floor_or_succ x) as [-> | ->];
    destruct (rne_floor_or_succ y) as [-> | ->]; lia.
Qed.

Lemma rne_opp (x : Q) : rne (- x) = (- rne x)%Z.
Proof.
  pose proof (Qfloor_bounds x) as [L U].
  pose proof (Qfloor_bounds (- x)) as [L' U'].
  destruct (Qeq_dec x (inject_Z (Qfloor x))) as [I | NI].
  - rewrite (rne_comp x _ I), rne_Z.
    rewrite (rne_comp (- x) (inject_Z (- Qfloor x))).
    + apply rne_Z.
    + rewrite inject_Z_opp, <- I. reflexivity.
  - assert (F : Qfloor (- x) = (- Qfloor x - 1)%Z).
    { assert (A : (Qfloor (- x) < - Qfloor x)%Z).
      { rewrite Zlt_Qlt. rewrite inject_Z_opp.
        destruct (Qle_lt_or_eq _ _ L) as [S | S]; [lra | exfalso; apply NI; symmetry; exact S]. }
      assert (B : (- Qfloor x - 1 < Qfloor (- x) + 1)%Z).
      { rewrite Zlt_Qlt. rewrite inject_Z_plus, inject_Z_sub, inject_Z_opp.
        change (inject_Z 1) with 1. lra. }
      lia. }
    assert (FQ : inject_Z (Qfloor (- x)) == - inject_Z (Qfloor x) - 1).
    { rewrite F, inject_Z_sub, inject_Z_opp. reflexivity. }
    destruct (rne_cases x) as [[Cx Rx] | [[Cx Rx] | [Cx Rx]]];
    destruct (rne_cases (- x)) as [[Cy Ry] | [[Cy Ry] | [Cy Ry]]];
    cbv zeta in *; rewrite Rx, Ry; rewrite ?FQ in *; try (exfalso; lra); try lia.
    rewrite F. rewrite Z.even_sub, Z.even_opp. simpl.
    destruct (Z.even (Qfloor x)); simpl; lia.
Qed.

End Rne.

Section Rnd.

Lemma Qdiv_cancel (q u : Q) : 0 < u -> (q / u) * u == q.
Proof. intros H. field. lra. Qed.

Lemma ulp_pos (q : Q) : 0 < ulp q.
Proof. apply pow2_pos. Qed.

Lemma ulp_comp (x y : Q) : ~ x == 0 -> x == y -> ulp x = ulp y.
Proof.
  intros Hx E. unfold ulp. f_equal. f_equal. apply ilog2_comp.
  - pose proof (Qabs_nonneg x) as N.
    destruct (Qle_lt_or_eq _ _ N) as [S | S]; [exact S | exfalso].
    apply Hx. revert S. apply Qabs_case; intros; lra.
  - rewrite E. reflexivity.
Qed.

Lemma ulp_of_pos (q : Q) : 0 < q -> ulp q = 2 ^ (ilog2 q - 52).
Proof.
  intros H. unfold ulp. f_equal. f_equal. apply ilog2_comp.
  - rewrite Qabs_pos; lra.
  - apply Qabs_pos. lra.
Qed.

Lemma ulp_opp (q : Q) : ~ q == 0 -> ulp (- q) = ulp q.
Proof.
  intros H. unfold ulp. f_equal. f_equal. apply ilog2_comp.
  - rewrite Qabs_opp. pose proof (Qabs_nonneg q) as N.
    destruct (Qle_lt_or_eq _ _ N) as [S | S]; [exact S | exfalso].
    apply H. revert S. apply Qabs_case; intros; lra.
  - apply Qabs_opp.
Qed.

Lemma rnd_0 : rnd 0 = 0.
Proof. reflexivity. Qed.

Lemma rnd_zero (q : Q) : q == 0 -> rnd q = 0.
Proof. intros H. unfold rnd. apply Qeq_bool_iff in H. rewrite H. reflexivity. Qed.

Lemma rnd_nz (q : Q) : ~ q == 0 -> rnd q == inject_Z (rne (q / ulp q)) * ulp q.
Proof.
  intros H. unfold rnd. destruct (Qeq_bool q 0) eqn:B.
  - apply Qeq_bool_iff in B. contradiction.
  - apply Qred_correct.
Qed.

Lemma rnd_comp (x y : Q) : x == y -> rnd x = rnd y.
Proof.
  intros E. destruct (Qeq_dec x 0) as [Z | NZ].
  - rewrite (rnd_zero x Z), (rnd_zero y); [reflexivity | rewrite <- E; exact Z].
  - unfold rnd. assert (NZ' : ~ y == 0) by (rewrite <- E; exact NZ).
    destruct (Qeq_bool x 0) eqn:Bx; [apply Qeq_bool_iff in Bx; contradiction |].
    destruct (Qeq_bool y 0) eqn:By; [apply Qeq_bool_iff in By; contradiction |].
    rewrite (ulp_comp x y NZ E).
    rewrite (rne_comp (x / ulp y) (y / ulp y)); [reflexivity |].
    rewrite E. reflexivity.
Qed.

#[export] Instance rnd_Proper : Proper (Qeq ==> Qeq) rnd.
Proof. intros x y E. rewrite (rnd_comp x y E). reflexivity. Qed.

(** The scaled significand of a positive value lies in [2^52, 2^53]. *)
Lemma significand_range (q : Q) : 0 < q ->
  (2 ^ 52 <= rne (q / ulp q) <= 2 ^ 53)%Z.
Proof.
  intros H. destruct (ilog2_spec q H) as [L U].
  rewrite (ulp_of_pos q H). set (e := ilog2 q) in *.
  pose proof (pow2_pos (e - 52)) as Up.
  assert (E1 : 2 ^ e == 2 ^ 52 * 2 ^ (e - 52)).
  { rewrite <- pow2_add. replace (52 + (e - 52))%Z with e by lia. reflexivity. }
  assert (E2 : 2 ^ (e + 1) == 2 ^ 53 * 2 ^ (e - 52)).
  { rewrite <- pow2_add. replace (53 + (e - 52))%Z with (e + 1)%Z by lia. reflexivity. }
  assert (A : inject_Z (2 ^ 52) <= q / 2 ^ (e - 52)).
  { apply Qle_shift_div_l; [exact Up |]. rewrite pow2_Z by lia. lra. }
  assert (B : q / 2 ^ (e - 52) <= inject_Z (2 ^ 53)).
  { apply Qle_shift_div_r; [exact Up |]. rewrite pow2_Z by lia. lra. }
  apply rne_le in A. apply rne_le in B. rewrite rne_Z in A, B. lia.
Qed.

Lemma rnd_range (q : Q) : 0 < q ->
  2 ^ (ilog2 q) <= rnd q /\ rnd q <= 2 ^ (ilog2 q + 1).
Proof.
  intros H. pose proof (significand_range q H) as [A B].
  rewrite (rnd_nz q) by lra. rewrite (ulp_of_pos q H) in *.
  set (e := ilog2 q) in *. set (m := rne (q / 2 ^ (e - 52))) in *.
  pose proof (pow2_pos (e - 52)) as Up.
  assert (E1 : 2 ^ e == 2 ^ 52 * 2 ^ (e - 52)).
  { rewrite <- pow2_add. replace (52 + (e - 52))%Z with e by lia. reflexivity. }
  assert (E2 : 2 ^ (e + 1) == 2 ^ 53 * 2 ^ (e - 52)).
  { rewrite <- pow2_add. replace (53 + (e - 52))%Z with (e + 1)%Z by lia. reflexivity. }
  rewrite Zle_Qle in A, B. rewrite pow2_Z in A, B by lia.
  rewrite E1, E2. split; nra.
Qed.

Lemma rnd_pos (q : Q) : 0 < q -> 0 < rnd q.
Proof.
  intros H. destruct (rnd_range q H) as [L _].
  pose proof (pow2_pos (ilog2 q)). lra.
Qed.

Lemma rnd_le_pos (x y : Q) : 0 < x -> x <= y -> rnd x <= rnd y.
Proof.
  intros Hx Hxy. assert (Hy : 0 < y) by lra.
  pose proof (ilog2_le x y Hx Hxy) as LE.
  destruct (Z.eq_dec (ilog2 x) (ilog2 y)) as [E | NE].
  - rewrite (rnd_nz x), (rnd_nz y) by lra.
    rewrite (ulp_of_pos x Hx), (ulp_of_pos y Hy), E.
    pose proof (pow2_pos (ilog2 y - 52)) as Up.
    assert (D : x / 2 ^ (ilog2 y - 52) <= y / 2 ^ (ilog2 y - 52)).
    { apply Qle_shift_div_l; [exact Up |]. rewrite Qdiv_cancel by exact Up. exact Hxy. }
    apply rne_le in D. rewrite Zle_Qle in D. nra.
  - destruct (rnd_range x Hx) as [_ U]. destruct (rnd_range y Hy) as [L _].
    assert (P : 2 ^ (ilog2 x + 1) <= 2 ^ (ilog2 y)) by (apply pow2_le; lia).
    lra.
Qed.

Lemma rnd_opp (q : Q) : rnd (- q) == - rnd q.
Proof.
  destruct (Qeq_dec q 0) as [Z | NZ].
  - rewrite (rnd_zero q Z), (rnd_zero (- q)); [reflexivity | lra].
  - rewrite (rnd_nz q NZ), (rnd_nz (- q)) by lra.
    rewrite (ulp_opp q NZ).
    rewrite (rne_comp (- q / ulp q) (- (q / ulp q))).
    + rewrite rne_opp, inject_Z_opp. ring.
    + field. pose proof (ulp_pos q). lra.
Qed.

Lemma rnd_nonneg (q : Q) : 0 <= q -> 0 <= rnd q.
Proof.
  intros H. destruct (Qle_lt_or_eq _ _ H) as [S | S].
  - apply Qlt_le_weak, rnd_pos, S.
  - rewrite (rnd_zero q); [lra | symmetry; exact S].
Qed.

(** Rounding is monotone. *)
Lemma rnd_le (x y : Q) : x <= y -> rnd x <= rnd y.
Proof.
  intros H. destruct (Qlt_le_dec 0 x) as [Px | Nx].
  - apply rnd_le_pos; assumption.
  - destruct (Qlt_le_dec y 0) as [Ny | Py].
    + assert (A : rnd (- y) <= rnd (- x)) by (apply rnd_le_pos; lra).
      rewrite !rnd_opp in A. lra.
    + assert (A : 0 <= rnd (- x)) by (apply rnd_nonneg; lra).
      rewrite rnd_opp in A. pose proof (rnd_nonneg y Py). lra.
Qed.

(** Rounding error: at most half a unit in the last place. *)
Lemma rnd_err (q : Q) :
  rnd q - q <= (1 # 2) * ulp q /\ q - rnd q <= (1 # 2) * ulp q.
Proof.
  pose proof (ulp_pos q) as Up.
  destruct (Qeq_dec q 0) as [Z | NZ].
  - rewrite (rnd_zero q Z). split; lra.
  - rewrite (rnd_nz q NZ). pose proof (rne_err (q / ulp q)) as [A B].
    pose proof (Qdiv_cancel q (ulp q) Up) as C. split; nra.
Qed.

Lemma ulp_le (q : Q) : 0 < q -> ulp q * 2 ^ 52 <= q.
Proof.
  intros H. destruct (ilog2_spec q H) as [L _]. rewrite (ulp_of_pos q H).
  rewrite <- pow2_add. replace (ilog2 q - 52 + 52)%Z with (ilog2 q) by lia. exact L.
Qed.

End Rnd.

Section Representable.

Lemma rnd_dyadic_pos (m k : Z) : (0 < m < 2 ^ 53)%Z ->
  rnd (inject_Z m * 2 ^ k) == inject_Z m * 2 ^ k.
Proof.
  intros [Hm Hu]. destruct (Z_log2_Q m Hm) as [L U].
  assert (Hl : (0 <= Z.log2 m <= 52)%Z).
  { split; [apply Z.log2_nonneg |].
    assert ((Z.log2 m < 53)%Z) by (apply Z.log2_lt_pow2; lia). lia. }
  set (l := Z.log2 m) in *. set (q := inject_Z m * 2 ^ k).
  pose proof (pow2_pos k) as Pk.
  assert (Hq : 0 < q).
  { unfold q. assert (0 < inject_Z m) by (rewrite Zlt_Qlt in Hm; exact Hm). nra. }
  assert (Il : ilog2 q = (l + k)%Z).
  { apply ilog2_unique; unfold q.
    - rewrite pow2_add. nra.
    - replace (l + k + 1)%Z with ((l + 1) + k)%Z by lia. rewrite pow2_add. nra. }
  rewrite (rnd_nz q) by lra. rewrite (ulp_of_pos q Hq), Il.
  pose proof (pow2_pos (l + k - 52)) as Pu.
  assert (S : q / 2 ^ (l + k - 52) == inject_Z (m * 2 ^ (52 - l))).
  { rewrite inject_Z_mult, pow2_Z by lia. unfold q.
    replace k with ((52 - l) + (l + k - 52))%Z at 1 by lia.
    rewrite pow2_add. field. lra. }
  rewrite (rne_comp _ _ S), rne_Z, <- S. apply Qdiv_cancel. exact Pu.
Qed.

Lemma rnd_dyadic_nonneg (m k : Z) : (0 <= m <= 2 ^ 53)%Z ->
  rnd (inject_Z m * 2 ^ k) == inject_Z m * 2 ^ k.
Proof.
  intros [H0 H1].
  destruct (Z.eq_dec m 0) as [-> | N0].
  - rewrite (rnd_zero (inject_Z 0 * 2 ^ k)); ring.
  - destruct (Z.eq_dec m (2 ^ 53)) as [-> | N1].
    + assert (E : inject_Z (2 ^ 53) * 2 ^ k == inject_Z (2 ^ 52) * 2 ^ (k + 1)).
      { rewrite pow2_succ. change (inject_Z (2 ^ 53)) with (2 * inject_Z (2 ^ 52)). ring. }
      rewrite (rnd_comp _ _ E), E. apply rnd_dyadic_pos. lia.
    + apply rnd_dyadic_pos. lia.
Qed.

(** Every [m * 2^k] with a significand of at most 53 bits is a binary64 value. *)
Lemma rnd_dyadic (m k : Z) : (Z.abs m <= 2 ^ 53)%Z ->
  rnd (inject_Z m * 2 ^ k) == inject_Z m * 2 ^ k.
Proof.
  intros H. destruct (Z_le_gt_dec 0 m) as [P | N].
  - apply rnd_dyadic_nonneg. lia.
  - assert (E : inject_Z m * 2 ^ k == - (inject_Z (- m) * 2 ^ k)).
    { rewrite inject_Z_opp. ring. }
    rewrite (rnd_comp _ _ E), rnd_opp, E.
    rewrite rnd_dyadic_nonneg by lia. reflexivity.
Qed.

Lemma rnd_Z (z : Z) : (Z.abs z <= 2 ^ 53)%Z -> rnd (inject_Z z) == inject_Z z.
Proof.
  intros H. assert (E : inject_Z z == inject_Z z * 2 ^ 0) by (change (2 ^ 0) with 1; ring).
  rewrite (rnd_comp _ _ E), rnd_dyadic by exact H. symmetry. exact E.
Qed.

Lemma rnd_idem (q : Q) : rnd (rnd q) == rnd q.
Proof.
  assert (P : forall x, 0 < x -> rnd (rnd x) == rnd x).
  { intros x Hx. pose proof (significand_range x Hx) as R.
    rewrite (rnd_comp _ _ (rnd_nz x ltac:(lra))), (rnd_nz x) by lra.
    rewrite (ulp_of_pos x Hx) in *. apply rnd_dyadic. lia. }
  destruct (Qlt_le_dec 0 q) as [Hp | Hn].
  - apply P, Hp.
  - destruct (Qle_lt_or_eq _ _ Hn) as [S | S].
    + assert (E : rnd q == - rnd (- q)) by (rewrite rnd_opp; ring).
      rewrite (rnd_comp _ _ E), rnd_opp, P by lra. symmetry. exact E.
    + rewrite (rnd_zero q S). reflexivity.
Qed.

Lemma is_double_rnd (q : Q) : is_double (rnd q).
Proof. apply rnd_idem. Qed.

Lemma is_double_Z (z : Z) : (Z.abs z <= 2 ^ 53)%Z -> is_double (inject_Z z).
Proof. apply rnd_Z. Qed.

Lemma rnd_canonical (q : Q) : Qred (rnd q) = rnd q.
Proof.
  unfold rnd. destruct (Qeq_bool q 0); [reflexivity | apply Qred_complete, Qred_correct].
Qed.

End Representable.

Ltac qdecide :=
  match goal with
  | |- _ <= _ => apply Qle_bool_iff; vm_compute; reflexivity
  | |- _ < _ => apply Qlt_alt; vm_compute; reflexivity
  | |- _ == _ => apply Qeq_bool_iff; vm_compute; reflexivity
  | |- is_double _ => apply Qeq_bool_iff; vm_compute; reflexivity
  end.

(* ===================================================================== *)
(** ** Agreement with the reference implementation of IEEE 754            *)
(* ===================================================================== *)

(** The operations above, on the constants of the pricing code, give bit
    for bit the results of the Standard Library's [SpecFloat] at precision
    53 and maximal exponent 1024. *)

Example lit_1_3_bits : to_spec (lit 1.3) = S754_finite false 5854679515581645 (-52).
Proof. vm_compute. reflexivity. Qed.

Example lit_1_15_bits : to_spec (lit 1.15) = S754_finite false 5179139571476070 (-52).
Proof. vm_compute. reflexivity. Qed.

Example fsub_agrees :
  to_spec (fsub (lit 1.3) 1) = SFsub 53 1024 (to_spec (lit 1.3)) (to_spec 1).
Proof. vm_compute. reflexivity. Qed.

Example fmul_agrees :
  to_spec (fmul 8000 (fsub (lit 1.3) 1))
  = SFmul 53 1024 (to_spec 8000) (to_spec (fsub (lit 1.3) 1)).
Proof. vm_compute. reflexivity. Qed.

Example fadd_agrees_on_tie :
  to_spec (fadd (fadd 2 (fmul 2 (lit 0.8))) 2)
  = SFadd 53 1024 (SFadd 53 1024 (to_spec 2) (SFmul 53 1024 (to_spec 2) (to_spec (lit 0.8))))
      (to_spec 2).
Proof. vm_compute. reflexivity. Qed.

Example fmul_total_agrees :
  to_spec (fmul 14400 (lit 1.15)) = SFmul 53 1024 (to_spec 14400) (to_spec (lit 1.15)).
Proof. vm_compute. reflexivity. Qed.

Example fdiv_agrees :
  to_spec (fdiv (fmul (fmul 7500 (fsub (lit 1.35) 1)) 100) 100)
  = SFdiv 53 1024
      (SFmul 53 1024 (SFmul 53 1024 (to_spec 7500)
                        (SFsub 53 1024 (to_spec (lit 1.35)) (to_spec 1)))
         (to_spec 100))
      (to_spec 100).
Proof. vm_compute. reflexivity. Qed.

(** Every total estimate the default tables can produce, and its ceiling. *)
Example quote_totals_agree :
  map (fun '(b, m, u) => (to_spec (quote_total b m u),
                          to_spec (fmul (quote_total b m u) (lit 1.15)))) sample_grid
  = map (fun '(b, m, u) => (quote_total_spec b m u,
                            SFmul 53 1024 (quote_total_spec b m u) (to_spec (lit 1.15))))
      sample_grid.
Proof. vm_compute. reflexivity. Qed.

(** In binary64, [1.3 - 1] is not [0.3]: the urgency adjustment of a base
    rate of 8000 is computed as 2400 + 2^-41, and the total estimate as
    14400 exactly; the DECIMAL(10,2) column stores 2400.00. *)
Remark urgencyAdjustment_8000 :
  fmul 8000 (fsub (lit 1.3) 1) == 2400 + 2 ^ (-41) /\
  fadd (fadd 8000 (fmul 8000 (fsub (lit 1.5) 1))) (fmul 8000 (fsub (lit 1.3) 1)) == 14400 /\
  toDecimal 10 2 (fmul 8000 (fsub (lit 1.3) 1)) = Some 2400.
Proof.
  split; [qdecide |]. split; [qdecide |]. vm_compute. reflexivity.
Qed.

(* ===================================================================== *)
(** ** Facts about the arithmetic operations                              *)
(* ===================================================================== *)

Section Operations.

Lemma fadd_nonneg (x y : Q) : 0 <= x -> 0 <= y -> 0 <= fadd x y.
Proof. intros Hx Hy. apply rnd_nonneg. lra. Qed.

Lemma fmul_nonneg (x y : Q) : 0 <= x -> 0 <= y -> 0 <= fmul x y.
Proof. intros Hx Hy. apply rnd_nonneg. nra. Qed.

Lemma fadd_ge_l (x y : Q) : is_double x -> 0 <= y -> x <= fadd x y.
Proof.
  intros Dx Hy. unfold is_double in Dx. rewrite <- Dx at 1.
  apply rnd_le. lra.
Qed.

Lemma fadd_ge_r (x y : Q) : is_double y -> 0 <= x -> y <= fadd x y.
Proof.
  intros Dy Hx. unfold is_double in Dy. rewrite <- Dy at 1.
  apply rnd_le. lra.
Qed.


Lemma is_double_fadd (x y : Q) : is_double (fadd x y).
Proof. apply is_double_rnd. Qed.

Lemma is_double_fmul (x y : Q) : is_double (fmul x y).
Proof. apply is_double_rnd. Qed.

Lemma is_double_lit (q : Q) : is_double (lit q).
Proof. apply is_double_rnd. Qed.

Lemma min_le_r (x y : Q) : Math.min x y <= y.
Proof.
  unfold Math.min. destruct (Qle_bool x y) eqn:B.
  - apply Qle_bool_iff. exact B.
  - lra.
Qed.

Lemma min_le_l (x y : Q) : Math.min x y <= x.
Proof.
  unfold Math.min. destruct (Qle_bool x y) eqn:B.
  - lra.
  - destruct (Qlt_le_dec y x) as [L | L]; [lra |].
    apply Qle_bool_iff in L. congruence.
Qed.

Lemma min_glb (x y z : Q) : z <= x -> z <= y -> z <= Math.min x y.
Proof. intros Hx Hy. unfold Math.min. destruct (Qle_bool x y); assumption. Qed.


Lemma lengthOf_nonneg {A} (l : list A) : 0 <= lengthOf l.
Proof. unfold lengthOf. rewrite <- (Zle_Qle 0). lia. Qed.

Lemma js_or_nonneg (x d : Q) : 0 <= x -> 0 <= d -> 0 <= js_or x d.
Proof. intros Hx Hd. unfold js_or. destruct (Qeq_bool x 0); assumption. Qed.

End Operations.

(* ===================================================================== *)
(** ** The complexity estimator                                           *)
(* ===================================================================== *)

Lemma typeComplexity_baseContribution (t : ProjectType) :
  js_or (typeComplexity t) (lit 1.0) = baseContribution t.
Proof. destruct t; vm_compute; reflexivity. Qed.

Lemma bump_if (b : bool) (s a : Q) :
  is_double s -> 0 <= a ->
  let s' := if b then fadd s a else s in is_double s' /\ s <= s'.
Proof.
  intros Ds Ha. destruct b; simpl.
  - split; [apply is_double_fadd | apply fadd_ge_l; assumption].
  - split; [exact Ds | lra].
Qed.

Lemma contribution_nonneg (n c cap : Q) :
  0 <= n -> 0 <= c -> 0 <= cap -> 0 <= Math.min (fmul n c) cap.
Proof. intros Hn Hc Hcap. apply min_glb; [apply fmul_nonneg; assumption | exact Hcap]. Qed.

(** C9: for every project type, scope and urgency, [calculateComplexity]
    is a function of its inputs (its result depends on the scope only
    through the three fields it reads) and its result lies between the
    project-type base contribution (creative 1.0, fullstack 2.0, web3 3.0,
    ai_automation 2.5) and 10.0. *)
Theorem calculateComplexity_range (t : ProjectType) (scope : option Scope) (u : Urgency) :
  baseContribution t <= calculateComplexity t scope u /\
  calculateComplexity t scope u <= 10 /\
  (forall scope' : option Scope,
     scope' ≫= features = scope ≫= features ->
     scope' ≫= integrations = scope ≫= integrations ->
     scope' ≫= timeline = scope ≫= timeline ->
     calculateComplexity t scope' u = calculateComplexity t scope u).
Proof.
  split; [| split].
  - unfold calculateComplexity.
    set (f := Math.min (fmul (lengthOf (default [] (scope ≫= features))) (lit 0.5)) (lit 3.0)).
    set (i := Math.min (fmul (lengthOf (List.filter isComplexIntegration
                                          (default [] (scope ≫= integrations)))) (lit 0.8))
                       (lit 3.0)).
    set (tl := match scope ≫= timeline with
               | Some s => if (s =? "")%string then "standard"%string else s
               | None => "standard"%string
               end).
    assert (Hf : 0 <= f).
    { apply contribution_nonneg; [apply lengthOf_nonneg | qdecide | qdecide]. }
    assert (Hi : 0 <= i).
    { apply contribution_nonneg; [apply lengthOf_nonneg | qdecide | qdecide]. }
    set (s1 := fadd 0 f). set (s2 := fadd s1 i).
    assert (H2 : 0 <= s2 /\ is_double s2).
    { split; [| apply is_double_fadd].
      apply fadd_nonneg; [apply fadd_nonneg; [lra | exact Hf] | exact Hi]. }
    destruct H2 as [H2 D2].
    destruct (bump_if (tl =? "urgent")%string s2 (lit 1.5) D2 ltac:(qdecide)) as [D3 H3].
    set (s3 := if (tl =? "urgent")%string then fadd s2 (lit 1.5) else s2) in *.
    destruct (bump_if (tl =? "critical")%string s3 (lit 2.5) D3 ltac:(qdecide)) as [D4 H4].
    set (s4 := if (tl =? "critical")%string then fadd s3 (lit 2.5) else s3) in *.
    rewrite typeComplexity_baseContribution.
    set (s5 := fadd s4 (baseContribution t)).
    assert (H5 : baseContribution t <= s5).
    { apply fadd_ge_r; [destruct t; qdecide | lra]. }
    assert (D5 : is_double s5) by apply is_double_fadd.
    set (s6 := match u with urgent => fadd s5 (lit 0.5) | _ => s5 end).
    assert (H6 : is_double s6 /\ s5 <= s6).
    { destruct u; subst s6; try (split; [exact D5 | lra]).
      split; [apply is_double_fadd | apply fadd_ge_l; [exact D5 | qdecide]]. }
    destruct H6 as [D6 H6].
    set (s7 := match u with critical => fadd s6 (lit 1.0) | _ => s6 end).
    assert (H7 : s6 <= s7).
    { destruct u; subst s7; try lra. apply fadd_ge_l; [exact D6 | qdecide]. }
    apply min_glb; [lra |].
    destruct t; qdecide.
  - unfold calculateComplexity.
    apply Qle_trans with (lit 10.0); [apply min_le_r | qdecide].
  - intros scope' Ef Ei Et. unfold calculateComplexity. rewrite Ef, Ei, Et. reflexivity.
Qed.

(* ===================================================================== *)
(** ** NUMERIC columns                                                    *)
(* ===================================================================== *)

Section Decimal.

Lemma round_half_away_le (x y : Q) : x <= y -> (round_half_away x <= round_half_away y)%Z.
Proof.
  intros H. unfold round_half_away.
  destruct (Qle_bool 0 x) eqn:Bx; destruct (Qle_bool 0 y) eqn:By.
  - apply Qfloor_resp_le. lra.
  - apply Qle_bool_iff in Bx. exfalso.
    assert (N : ~ 0 <= y) by (intros C; apply Qle_bool_iff in C; congruence). lra.
  - assert (N : ~ 0 <= x) by (intros C; apply Qle_bool_iff in C; congruence).
    apply Qle_bool_iff in By.
    apply Z.le_trans with 0%Z.
    + assert (C : (Qceiling (x - (1 # 2)) <= Qceiling 0)%Z) by (apply Qceiling_resp_le; lra).
      exact C.
    + assert (C : (Qfloor 0 <= Qfloor (y + (1 # 2)))%Z) by (apply Qfloor_resp_le; lra).
      exact C.
  - apply Qceiling_resp_le. lra.
Qed.



Lemma round_half_away_err (x : Q) :
  inject_Z (round_half_away x) - x <= 1 # 2 /\ x - inject_Z (round_half_away x) <= 1 # 2.
Proof.
  unfold round_half_away. destruct (Qle_bool 0 x).
  - pose proof (Qfloor_bounds (x + (1 # 2))) as [L U]. split; lra.
  - pose proof (Qle_ceiling (x - (1 # 2))) as L.
    pose proof (Qceiling_lt (x - (1 # 2))) as U.
    rewrite inject_Z_sub in U. change (inject_Z 1) with 1 in U. split; lra.
Qed.

Lemma toDecimal_Some (p s : Z) (v a : Q) :
  toDecimal p s v = Some a ->
  a == inject_Z (round_half_away (v * inject_Z (10 ^ s))) / inject_Z (10 ^ s) /\
  (Z.abs (round_half_away (v * inject_Z (10 ^ s))) < 10 ^ p)%Z.
Proof.
  unfold toDecimal.
  destruct (Z.ltb_spec (Z.abs (round_half_away (v * inject_Z (10 ^ s)))) (10 ^ p)).
  - intros [= <-]. split; [apply Qred_correct | assumption].
  - discriminate.
Qed.



Lemma toDecimal2_err (p : Z) (x a : Q) :
  toDecimal p 2 x = Some a -> a - x <= 1 # 200 /\ x - a <= 1 # 200.
Proof.
  intros H. apply toDecimal_Some in H. destruct H as [E _].
  change (inject_Z (10 ^ 2)) with 100 in *.
  pose proof (round_half_away_err (x * 100)) as [A B].
  set (c := inject_Z (round_half_away (x * 100))) in *.
  assert (E' : a * 100 == c) by (rewrite E; apply Qdiv_cancel; lra).
  split; lra.
Qed.

Lemma toDecimal2_bound (x a : Q) :
  toDecimal 10 2 x = Some a -> - 100000000 < a /\ a < 100000000.
Proof.
  intros H. apply toDecimal_Some in H. destruct H as [E B].
  change (inject_Z (10 ^ 2)) with 100 in *.
  set (c := round_half_away (x * 100)) in *.
  assert (E' : a * 100 == inject_Z c) by (rewrite E; apply Qdiv_cancel; lra).
  assert (B1 : (- 10 ^ 10 < c)%Z) by lia. assert (B2 : (c < 10 ^ 10)%Z) by lia.
  rewrite Zlt_Qlt in B1, B2.
  change (inject_Z (- 10 ^ 10)) with (- 10000000000) in B1.
  change (inject_Z (10 ^ 10)) with 10000000000 in B2.
  split; lra.
Qed.

End Decimal.

(* ===================================================================== *)
(** ** Running a handler                                                  *)
(* ===================================================================== *)

Section Handlers.

Lemma run_bind {A} (m : Handler A) (k : A -> Handler Reply) (db db' : DB) (r : Reply) :
  run (bind m k) db = (r, db') ->
  (exists a db1, m db = (Continue a, db1) /\ run (k a) db1 = (r, db')) \/
  m db = (Respond r, db').
Proof.
  unfold run, bind. destruct (m db) as [[a | r0] db1].
  - intros H. left. exists a, db1. split; [reflexivity | exact H].
  - intros [= <- <-]. right. reflexivity.
Qed.

Lemma require_Continue {A} (o : option A) (r : Reply) (db db' : DB) (a : A) :
  require o r db = (Continue a, db') -> o = Some a /\ db' = db.
Proof. destruct o; unfold require, pure, respond; intros [= <- <-]; auto. Qed.

Lemma require_Respond {A} (o : option A) (r r' : Reply) (db db' : DB) :
  require o r db = (@Respond A r', db') -> o = None /\ r' = r /\ db' = db.
Proof. destruct o; unfold require, pure, respond; intros [= <- <-]; auto. Qed.

Lemma when_Continue (b : bool) (r : Reply) (db db' : DB) (u : unit) :
  when_ b r db = (Continue u, db') -> b = false /\ db' = db.
Proof. destruct b; unfold when_, pure, respond; intros [= <-]; auto. Qed.

Lemma when_Respond (b : bool) (r r' : Reply) (db db' : DB) :
  when_ b r db = (Respond r', db') -> b = true /\ r' = r /\ db' = db.
Proof. destruct b; unfold when_, pure, respond; intros [= <- <-]; auto. Qed.

Lemma run_bind_Continue {A} (m : Handler A) (k : A -> Handler Reply) (db db1 : DB) (a : A) :
  m db = (Continue a, db1) -> run (bind m k) db = run (k a) db1.
Proof. intros H. unfold run, bind. rewrite H. reflexivity. Qed.

Lemma run_pure (r : Reply) (db : DB) : run (pure r) db = (r, db).
Proof. reflexivity. Qed.

End Handlers.

(* ===================================================================== *)
(** ** generateQuote: what a successful call has done                     *)
(* ===================================================================== *)

Section GenerateQuote.

Lemma createQuote_Continue (uuid projectId userId : string) (data : QuoteData.t)
    (db db' : DB) (row : ProjectQuote.t) :
  createQuote uuid projectId userId data db = (Continue row, db') ->
  prisma.projectQuote db !! uuid = None /\
  db' = set_projectQuote db (<[uuid := row]> (prisma.projectQuote db)) /\
  ProjectQuote.id row = uuid /\
  ProjectQuote.projectId row = projectId /\
  ProjectQuote.userId row = userId /\
  toDecimal 10 2 (QuoteData.baseRate data) = Some (ProjectQuote.baseRate row) /\
  toDecimal 10 2 (QuoteData.complexityAdjustment data)
  = Some (ProjectQuote.complexityAdjustment row) /\
  toDecimal 10 2 (QuoteData.urgencyAdjustment data) = Some (ProjectQuote.urgencyAdjustment row) /\
  toDecimal 10 2 (QuoteData.totalEstimate data) = Some (ProjectQuote.totalEstimate row) /\
  toDecimal 10 2 (QuoteData.notToExceed data) = Some (ProjectQuote.notToExceed row) /\
  ProjectQuote.paymentStructure row = QuoteData.paymentStructure data /\
  ProjectQuote.validUntil row = toDate (QuoteData.validUntil data) /\
  ProjectQuote.status row = pending.
Proof.
  unfold createQuote.
  destruct (prisma.projectQuote db !! uuid); [discriminate |].
  destruct (toDecimal 10 2 (QuoteData.baseRate data)); [| discriminate].
  destruct (toDecimal 10 2 (QuoteData.complexityAdjustment data)); [| discriminate].
  destruct (toDecimal 10 2 (QuoteData.urgencyAdjustment data)); [| discriminate].
  destruct (toDecimal 10 2 (QuoteData.totalEstimate data)); [| discriminate].
  destruct (toDecimal 10 2 (QuoteData.notToExceed data)); [| discriminate].
  intros [= <- <-]. simpl. repeat split; reflexivity.
Qed.

Lemma createQuote_Respond (uuid projectId userId : string) (data : QuoteData.t)
    (db db' : DB) (r : Reply) :
  createQuote uuid projectId userId data db = (Respond r, db') ->
  db' = db /\ exists e, r = Thrown e.
Proof.
  unfold createQuote.
  destruct (prisma.projectQuote db !! uuid); [intros [= <- <-]; eauto |].
  destruct (toDecimal 10 2 (QuoteData.baseRate data)); [| intros [= <- <-]; eauto].
  destruct (toDecimal 10 2 (QuoteData.complexityAdjustment data)); [| intros [= <- <-]; eauto].
  destruct (toDecimal 10 2 (QuoteData.urgencyAdjustment data)); [| intros [= <- <-]; eauto].
  destruct (toDecimal 10 2 (QuoteData.totalEstimate data)); [| intros [= <- <-]; eauto].
  destruct (toDecimal 10 2 (QuoteData.notToExceed data)); [| intros [= <- <-]; eauto].
  discriminate.
Qed.

Lemma updateComplexityScore_Respond (id : string) (score : Q) (db db' : DB) (r : Reply) :
  updateComplexityScore id score db = (Respond r, db') -> exists e, r = Thrown e.
Proof.
  unfold updateComplexityScore.
  destruct (prisma.projectAssessment db !! id); [| intros [= <- <-]; eauto].
  destruct (toDecimal 3 2 score); [discriminate | intros [= <- <-]; eauto].
Qed.

Lemma updateProjectStatus_Respond (id : string) (st : ProjectStatus) (db db' : DB) (r : Reply) :
  updateProjectStatus id st db = (Respond r, db') -> exists e, r = Thrown e.
Proof.
  unfold updateProjectStatus.
  destruct (prisma.projectAssessment db !! id); [discriminate | intros [= <- <-]; eauto].
Qed.

Lemma updateComplexityScore_quotes (id : string) (score : Q) (db db' : DB) (s : Step unit) :
  updateComplexityScore id score db = (s, db') ->
  prisma.projectQuote db' = prisma.projectQuote db.
Proof.
  unfold updateComplexityScore.
  destruct (prisma.projectAssessment db !! id); [| intros [= _ <-]; reflexivity].
  destruct (toDecimal 3 2 score); intros [= _ <-]; reflexivity.
Qed.

Lemma updateProjectStatus_quotes (id : string) (st : ProjectStatus) (db db' : DB) (s : Step unit) :
  updateProjectStatus id st db = (s, db') ->
  prisma.projectQuote db' = prisma.projectQuote db.
Proof.
  unfold updateProjectStatus.
  destruct (prisma.projectAssessment db !! id); intros [= _ <-]; reflexivity.
Qed.

(** A successful [generateQuote] was called by the owner of an existing
    project without active quote, and answers the row it created from
    [quoteData]. *)
Lemma generateQuote_success (env : Env) (now : Z) (uuid : string) (req : Request)
    (db db' : DB) (msg : option string) (quote : ProjectQuote.t) :
  generateQuote env now uuid req db = (QuoteReply msg quote, db') ->
  exists (userId : string) (project : ProjectAssessment.t) (db1 db2 : DB) (row : ProjectQuote.t),
    authenticated req = Some userId /\
    prisma.projectAssessment db !! req_param req = Some project /\
    ProjectAssessment.userId project = userId /\
    findFirstActiveQuote (prisma.projectQuote db) (req_param req) = None /\
    prisma.projectQuote db1 = prisma.projectQuote db /\
    createQuote uuid (req_param req) userId
      (quoteData env project (complexityScoreOf project) now) db1 = (Continue row, db2) /\
    prisma.projectQuote db' = prisma.projectQuote db2 /\
    quote = withNumbers row.
Proof.
  unfold generateQuote. intros H.
  apply run_bind in H as [(userId & d & Ha & H) | Ha];
    [apply require_Continue in Ha as [Ha ->] | apply require_Respond in Ha as (_ & [=] & _)].
  apply run_bind in H as [(found & d & Hp & H) | Hp]; [| discriminate].
  injection Hp as <- <-.
  apply run_bind in H as [(project & d & Hp & H) | Hp];
    [apply require_Continue in Hp as [Hp ->] | apply require_Respond in Hp as (_ & [=] & _)].
  apply run_bind in H as [(? & d & Ho & H) | Ho];
    [apply when_Continue in Ho as [Ho ->] | apply when_Respond in Ho as (_ & [=] & _)].
  apply run_bind in H as [(existing & d & Hf & H) | Hf]; [| discriminate].
  injection Hf as <- <-.
  apply run_bind in H as [(? & d & He & H) | He];
    [apply when_Continue in He as [He ->] | apply when_Respond in He as (_ & [=] & _)].
  apply run_bind in H as [(? & db1 & Hu & H) | Hu].
  2:{ destruct (ProjectAssessment.complexityScore project).
      - discriminate.
      - apply updateComplexityScore_Respond in Hu. destruct Hu as [e [=]]. }
  apply run_bind in H as [(row & db2 & Hc & H) | Hc].
  2:{ apply createQuote_Respond in Hc. destruct Hc as [_ [e [=]]]. }
  apply run_bind in H as [(? & db3 & Hs & H) | Hs].
  2:{ apply updateProjectStatus_Respond in Hs. destruct Hs as [e [=]]. }
  apply run_bind in H as [(? & db4 & Hl & H) | Hl]; [| discriminate].
  injection Hl as _ <-. injection H as <- <- <-.
  exists userId, project, db1, db2, row. repeat split.
  - exact Ha.
  - exact Hp.
  - apply negb_false_iff, String.eqb_eq in Ho. exact Ho.
  - apply bool_decide_eq_false in He.
    destruct (findFirstActiveQuote (prisma.projectQuote db) (req_param req)); [| reflexivity].
    exfalso. apply He. eauto.
  - destruct (ProjectAssessment.complexityScore project).
    + injection Hu as _ <-. reflexivity.
    + eapply updateComplexityScore_quotes. exact Hu.
  - exact Hc.
  - simpl. eapply updateProjectStatus_quotes. exact Hs.
Qed.

End GenerateQuote.

(* ===================================================================== *)
(** ** The not-to-exceed ceiling                                          *)
(* ===================================================================== *)

Section NotToExceed.

Lemma complexity_surcharge_nonneg (l : ComplexityLevel) :
  0 <= fsub (COMPLEXITY_MULTIPLIERS l) 1.
Proof. destruct l; qdecide. Qed.

Lemma urgency_surcharge_nonneg (u : Urgency) :
  0 <= fsub (URGENCY_MULTIPLIERS u) 1.
Proof. destruct u; qdecide. Qed.

Lemma baseRate_nonneg (env : Env) (t : ProjectType) :
  (forall t', 0 <= BASE_RATES env t') -> 0 <= js_or (BASE_RATES env t) 5000.
Proof. intros H. apply js_or_nonneg; [apply H | lra]. Qed.

Lemma totalEstimate_nonneg (env : Env) (project : ProjectAssessment.t) (score : Q) (now : Z) :
  (forall t, 0 <= BASE_RATES env t) ->
  0 <= QuoteData.totalEstimate (quoteData env project score now) /\
  is_double (QuoteData.totalEstimate (quoteData env project score now)).
Proof.
  intros H. simpl. split; [| apply is_double_fadd].
  pose proof (baseRate_nonneg env (ProjectAssessment.projectType project) H) as B.
  apply fadd_nonneg; [apply fadd_nonneg |].
  - exact B.
  - apply fmul_nonneg; [exact B | apply complexity_surcharge_nonneg].
  - apply fmul_nonneg; [exact B | apply urgency_surcharge_nonneg].
Qed.



End NotToExceed.

(* ===================================================================== *)
(** ** The worked example: fullstack, 4 features, 2 payment integrations  *)
(* ===================================================================== *)

Section WorkedExample.

Lemma quoteData_fullstack_high_urgent (env : Env) (id userId : string)
    (scope : option Scope) (st : ProjectStatus) (score : option Q) (now : Z) :
  BASE_RATE_FULLSTACK env = None ->
  let data := quoteData env
                (ProjectAssessment.mk id userId fullstack scope (Some urgent) score st)
                (lit 6.1) now in
  QuoteData.baseRate data = 8000 /\
  QuoteData.complexityAdjustment data = 4000 /\
  QuoteData.urgencyAdjustment data = fmul 8000 (fsub (lit 1.3) 1) /\
  QuoteData.totalEstimate data = 14400 /\
  QuoteData.notToExceed data = 16560.
Proof.
  intros He. unfold quoteData, BASE_RATES. cbn [ProjectAssessment.projectType]. rewrite He.
  vm_compute. repeat split; reflexivity.
Qed.

Lemma generateQuote_Continue (env : Env) (now : Z) (uuid : string) (req : Request) (db : DB)
    (userId : string) (project : ProjectAssessment.t) (d : Q) (row : ProjectQuote.t)
    (db2 : DB) :
  authenticated req = Some userId ->
  prisma.projectAssessment db !! req_param req = Some project ->
  ProjectAssessment.userId project = userId ->
  findFirstActiveQuote (prisma.projectQuote db) (req_param req) = None ->
  ProjectAssessment.complexityScore project = None ->
  toDecimal 3 2 (complexityScoreOf project) = Some d ->
  (forall db1, prisma.projectQuote db1 = prisma.projectQuote db ->
     createQuote uuid (req_param req) userId
       (quoteData env project (complexityScoreOf project) now) db1
     = (Continue row, set_projectQuote db1 (<[uuid := row]> (prisma.projectQuote db1)))) ->
  exists db', generateQuote env now uuid req db
              = (QuoteReply (Some "Quote generated successfully"%string) (withNumbers row), db').
Proof.
  intros Ha Hp Ho Hf Hs Hd Hc. unfold generateQuote.
  erewrite run_bind_Continue; [| rewrite Ha; reflexivity].
  erewrite run_bind_Continue; [| reflexivity].
  erewrite run_bind_Continue; [| rewrite Hp; reflexivity].
  erewrite run_bind_Continue;
    [| rewrite Ho, String.eqb_refl; reflexivity].
  erewrite run_bind_Continue; [| reflexivity].
  erewrite run_bind_Continue; [| rewrite Hf, bool_decide_eq_false_2;
                                   [reflexivity | intros [? ?]; discriminate]].
  rewrite Hs.
  erewrite run_bind_Continue; [| unfold updateComplexityScore; rewrite Hp, Hd; reflexivity].
  erewrite run_bind_Continue; [| apply Hc; reflexivity].
  erewrite run_bind_Continue;
    [| unfold updateProjectStatus; simpl; rewrite lookup_insert_eq; reflexivity].
  erewrite run_bind_Continue; [| reflexivity].
  eexists. apply run_pure.
Qed.

(** C2: a fullstack project without stored complexity score, with 4
    features, 2 integrations of type payment, no [timeline] in its scope and
    urgency urgent, under the default fullstack rate: the complexity score
    is 6.1, its level is high with multiplier 1.5, the urgency multiplier is
    1.3, and the quote that [generateQuote] produces has base rate 8000,
    complexity adjustment 4000, urgency adjustment 2400, total estimate
    14400 and not-to-exceed 16560. *)
Theorem generateQuote_example (env : Env) (now : Z) (uuid : string) (req : Request) (db : DB)
    (id userId : string) (f1 f2 f3 f4 : JsonValue) (st : ProjectStatus) :
  let scope := {| features := Some [f1; f2; f3; f4];
                  integrations := Some [ {| i_type := Some "payment"%string |};
                                         {| i_type := Some "payment"%string |} ];
                  timeline := None |} in
  let project := ProjectAssessment.mk id userId fullstack (Some scope) (Some urgent) None st in
  BASE_RATE_FULLSTACK env = None ->
  authenticated req = Some userId ->
  prisma.projectAssessment db !! req_param req = Some project ->
  findFirstActiveQuote (prisma.projectQuote db) (req_param req) = None ->
  prisma.projectQuote db !! uuid = None ->
  calculateComplexity fullstack (Some scope) urgent = lit 6.1 /\
  complexityLevel (lit 6.1) = high /\
  COMPLEXITY_MULTIPLIERS high == 1.5 /\
  URGENCY_MULTIPLIERS urgent = lit 1.3 /\
  exists (quote : ProjectQuote.t) (db' : DB),
    generateQuote env now uuid req db
    = (QuoteReply (Some "Quote generated successfully"%string) quote, db') /\
    ProjectQuote.baseRate quote = 8000 /\
    ProjectQuote.complexityAdjustment quote = 4000 /\
    ProjectQuote.urgencyAdjustment quote = 2400 /\
    ProjectQuote.totalEstimate quote = 14400 /\
    ProjectQuote.notToExceed quote = 16560.
Proof.
  intros scope project He Ha Hp Hf Hu.
  assert (Hs : calculateComplexity fullstack (Some scope) urgent = lit 6.1)
    by (vm_compute; reflexivity).
  split; [exact Hs |]. split; [vm_compute; reflexivity |].
  split; [qdecide |]. split; [reflexivity |].
  assert (Hscore : complexityScoreOf project = lit 6.1) by exact Hs.
  destruct (quoteData_fullstack_high_urgent env id userId (Some scope) st None now He)
    as (E1 & E2 & E3 & E4 & E5).
  fold project in E1, E2, E3, E4, E5.
  set (data := quoteData env project (lit 6.1) now) in *.
  set (row := ProjectQuote.mk uuid (req_param req) userId 8000 4000 2400 14400 16560
                (Qfloor (QuoteData.estimatedTimelineWeeks data))
                (toDate (QuoteData.deliveryDate data)) (QuoteData.paymentStructure data)
                false None (toDate (QuoteData.validUntil data)) pending ∅).
  destruct (generateQuote_Continue env now uuid req db userId project (61 # 10) row
              (set_projectQuote db (<[uuid := row]> (prisma.projectQuote db))))
    as [db' Hg].
  - exact Ha.
  - exact Hp.
  - reflexivity.
  - exact Hf.
  - reflexivity.
  - rewrite Hscore. vm_compute. reflexivity.
  - intros db1 Hq. rewrite Hscore. fold data. unfold createQuote.
    rewrite Hq, Hu, E1, E2, E3, E4, E5.
    replace (toDecimal 10 2 8000) with (Some 8000) by (vm_compute; reflexivity).
    replace (toDecimal 10 2 4000) with (Some 4000) by (vm_compute; reflexivity).
    replace (toDecimal 10 2 (fmul 8000 (fsub (lit 1.3) 1))) with (Some 2400)
      by (vm_compute; reflexivity).
    replace (toDecimal 10 2 14400) with (Some 14400) by (vm_compute; reflexivity).
    replace (toDecimal 10 2 16560) with (Some 16560) by (vm_compute; reflexivity).
    reflexivity.
  - exists (withNumbers row), db'. split; [exact Hg |].
    unfold withNumbers, row. cbn [ProjectQuote.baseRate ProjectQuote.complexityAdjustment
      ProjectQuote.urgencyAdjustment ProjectQuote.totalEstimate ProjectQuote.notToExceed].
    repeat split; vm_compute; reflexivity.
Qed.

End WorkedExample.

(* ===================================================================== *)
(** ** The payment structure                                              *)
(* ===================================================================== *)

Section PaymentStructure.

(** Relative error of one rounding: at most 2^-53. *)
Lemma rnd_rel_err (q : Q) : 0 <= q ->
  rnd q - q <= q * (1 # 9007199254740992) /\ q - rnd q <= q * (1 # 9007199254740992).
Proof.
  intros H. destruct (Qle_lt_or_eq _ _ H) as [S | S].
  - pose proof (rnd_err q) as [A B]. pose proof (ulp_le q S) as U.
    assert (E : 2 ^ 52 == 4503599627370496) by reflexivity.
    rewrite E in U. split; lra.
  - rewrite (rnd_zero q) by (symmetry; exact S). split; lra.
Qed.

Lemma round_bounds (x : Q) :
  Math.round x <= x + (1 # 2) /\ x - (1 # 2) < Math.round x.
Proof.
  unfold Math.round. pose proof (Qfloor_bounds (x + (1 # 2))) as [L U]. split; lra.
Qed.

(** The four installments of a total [t]. *)
Lemma installments_sum (t : Q) : 0 <= t -> t <= 100000001 ->
  let share30 := Math.round (fmul t (lit 0.3)) in
  let share20 := Math.round (fmul t (lit 0.2)) in
  Qabs (share30 + share30 + share20 + share20 - t) <= 17 # 10.
Proof.
  intros H0 H1. cbv zeta.
  assert (C3 : 0 <= lit 0.3) by qdecide. assert (C2 : 0 <= lit 0.2) by qdecide.
  assert (E3 : lit 0.3 == 5404319552844595 # 18014398509481984) by qdecide.
  assert (E2 : lit 0.2 == 3602879701896397 # 18014398509481984) by qdecide.
  destruct (rnd_rel_err (t * lit 0.3) ltac:(nra)) as [A3 B3].
  destruct (rnd_rel_err (t * lit 0.2) ltac:(nra)) as [A2 B2].
  fold (fmul t (lit 0.3)) in A3, B3. fold (fmul t (lit 0.2)) in A2, B2.
  destruct (round_bounds (fmul t (lit 0.3))) as [U3 L3].
  destruct (round_bounds (fmul t (lit 0.2))) as [U2 L2].
  unfold Math.round in *.
  set (r3 := Qfloor (fmul t (lit 0.3) + (1 # 2))) in *.
  set (r2 := Qfloor (fmul t (lit 0.2) + (1 # 2))) in *.
  set (x3 := fmul t (lit 0.3)) in *. set (x2 := fmul t (lit 0.2)) in *.
  rewrite E3 in A3, B3. rewrite E2 in A2, B2.
  assert (D3 : x3 - (3 # 10) * t <= 1 # 10000000 /\ (3 # 10) * t - x3 <= 1 # 10000000)
    by (split; lra).
  assert (D2 : x2 - (2 # 10) * t <= 1 # 10000000 /\ (2 # 10) * t - x2 <= 1 # 10000000)
    by (split; lra).
  destruct D3 as [D3 D3']. destruct D2 as [D2 D2'].
  clear A3 B3 A2 B2 E3 E2 C3 C2.
  (* 2 r3 - 3 r2 is an integer close to 2 (r3 - 0.3 t) - 3 (r2 - 0.2 t) *)
  assert (K : (-3 < 2 * r3 - 3 * r2 < 3)%Z).
  { split; rewrite Zlt_Qlt, inject_Z_sub, !inject_Z_mult;
      change (inject_Z 2) with 2; change (inject_Z 3) with 3;
      [change (inject_Z (-3)) with (-3) |]; lra. }
  assert (Ek : inject_Z (2 * r3 - 3 * r2) == 2 * inject_Z r3 - 3 * inject_Z r2).
  { rewrite inject_Z_sub, !inject_Z_mult. reflexivity. }
  apply Qabs_Qle_condition.
  assert (Cases : (2 * r3 - 3 * r2 = -2 \/ 2 * r3 - 3 * r2 = -1 \/ 2 * r3 - 3 * r2 = 0 \/
                   2 * r3 - 3 * r2 = 1 \/ 2 * r3 - 3 * r2 = 2)%Z) by lia.
  destruct Cases as [C | [C | [C | [C | C]]]]; rewrite C in Ek;
    [change (inject_Z (-2)) with (-2) in Ek | change (inject_Z (-1)) with (-1) in Ek
     | change (inject_Z 0) with 0 in Ek | change (inject_Z 1) with 1 in Ek
     | change (inject_Z 2) with 2 in Ek]; split; lra.
Qed.

End PaymentStructure.

Section Installments.

Lemma toDecimal2_nonneg (p : Z) (x a : Q) : 0 <= x -> toDecimal p 2 x = Some a -> 0 <= a.
Proof.
  intros H Ha. apply toDecimal_Some in Ha. destruct Ha as [-> _].
  change (inject_Z (10 ^ 2)) with 100.
  assert (R : (round_half_away 0 <= round_half_away (x * 100))%Z)
    by (apply round_half_away_le; lra).
  change (round_half_away 0) with 0%Z in R. rewrite Zle_Qle in R.
  change (inject_Z 0) with 0 in R.
  apply Qle_shift_div_l; [lra |]. lra.
Qed.

Lemma quoteData_paymentStructure (env : Env) (project : ProjectAssessment.t) (score : Q)
    (now : Z) :
  let data := quoteData env project score now in
  let total := QuoteData.totalEstimate data in
  let ps := QuoteData.paymentStructure data in
  deposit ps = Math.round (fmul total (lit 0.3)) /\
  milestone_1 ps = Math.round (fmul total (lit 0.3)) /\
  milestone_2 ps = Math.round (fmul total (lit 0.2)) /\
  final ps = Math.round (fmul total (lit 0.2)).
Proof.
  cbv zeta. unfold quoteData.
  cbn [QuoteData.paymentStructure QuoteData.totalEstimate
       deposit milestone_1 milestone_2 final].
  repeat split.
Qed.

(** C4 (amended): the installments of every generated quote are the 30%,
    30%, 20% and 20% shares, each rounded on its own to a whole unit; their
    sum is within 1.7 units of the total estimate as computed, and within 2
    units of the total estimate as stored and returned. *)
Theorem generateQuote_installments (env : Env) (now : Z) (uuid : string) (req : Request)
    (db db' : DB) (msg : option string) (quote : ProjectQuote.t) :
  (forall t, 0 <= BASE_RATES env t) ->
  generateQuote env now uuid req db = (QuoteReply msg quote, db') ->
  exists project : ProjectAssessment.t,
    prisma.projectAssessment db !! req_param req = Some project /\
    let total := QuoteData.totalEstimate (quoteData env project (complexityScoreOf project) now) in
    let ps := ProjectQuote.paymentStructure quote in
    deposit ps = Math.round (fmul total (lit 0.3)) /\
    milestone_1 ps = Math.round (fmul total (lit 0.3)) /\
    milestone_2 ps = Math.round (fmul total (lit 0.2)) /\
    final ps = Math.round (fmul total (lit 0.2)) /\
    Qabs (deposit ps + milestone_1 ps + milestone_2 ps + final ps - total) <= 17 # 10 /\
    Qabs (deposit ps + milestone_1 ps + milestone_2 ps + final ps
          - ProjectQuote.totalEstimate quote) <= 2.
Proof.
  intros Hrates H.
  apply generateQuote_success in H.
  destruct H as (userId & project & db1 & db2 & row & _ & Hp & _ & _ & _ & Hc & _ & ->).
  apply createQuote_Continue in Hc.
  destruct Hc as (_ & _ & _ & _ & _ & _ & _ & _ & Ht & _ & Hps & _).
  exists project. split; [exact Hp |]. cbv zeta.
  destruct (totalEstimate_nonneg env project (complexityScoreOf project) now Hrates) as [N _].
  set (total := QuoteData.totalEstimate
                  (quoteData env project (complexityScoreOf project) now)) in *.
  change (ProjectQuote.paymentStructure (withNumbers row))
    with (ProjectQuote.paymentStructure row).
  rewrite Hps.
  destruct (quoteData_paymentStructure env project (complexityScoreOf project) now)
    as (-> & -> & -> & ->).
  fold total.
  pose proof (toDecimal2_err 10 _ _ Ht) as [Ea Eb].
  pose proof (toDecimal2_bound _ _ Ht) as [_ Bu].
  pose proof (toDecimal2_nonneg 10 _ _ N Ht) as Na.
  assert (S : Qabs (Math.round (fmul total (lit 0.3)) + Math.round (fmul total (lit 0.3))
                    + Math.round (fmul total (lit 0.2)) + Math.round (fmul total (lit 0.2))
                    - total) <= 17 # 10).
  { apply installments_sum; [exact N | lra]. }
  repeat split; try reflexivity; [exact S |].
  change (ProjectQuote.totalEstimate (withNumbers row))
    with (rnd (ProjectQuote.totalEstimate row)).
  destruct (rnd_rel_err (ProjectQuote.totalEstimate row) Na) as [Ra Rb].
  apply Qabs_Qle_condition in S. destruct S as [S1 S2].
  apply Qabs_Qle_condition. split; lra.
Qed.

(** C4 (as stated) fails: with BASE_RATE_CREATIVE=4995 and a creative
    project of high complexity the total estimate is 7492.5 and the
    installments 2248, 2248, 1499 and 1499 sum to 7494. *)
Lemma installments_exceed_one_unit :
  exists (quote : ProjectQuote.t) (db' : DB),
    generateQuote env_4995 0 "q1" example_request creative_db
    = (QuoteReply (Some "Quote generated successfully"%string) quote, db') /\
    let ps := ProjectQuote.paymentStructure quote in
    ProjectQuote.totalEstimate quote == 7492.5 /\
    deposit ps == 2248 /\ milestone_1 ps == 2248 /\
    milestone_2 ps == 1499 /\ final ps == 1499 /\
    ~ Qabs (deposit ps + milestone_1 ps + milestone_2 ps + final ps
            - ProjectQuote.totalEstimate quote) <= 1.
Proof.
  eexists _, _. split; [vm_compute; reflexivity |].
  cbv zeta. repeat split; try qdecide.
  intros C. apply Qle_bool_iff in C. vm_compute in C. discriminate.
Qed.

(** X22: with the default rates every total estimate is a whole number of
    hundreds: the ceiling is the exact product rounded up, and the
    installments add up to the total. *)
Lemma default_rates_exact (project : ProjectAssessment.t) (score : Q) (now : Z) :
  let data := quoteData default_env project score now in
  let ps := QuoteData.paymentStructure data in
  QuoteData.notToExceed data == inject_Z (Qceiling (QuoteData.totalEstimate data * 1.15)) /\
  deposit ps + milestone_1 ps + milestone_2 ps + final ps == QuoteData.totalEstimate data.
Proof.
  destruct project as [id userId ty scope urg stored st].
  cbv zeta. unfold quoteData.
  cbn [ProjectAssessment.projectType ProjectAssessment.urgency QuoteData.notToExceed
       QuoteData.totalEstimate QuoteData.paymentStructure deposit milestone_1 milestone_2 final].
  destruct (complexityLevel score); destruct ty; destruct urg as [[] |]; split; qdecide.
Qed.

End Installments.

(* ===================================================================== *)
(** ** Quote lifecycle: accept and decline                                *)
(* ===================================================================== *)

Section Lifecycle.

(** C5: when the validity deadline of a quote has passed, [acceptQuote],
    called by the owner, answers "Quote has expired" (400) whatever the
    status of the quote, and leaves the database as it was. *)
Theorem acceptQuote_expired (now : Z) (req : Request) (db : DB)
    (userId : string) (quote : ProjectQuote.t) :
  authenticated req = Some userId ->
  prisma.projectQuote db !! req_param req = Some quote ->
  ProjectQuote.userId quote = userId ->
  (ProjectQuote.validUntil quote < now)%Z ->
  acceptQuote now req db = (Failure 400 "Quote has expired", db).
Proof.
  intros Ha Hq Ho Hexp. unfold acceptQuote.
  erewrite run_bind_Continue; [| rewrite Ha; reflexivity].
  erewrite run_bind_Continue; [| reflexivity].
  erewrite run_bind_Continue; [| rewrite Hq; reflexivity].
  erewrite run_bind_Continue; [| rewrite Ho, String.eqb_refl; reflexivity].
  unfold run, bind, when_, respond.
  replace (now >? ProjectQuote.validUntil quote)%Z with true; [reflexivity |].
  symmetry. apply Z.gtb_lt. exact Hexp.
Qed.

(** C10: [declineQuote] checks the owner and nothing else: whatever the
    status of the quote, the call succeeds, the stored quote becomes
    declined, [declineReason] and [declinedAt] of its metadata are replaced
    by the new values, the other metadata and the other columns are kept. *)
Theorem declineQuote_any_status (toISOString : Z -> string) (now : Z) (req : Request)
    (db : DB) (userId : string) (quote : ProjectQuote.t) :
  authenticated req = Some userId ->
  prisma.projectQuote db !! req_param req = Some quote ->
  ProjectQuote.userId quote = userId ->
  exists (updated : ProjectQuote.t) (db' : DB),
    declineQuote toISOString now req db
    = (QuoteReply (Some "Quote declined"%string) updated, db') /\
    prisma.projectQuote db' = <[req_param req := updated]> (prisma.projectQuote db) /\
    ProjectQuote.status updated = declined /\
    ProjectQuote.metadata updated !! "declineReason"%string = req_reason req /\
    ProjectQuote.metadata updated !! "declinedAt"%string = Some (JString (toISOString now)) /\
    (forall k : string, k <> "declineReason"%string -> k <> "declinedAt"%string ->
       ProjectQuote.metadata updated !! k = ProjectQuote.metadata quote !! k) /\
    ProjectQuote.userId updated = userId /\
    ProjectQuote.projectId updated = ProjectQuote.projectId quote /\
    ProjectQuote.totalEstimate updated = ProjectQuote.totalEstimate quote /\
    ProjectQuote.notToExceed updated = ProjectQuote.notToExceed quote /\
    ProjectQuote.termsAccepted updated = ProjectQuote.termsAccepted quote /\
    ProjectQuote.acceptedAt updated = ProjectQuote.acceptedAt quote.
Proof.
  intros Ha Hq Ho. unfold declineQuote.
  erewrite run_bind_Continue; [| rewrite Ha; reflexivity].
  erewrite run_bind_Continue; [| reflexivity].
  erewrite run_bind_Continue; [| rewrite Hq; reflexivity].
  erewrite run_bind_Continue; [| rewrite Ho, String.eqb_refl; reflexivity].
  erewrite run_bind_Continue; [| unfold updateQuote; rewrite Hq; reflexivity].
  erewrite run_bind_Continue; [| reflexivity].
  rewrite run_pure. eexists _, _. split; [reflexivity |].
  simpl. unfold declineMetadata.
  repeat split; try assumption.
  - rewrite lookup_insert_ne by discriminate.
    destruct (req_reason req).
    + apply lookup_insert_eq.
    + apply lookup_delete_eq.
  - apply lookup_insert_eq.
  - intros k K1 K2. rewrite lookup_insert_ne by congruence.
    destruct (req_reason req).
    + apply lookup_insert_ne. congruence.
    + apply lookup_delete_ne. congruence.
Qed.

Lemma declineMetadata_idem (m : gmap string JsonValue) (reason : option JsonValue)
    (at_ : string) :
  declineMetadata (declineMetadata m reason at_) reason at_ = declineMetadata m reason at_.
Proof.
  unfold declineMetadata. apply map_eq. intros k.
  destruct (decide (k = "declinedAt"%string)) as [-> | N1].
  { rewrite !lookup_insert_eq. reflexivity. }
  destruct reason as [r |]; destruct (decide (k = "declineReason"%string)) as [-> | N2];
    repeat first [ rewrite lookup_insert_eq | rewrite lookup_delete_eq
                 | rewrite lookup_insert_ne by congruence
                 | rewrite lookup_delete_ne by congruence ];
    reflexivity.
Qed.

(** Declining again, with the same reason at the same instant, leaves the
    quote table as the first decline left it. *)
Lemma declineQuote_again (toISOString : Z -> string) (now : Z) (req : Request)
    (db db' db'' : DB) (r r' : Reply) (userId : string) (quote : ProjectQuote.t) :
  authenticated req = Some userId ->
  prisma.projectQuote db !! req_param req = Some quote ->
  ProjectQuote.userId quote = userId ->
  declineQuote toISOString now req db = (r, db') ->
  declineQuote toISOString now req db' = (r', db'') ->
  r' = r /\ prisma.projectQuote db'' = prisma.projectQuote db'.
Proof.
  intros Ha Hq Ho H1 H2.
  assert (Step1 : forall d q, prisma.projectQuote d !! req_param req = Some q ->
            ProjectQuote.userId q = userId ->
            declineQuote toISOString now req d
            = (QuoteReply (Some "Quote declined"%string)
                 (ProjectQuote.mk (ProjectQuote.id q) (ProjectQuote.projectId q)
                    (ProjectQuote.userId q) (ProjectQuote.baseRate q)
                    (ProjectQuote.complexityAdjustment q) (ProjectQuote.urgencyAdjustment q)
                    (ProjectQuote.totalEstimate q) (ProjectQuote.notToExceed q)
                    (ProjectQuote.estimatedTimelineWeeks q) (ProjectQuote.deliveryDate q)
                    (ProjectQuote.paymentStructure q) (ProjectQuote.termsAccepted q)
                    (ProjectQuote.acceptedAt q) (ProjectQuote.validUntil q) declined
                    (declineMetadata (ProjectQuote.metadata q) (req_reason req)
                       (toISOString now))),
               snd (declineQuote toISOString now req d)) /\
            prisma.projectQuote (snd (declineQuote toISOString now req d))
            = <[req_param req :=
                  ProjectQuote.mk (ProjectQuote.id q) (ProjectQuote.projectId q)
                    (ProjectQuote.userId q) (ProjectQuote.baseRate q)
                    (ProjectQuote.complexityAdjustment q) (ProjectQuote.urgencyAdjustment q)
                    (ProjectQuote.totalEstimate q) (ProjectQuote.notToExceed q)
                    (ProjectQuote.estimatedTimelineWeeks q) (ProjectQuote.deliveryDate q)
                    (ProjectQuote.paymentStructure q) (ProjectQuote.termsAccepted q)
                    (ProjectQuote.acceptedAt q) (ProjectQuote.validUntil q) declined
                    (declineMetadata (ProjectQuote.metadata q) (req_reason req)
                       (toISOString now))]> (prisma.projectQuote d)).
  { intros d q Hd Hu. unfold declineQuote.
    erewrite run_bind_Continue; [| rewrite Ha; reflexivity].
    erewrite run_bind_Continue; [| reflexivity].
    erewrite run_bind_Continue; [| rewrite Hd; reflexivity].
    erewrite run_bind_Continue; [| rewrite Hu, String.eqb_refl; reflexivity].
    erewrite run_bind_Continue; [| unfold updateQuote; rewrite Hd; reflexivity].
    erewrite run_bind_Continue; [| reflexivity].
    rewrite run_pure. split; reflexivity. }
  destruct (Step1 db quote Hq Ho) as [E1 Q1]. rewrite H1 in E1, Q1.
  apply (f_equal fst) in E1. cbn [fst] in E1. subst r. cbn [snd] in Q1.
  set (q1 := ProjectQuote.mk _ _ _ _ _ _ _ _ _ _ _ _ _ _ declined _) in *.
  assert (Hq1 : prisma.projectQuote db' !! req_param req = Some q1)
    by (rewrite Q1; apply lookup_insert_eq).
  destruct (Step1 db' q1 Hq1 Ho) as [E2 Q2]. rewrite H2 in E2, Q2.
  apply (f_equal fst) in E2. cbn [fst] in E2. subst r'. cbn [snd] in Q2.
  subst q1. cbn [ProjectQuote.id ProjectQuote.projectId ProjectQuote.userId
    ProjectQuote.baseRate ProjectQuote.complexityAdjustment ProjectQuote.urgencyAdjustment
    ProjectQuote.totalEstimate ProjectQuote.notToExceed ProjectQuote.estimatedTimelineWeeks
    ProjectQuote.deliveryDate ProjectQuote.paymentStructure ProjectQuote.termsAccepted
    ProjectQuote.acceptedAt ProjectQuote.validUntil ProjectQuote.metadata] in *.
  rewrite declineMetadata_idem in *. split; [reflexivity |].
  rewrite Q2, Q1. apply insert_insert_eq.
Qed.

End Lifecycle.

(* ===================================================================== *)
(** ** One active quote per project                                       *)
(* ===================================================================== *)

Section OneActiveQuote.

Lemma findFirstActiveQuote_None (quotes : gmap string ProjectQuote.t) (projectId : string) :
  findFirstActiveQuote quotes projectId = None <->
  (forall (k : string) (q : ProjectQuote.t),
     quotes !! k = Some q -> ProjectQuote.projectId q = projectId ->
     isActive (ProjectQuote.status q) = false).
Proof.
  unfold findFirstActiveQuote. split.
  - intros H k q Hk Hp.
    destruct (List.find _ (map_to_list quotes)) as [kq |] eqn:F; [discriminate |].
    pose proof (find_none _ _ F (k, q)) as N. simpl in N.
    rewrite <- list_elem_of_In, elem_of_map_to_list in N. specialize (N Hk).
    rewrite Hp, String.eqb_refl in N. exact N.
  - intros H.
    destruct (List.find _ (map_to_list quotes)) as [[k q] |] eqn:F; [exfalso | reflexivity].
    apply find_some in F. destruct F as [Hin Hb]. simpl in Hb.
    rewrite <- list_elem_of_In, elem_of_map_to_list in Hin.
    apply andb_true_iff in Hb. destruct Hb as [Hp Hact]. apply String.eqb_eq in Hp.
    rewrite (H k q Hin Hp) in Hact. discriminate.
Qed.

(** What [generateQuote] does to the quote table: nothing, or, when the
    project has no active quote, one new pending row for the project. *)
Lemma generateQuote_quotes (env : Env) (now : Z) (uuid : string) (req : Request)
    (db db' : DB) (reply : Reply) :
  generateQuote env now uuid req db = (reply, db') ->
  prisma.projectQuote db' = prisma.projectQuote db \/
  (findFirstActiveQuote (prisma.projectQuote db) (req_param req) = None /\
   exists row : ProjectQuote.t,
     prisma.projectQuote db !! uuid = None /\
     prisma.projectQuote db' = <[uuid := row]> (prisma.projectQuote db) /\
     ProjectQuote.projectId row = req_param req /\
     ProjectQuote.status row = pending).
Proof.
  unfold generateQuote. intros H.
  apply run_bind in H as [(userId & d & Ha & H) | Ha];
    [apply require_Continue in Ha as [Ha ->] | apply require_Respond in Ha as (_ & _ & ->); auto].
  apply run_bind in H as [(found & d & Hp & H) | Hp]; [| discriminate].
  injection Hp as <- <-.
  apply run_bind in H as [(project & d & Hp & H) | Hp];
    [apply require_Continue in Hp as [Hp ->] | apply require_Respond in Hp as (_ & _ & ->); auto].
  apply run_bind in H as [(? & d & Ho & H) | Ho];
    [apply when_Continue in Ho as [Ho ->] | apply when_Respond in Ho as (_ & _ & ->); auto].
  apply run_bind in H as [(existing & d & Hf & H) | Hf]; [| discriminate].
  injection Hf as <- <-.
  apply run_bind in H as [(? & d & He & H) | He];
    [apply when_Continue in He as [He ->] | apply when_Respond in He as (_ & _ & ->); auto].
  assert (Hnone : findFirstActiveQuote (prisma.projectQuote db) (req_param req) = None).
  { apply bool_decide_eq_false in He.
    destruct (findFirstActiveQuote (prisma.projectQuote db) (req_param req)); [| reflexivity].
    exfalso. apply He. eauto. }
  assert (Hupd : forall s db1,
            match ProjectAssessment.complexityScore project with
            | Some _ => pure ()
            | None => updateComplexityScore (req_param req) (complexityScoreOf project)
            end db = (s, db1) -> prisma.projectQuote db1 = prisma.projectQuote db).
  { intros s db1 Hu. destruct (ProjectAssessment.complexityScore project).
    - injection Hu as _ <-. reflexivity.
    - eapply updateComplexityScore_quotes. exact Hu. }
  apply run_bind in H as [(? & db1 & Hu & H) | Hu]; [| left; eapply Hupd; exact Hu].
  apply Hupd in Hu.
  apply run_bind in H as [(row & db2 & Hc & H) | Hc].
  2:{ apply createQuote_Respond in Hc. destruct Hc as [-> _]. left. exact Hu. }
  apply createQuote_Continue in Hc.
  destruct Hc as (Hfresh & -> & _ & Hpid & _ & _ & _ & _ & _ & _ & _ & _ & Hst).
  right. split; [exact Hnone |]. exists row. rewrite Hu in Hfresh.
  split; [exact Hfresh |]. split; [| split; assumption].
  apply run_bind in H as [(? & db3 & Hs & H) | Hs].
  - apply updateProjectStatus_quotes in Hs.
    apply run_bind in H as [(? & db4 & Hl & H) | Hl]; [| discriminate].
    injection Hl as _ <-. injection H as _ <-.
    unfold set_auditLog, set_projectQuote in *. cbn [prisma.projectQuote] in *.
    rewrite Hs, Hu. reflexivity.
  - apply updateProjectStatus_quotes in Hs.
    unfold set_projectQuote in *. cbn [prisma.projectQuote] in *.
    rewrite Hs, Hu. reflexivity.
Qed.

Lemma generateQuote_duplicate (env : Env) (now : Z) (uuid : string) (req : Request) (db : DB)
    (userId : string) (project : ProjectAssessment.t) (q : ProjectQuote.t) :
  authenticated req = Some userId ->
  prisma.projectAssessment db !! req_param req = Some project ->
  ProjectAssessment.userId project = userId ->
  findFirstActiveQuote (prisma.projectQuote db) (req_param req) = Some q ->
  generateQuote env now uuid req db
  = (Failure 400 "Active quote already exists for this project", db).
Proof.
  intros Ha Hp Ho Hf. unfold generateQuote.
  erewrite run_bind_Continue; [| rewrite Ha; reflexivity].
  erewrite run_bind_Continue; [| reflexivity].
  erewrite run_bind_Continue; [| rewrite Hp; reflexivity].
  erewrite run_bind_Continue; [| rewrite Ho, String.eqb_refl; reflexivity].
  erewrite run_bind_Continue; [| reflexivity].
  unfold run, bind, when_, respond. rewrite Hf.
  rewrite bool_decide_eq_true_2 by eauto. reflexivity.
Qed.

Lemma generateQuote_failure_codes (env : Env) (now : Z) (uuid : string) (req : Request)
    (db db' : DB) (reply : Reply) :
  generateQuote env now uuid req db = (reply, db') ->
  findFirstActiveQuote (prisma.projectQuote db) (req_param req) <> None ->
  db' = db /\
  (reply = Failure 401 "Unauthorized" \/ reply = Failure 404 "Project not found" \/
   reply = Failure 403 "Access denied" \/
   reply = Failure 400 "Active quote already exists for this project").
Proof.
  unfold generateQuote. intros H Hex.
  apply run_bind in H as [(userId & d & Ha & H) | Ha];
    [apply require_Continue in Ha as [Ha ->] | apply require_Respond in Ha as (_ & -> & ->); auto].
  apply run_bind in H as [(found & d & Hp & H) | Hp]; [| discriminate].
  injection Hp as <- <-.
  apply run_bind in H as [(project & d & Hp & H) | Hp];
    [apply require_Continue in Hp as [Hp ->]
    | apply require_Respond in Hp as (_ & -> & ->); auto].
  apply run_bind in H as [(? & d & Ho & H) | Ho];
    [apply when_Continue in Ho as [Ho ->] | apply when_Respond in Ho as (_ & -> & ->); auto 6].
  apply run_bind in H as [(existing & d & Hf & H) | Hf]; [| discriminate].
  injection Hf as <- <-.
  apply run_bind in H as [(? & d & He & H) | He];
    [apply when_Continue in He as [He ->] | apply when_Respond in He as (_ & -> & ->); auto 6].
  exfalso. apply bool_decide_eq_false in He.
  destruct (findFirstActiveQuote (prisma.projectQuote db) (req_param req)); [| congruence].
  apply He. eauto.
Qed.

(** C6: [generateQuote] keeps the invariant that a project has at most one
    quote that is pending, sent or accepted.  When the project already has
    such a quote the call creates nothing and fails; for the owner of the
    project the failure is the duplicate-active-quote error (400). *)
Theorem generateQuote_one_active_quote (env : Env) (now : Z) (uuid : string) (req : Request)
    (db db' : DB) (reply : Reply) :
  at_most_one_active (prisma.projectQuote db) ->
  generateQuote env now uuid req db = (reply, db') ->
  at_most_one_active (prisma.projectQuote db') /\
  (forall (k : string) (q : ProjectQuote.t),
     prisma.projectQuote db !! k = Some q ->
     ProjectQuote.projectId q = req_param req ->
     isActive (ProjectQuote.status q) = true ->
     db' = db /\
     (exists (code : Z) (error : string), reply = Failure code error) /\
     (forall (userId : string) (project : ProjectAssessment.t),
        authenticated req = Some userId ->
        prisma.projectAssessment db !! req_param req = Some project ->
        ProjectAssessment.userId project = userId ->
        reply = Failure 400 "Active quote already exists for this project")).
Proof.
  intros Inv H. split.
  - destruct (generateQuote_quotes _ _ _ _ _ _ _ H)
      as [-> | (Hnone & row & Hfresh & -> & Hpid & Hst)];
      [exact Inv |].
    pose proof (proj1 (findFirstActiveQuote_None _ _) Hnone) as Hno.
    intros i j qi qj Hi Hj Hp Ai Aj.
    destruct (decide (i = uuid)) as [-> | Ni]; destruct (decide (j = uuid)) as [-> | Nj].
    + reflexivity.
    + exfalso. rewrite lookup_insert_eq in Hi. injection Hi as <-.
      rewrite lookup_insert_ne in Hj by congruence.
      rewrite (Hno j qj Hj) in Aj; [discriminate | congruence].
    + exfalso. rewrite lookup_insert_eq in Hj. injection Hj as <-.
      rewrite lookup_insert_ne in Hi by congruence.
      rewrite (Hno i qi Hi) in Ai; [discriminate | congruence].
    + rewrite lookup_insert_ne in Hi, Hj by congruence.
      exact (Inv i j qi qj Hi Hj Hp Ai Aj).
  - intros k q Hk Hp Hact.
    assert (Hex : findFirstActiveQuote (prisma.projectQuote db) (req_param req) <> None).
    { intros C. rewrite (proj1 (findFirstActiveQuote_None _ _) C k q Hk Hp) in Hact.
      discriminate. }
    destruct (generateQuote_failure_codes _ _ _ _ _ _ _ H Hex) as [-> Codes].
    split; [reflexivity |]. split.
    + destruct Codes as [-> | [-> | [-> | ->]]]; eauto.
    + intros userId project Ha Hproj Ho.
      destruct (findFirstActiveQuote (prisma.projectQuote db) (req_param req)) as [q' |] eqn:F;
        [| congruence].
      rewrite (generateQuote_duplicate env now uuid req db userId project q' Ha Hproj Ho F) in H.
      injection H as <-. reflexivity.
Qed.

End OneActiveQuote.

(* ===================================================================== *)
(** ** Bundle pricing                                                     *)
(* ===================================================================== *)

Section BundlePricing.

Lemma findFirst_None {A} (where_ : A -> bool) (rows : list A) :
  findFirst where_ rows = None <-> (forall r, r ∈ rows -> where_ r = false).
Proof.
  unfold findFirst. split.
  - intros H r Hr. apply (find_none _ _ H). apply list_elem_of_In. exact Hr.
  - intros H. destruct (List.find where_ rows) as [r |] eqn:F; [| reflexivity].
    apply find_some in F. destruct F as [Hin Hb].
    rewrite (H r) in Hb; [discriminate | apply list_elem_of_In; exact Hin].
Qed.

Lemma findFirst_Some {A} (where_ : A -> bool) (rows : list A) (r : A) :
  findFirst where_ rows = Some r -> r ∈ rows /\ where_ r = true.
Proof.
  unfold findFirst. intros H. apply find_some in H. destruct H as [Hin Hb].
  split; [apply list_elem_of_In; exact Hin | exact Hb].
Qed.


Lemma anySuffix_true (f : string -> bool) (t : string) :
  anySuffix f t = true ->
  f t = true \/ exists c t', t = String c t' /\ anySuffix f t' = true.
Proof.
  destruct t as [| c t']; cbn [anySuffix]; rewrite orb_true_iff.
  - intros [H | H]; [left; exact H | discriminate].
  - intros [H | H]; [left; exact H | right; eauto].
Qed.

Lemma plainChar_eqb (c : Ascii.ascii) :
  plainChar c = true ->
  Ascii.eqb c percent = false /\ Ascii.eqb c underscore = false /\ Ascii.eqb c backslash = false.
Proof.
  unfold plainChar. rewrite !andb_true_iff, !negb_true_iff. tauto.
Qed.

Lemma plainChar_intro (c : Ascii.ascii) :
  Ascii.eqb c percent = false -> Ascii.eqb c underscore = false ->
  Ascii.eqb c backslash = false -> plainChar c = true.
Proof. unfold plainChar. intros -> -> ->. reflexivity. Qed.

(** [like] decides [Like]. *)
Lemma like_Like_upto (n : nat) (pattern : string) :
  (String.length pattern <= n)%nat ->
  forall text, like pattern text = true -> Like pattern text.
Proof.
  revert pattern. induction n as [| n IH]; intros pattern L text.
  - destruct pattern; [| cbn in L; lia].
    destruct text; [constructor | discriminate].
  - destruct pattern as [| p rest].
    { destruct text; [constructor | discriminate]. }
    cbn [String.length] in L. cbn [like].
    destruct (Ascii.eqb p percent) eqn:E1.
    { apply Ascii.eqb_eq in E1. subst p.
      induction text as [| c t IHt]; intros H; apply anySuffix_true in H.
      - destruct H as [H | (c & t' & [=] & _)].
        apply Like_run_none, IH; [lia | exact H].
      - destruct H as [H | (c' & t' & [= <- <-] & H)].
        + apply Like_run_none, IH; [lia | exact H].
        + apply Like_run_more, IHt, H. }
    destruct (Ascii.eqb p underscore) eqn:E2.
    { apply Ascii.eqb_eq in E2. subst p.
      destruct text as [| c t]; [discriminate |].
      intros H. apply Like_one, IH; [lia | exact H]. }
    destruct (Ascii.eqb p backslash) eqn:E3.
    { apply Ascii.eqb_eq in E3. subst p.
      destruct rest as [| q rest']; [discriminate |].
      destruct text as [| c t]; [discriminate |].
      rewrite andb_true_iff. intros [E H]. apply Ascii.eqb_eq in E. subst c.
      cbn [String.length] in L. apply Like_escaped, IH; [lia | exact H]. }
    destruct text as [| c t]; [discriminate |].
    rewrite andb_true_iff. intros [E H]. apply Ascii.eqb_eq in E. subst c.
    apply Like_same; [apply plainChar_intro; assumption |].
    apply IH; [lia | exact H].
Qed.

Lemma like_Like (pattern text : string) : like pattern text = true -> Like pattern text.
Proof. apply (like_Like_upto (String.length pattern)). lia. Qed.

Lemma Like_like (pattern text : string) : Like pattern text -> like pattern text = true.
Proof.
  induction 1 as [| p t _ IH | p c t _ IH | p c t _ IH | c p t _ IH | c p t P _ IH].
  - reflexivity.
  - change (anySuffix (like p) t = true).
    destruct t; cbn [anySuffix]; rewrite IH; reflexivity.
  - change (anySuffix (like p) (String c t) = true).
    change (anySuffix (like p) t = true) in IH.
    cbn [anySuffix]. rewrite IH. apply orb_true_r.
  - exact IH.
  - cbn [like]. change (Ascii.eqb backslash percent) with false.
    change (Ascii.eqb backslash underscore) with false.
    change (Ascii.eqb backslash backslash) with true.
    cbv iota. rewrite Ascii.eqb_refl, IH. reflexivity.
  - cbn [like]. destruct (plainChar_eqb c P) as (-> & -> & ->).
    rewrite Ascii.eqb_refl, IH. reflexivity.
Qed.

Lemma like_spec (pattern text : string) : like pattern text = true <-> Like pattern text.
Proof. split; [apply like_Like | apply Like_like]. Qed.






Lemma categoryWhere_spec (key : string) (r : RevenueCategory.t) :
  categoryWhere key r = true <-> categoryMatches key r.
Proof.
  unfold categoryWhere, categoryMatches, equalsInsensitive.
  rewrite orb_true_iff, String.eqb_eq, like_spec. reflexivity.
Qed.

Lemma scaleWhere_spec (key : string) (r : CompanyScale.t) :
  scaleWhere key r = true <-> scaleMatches key r.
Proof.
  unfold scaleWhere, scaleMatches, equalsInsensitive.
  rewrite orb_true_iff, String.eqb_eq, like_spec. reflexivity.
Qed.

Lemma category_miss (db : DB) (key : string) :
  (forall r, r ∈ prisma.revenueCategory db -> ~ categoryMatches key r) ->
  findFirst (categoryWhere key) (prisma.revenueCategory db) = None.
Proof.
  intros H. apply findFirst_None. intros r Hr.
  destruct (categoryWhere key r) eqn:B; [| reflexivity].
  exfalso. apply (H r Hr). apply categoryWhere_spec. exact B.
Qed.

Lemma scale_miss (db : DB) (key : string) :
  (forall r, r ∈ prisma.companyScale db -> ~ scaleMatches key r) ->
  findFirst (scaleWhere key) (prisma.companyScale db) = None.
Proof.
  intros H. apply findFirst_None. intros r Hr.
  destruct (scaleWhere key r) eqn:B; [| reflexivity].
  exfalso. apply (H r Hr). apply scaleWhere_spec. exact B.
Qed.



(** What follows the lookup of the price row. *)
Lemma tier_found (db : DB) (complexityRating : Z) (t : ComplexityTier.t) :
  findFirst (tierWhere complexityRating) (prisma.complexityTier db) = Some t ->
  isInt4 complexityRating = true /\ ComplexityTier.rating t = complexityRating.
Proof.
  intros H. apply findFirst_Some in H. destruct H as [_ H].
  unfold tierWhere in H. apply andb_true_iff in H. destruct H as [R E].
  split; [exact R | apply Z.eqb_eq, E].
Qed.

Lemma tier_miss (db : DB) (complexityRating : Z) :
  (forall t, t ∈ prisma.complexityTier db -> ComplexityTier.rating t <> complexityRating) ->
  findFirst (tierWhere complexityRating) (prisma.complexityTier db) = None.
Proof.
  intros H. apply findFirst_None. intros t Hin. unfold tierWhere.
  apply andb_false_iff. right. apply Z.eqb_neq. apply H, Hin.
Qed.



(** In a key, [_] and [%] are wildcards of the comparison with the name:
    "s__s" finds the category named SaaS, and "medium%" the scale named
    "Medium ($1M - $10M)". *)
Example wildcard_keys_resolve :
  calculatePricing pricing_db "bundle_saas_pro" "s__s" "medium%" 7
  = calculatePricing pricing_db "bundle_saas_pro" "saas" "medium_10m" 7 /\
  exists res, calculatePricing pricing_db "bundle_saas_pro" "s__s" "medium%" 7 = Ok res.
Proof. split; [reflexivity | eexists; reflexivity]. Qed.

Lemma Number_comp (x y : Q) : x == y -> Number x = Number y.
Proof. apply rnd_comp. Qed.

Lemma fmul_zero_r (x y : Q) : y == 0 -> fmul x y = 0.
Proof. intros H. apply rnd_zero. rewrite H. ring. Qed.

Lemma fadd_zero_r (x y : Q) : is_double x -> y == 0 -> fadd x y == x.
Proof.
  intros D H. unfold fadd. rewrite (rnd_comp (x + y) x) by (rewrite H; ring). exact D.
Qed.

Lemma round2_comp (x y : Q) : x == y -> round2 x = round2 y.
Proof.
  intros H. unfold round2, fdiv, Math.round, fmul.
  rewrite (rnd_comp (x * 100) (y * 100)) by (rewrite H; reflexivity). reflexivity.
Qed.

(** C8 (amended): a complexity rating that fits the INTEGER column of the
    tiers and matches no tier is not an error: the call returns a result
    computed with multiplier 1.0 (no complexity adjustment).  A rating that
    does not fit the column makes the tier query raise.  A miss on the
    category, on the scale (ASCII keys without a backslash, over tables with
    ASCII names) or on the price row of (bundle, category, scale) raises the
    error of that lookup. *)
Theorem calculatePricing_missing_tier (db : DB)
    (bundleId revenueCategory companyRevenueScale : string) (complexityRating : Z) :
  (forall t, t ∈ prisma.complexityTier db -> ComplexityTier.rating t <> complexityRating) ->
  let result :=
    calculatePricing db bundleId revenueCategory companyRevenueScale complexityRating in
  (isText revenueCategory = true -> noEscape revenueCategory = true ->
   (forall r, r ∈ prisma.revenueCategory db -> isText (RevenueCategory.name r) = true) ->
   (forall r, r ∈ prisma.revenueCategory db -> ~ categoryMatches revenueCategory r) ->
   result = Throw (CategoryNotFound revenueCategory)) /\
  (forall c,
     findFirst (categoryWhere revenueCategory) (prisma.revenueCategory db) = Some c ->
     (isText companyRevenueScale = true -> noEscape companyRevenueScale = true ->
      (forall r, r ∈ prisma.companyScale db -> isText (CompanyScale.name r) = true) ->
      (forall r, r ∈ prisma.companyScale db -> ~ scaleMatches companyRevenueScale r) ->
      result = Throw (ScaleNotFound companyRevenueScale)) /\
     (forall s,
        findFirst (scaleWhere companyRevenueScale) (prisma.companyScale db) = Some s ->
        ((forall p, p ∈ prisma.basePricing db ->
            ~ (BasePricing.bundleId p = bundleId /\
               BasePricing.revenueCategoryId p = RevenueCategory.id c /\
               BasePricing.companyScaleId p = CompanyScale.id s)) ->
         result = Throw (PricingNotFound bundleId revenueCategory companyRevenueScale)) /\
        (forall p,
           findFirst (pricingWhere bundleId (RevenueCategory.id c) (CompanyScale.id s))
             (prisma.basePricing db) = Some p ->
           let base := Number (BasePricing.basePrice p) in
           let scaleMultiplier := Number (CompanyScale.multiplier s) in
           (isInt4 complexityRating = true ->
            exists res,
              result = Ok res /\
              PricingCalculation.complexityAdjustment res == 1 /\
              Breakdown.complexityAdjustment (PricingCalculation.breakdown res) == 0 /\
              PricingCalculation.finalPrice res
              = round2 (fadd base (fmul base (fsub scaleMultiplier 1)))) /\
           (isInt4 complexityRating = false ->
            result = Raise (IntegerOutOfRange complexityRating))))).
Proof.
  intros Htier result. subst result. unfold calculatePricing.
  pose proof (tier_miss db complexityRating Htier) as Ht.
  split.
  - intros _ _ _ H. rewrite (category_miss db revenueCategory H). reflexivity.
  - intros c ->. split.
    + intros _ _ _ H. rewrite (scale_miss db companyRevenueScale H). reflexivity.
    + intros s ->. split.
      * intros H.
        replace (findFirst (pricingWhere bundleId (RevenueCategory.id c) (CompanyScale.id s))
                   (prisma.basePricing db)) with (@None BasePricing.t); [reflexivity |].
        symmetry. apply findFirst_None. intros p Hin.
        destruct (pricingWhere bundleId (RevenueCategory.id c) (CompanyScale.id s) p) eqn:B;
          [exfalso | reflexivity].
        unfold pricingWhere in B. rewrite !andb_true_iff, !String.eqb_eq in B.
        apply (H p Hin). tauto.
      * intros p ->. cbv zeta. split; [| intros ->; reflexivity].
        intros ->. rewrite Ht. cbv beta iota. change (negb true) with false. cbv iota.
        eexists. split; [reflexivity |].
        unfold pricingOf.
        cbn [PricingCalculation.complexityAdjustment PricingCalculation.breakdown
             Breakdown.complexityAdjustment PricingCalculation.finalPrice].
        assert (Z1 : fsub (lit 1.0) 1 == 0) by qdecide.
        split; [qdecide |]. split.
        -- rewrite (fmul_zero_r _ _ Z1). qdecide.
        -- apply round2_comp. rewrite (fmul_zero_r _ _ Z1).
           apply fadd_zero_r; [apply is_double_fadd | reflexivity].
Qed.

(** C8 (as stated) fails: the rating 2147483648 matches no tier, and the
    call does not return a result: the tier query is refused, because the
    rating does not fit the INTEGER column. *)
Lemma rating_beyond_integer_raises :
  (forall t, t ∈ prisma.complexityTier pricing_db ->
             ComplexityTier.rating t <> 2147483648%Z) /\
  calculatePricing pricing_db "bundle_saas_pro" "saas" "medium_10m" 2147483648
  = Raise (IntegerOutOfRange 2147483648) /\
  (forall res,
     calculatePricing pricing_db "bundle_saas_pro" "saas" "medium_10m" 2147483648 <> Ok res).
Proof.
  split; [| split; [reflexivity | intros res; discriminate]].
  intros t Hin. apply list_elem_of_In in Hin. simpl in Hin.
  repeat (destruct Hin as [<- | Hin]; [discriminate |]). destruct Hin.
Qed.

(** C3: bundle pricing applies the complexity multiplier to the
    scale-adjusted amount: with [scaleAdjustment = base * (scaleMultiplier - 1)]
    and [complexityAdjustmentValue = (base + scaleAdjustment) *
    (complexityMultiplier - 1)], the result carries the two adjustments and
    [base + scaleAdjustment + complexityAdjustmentValue], each rounded to 2
    decimals; for base 5000, scale multiplier 1.5 and complexity multiplier
    1.35 these are 2500, 2625 and 10125.00. *)
Theorem calculatePricing_compounds (db : DB)
    (bundleId revenueCategory companyRevenueScale : string) (complexityRating : Z)
    (c : RevenueCategory.t) (s : CompanyScale.t) (p : BasePricing.t) (t : ComplexityTier.t) :
  findFirst (categoryWhere revenueCategory) (prisma.revenueCategory db) = Some c ->
  findFirst (scaleWhere companyRevenueScale) (prisma.companyScale db) = Some s ->
  findFirst (pricingWhere bundleId (RevenueCategory.id c) (CompanyScale.id s))
    (prisma.basePricing db) = Some p ->
  findFirst (tierWhere complexityRating) (prisma.complexityTier db) = Some t ->
  let base := Number (BasePricing.basePrice p) in
  let scaleMultiplier := Number (CompanyScale.multiplier s) in
  let complexityMultiplier := Number (ComplexityTier.adjustmentMultiplier t) in
  let scaleAdjustment := fmul base (fsub scaleMultiplier 1) in
  let complexityAdjustmentValue :=
    fmul (fadd base scaleAdjustment) (fsub complexityMultiplier 1) in
  exists res,
    calculatePricing db bundleId revenueCategory companyRevenueScale complexityRating = Ok res /\
    Breakdown.base (PricingCalculation.breakdown res) = base /\
    Breakdown.scaleAdjustment (PricingCalculation.breakdown res) = round2 scaleAdjustment /\
    Breakdown.complexityAdjustment (PricingCalculation.breakdown res)
    = round2 complexityAdjustmentValue /\
    PricingCalculation.finalPrice res
    = round2 (fadd (fadd base scaleAdjustment) complexityAdjustmentValue) /\
    (BasePricing.basePrice p == 5000 -> CompanyScale.multiplier s == 1.5 ->
     ComplexityTier.adjustmentMultiplier t == 1.35 ->
     Breakdown.scaleAdjustment (PricingCalculation.breakdown res) = 2500 /\
     Breakdown.complexityAdjustment (PricingCalculation.breakdown res) = 2625 /\
     PricingCalculation.finalPrice res = 10125).
Proof.
  intros Hc Hs Hp Ht. cbv zeta. unfold calculatePricing. rewrite Hc, Hs, Hp, Ht.
  destruct (tier_found db complexityRating t Ht) as [-> _].
  change (negb true) with false. cbv iota.
  eexists. split; [reflexivity |]. unfold pricingOf.
  cbn [PricingCalculation.breakdown PricingCalculation.finalPrice Breakdown.base
       Breakdown.scaleAdjustment Breakdown.complexityAdjustment].
  split; [reflexivity |]. split; [reflexivity |]. split; [reflexivity |].
  split; [reflexivity |].
  intros Eb Es Et.
  rewrite (Number_comp _ _ Eb), (Number_comp _ _ Es), (Number_comp _ _ Et).
  repeat split; vm_compute; reflexivity.
Qed.

End BundlePricing.

(* ===================================================================== *)
(** ** The lifecycle handlers, branch by branch                           *)
(* ===================================================================== *)

Section LifecycleRuns.

(** [acceptQuote], branch by branch. *)
Lemma acceptQuote_eq (now : Z) (req : Request) (db : DB) :
  acceptQuote now req db =
  match authenticated req with
  | None => (Failure 401 "Unauthorized", db)
  | Some userId =>
    match prisma.projectQuote db !! req_param req with
    | None => (Failure 404 "Quote not found", db)
    | Some quote =>
      if negb (ProjectQuote.userId quote =? userId)%string
      then (Failure 403 "Access denied", db)
      else if (now >? ProjectQuote.validUntil quote)%Z
      then (Failure 400 "Quote has expired", db)
      else if match ProjectQuote.status quote with pending | sent => false | _ => true end
      then (Failure 400 ("Quote cannot be accepted (status: "
                         ++ QuoteStatus_toString (ProjectQuote.status quote) ++ ")"), db)
      else
        let updated :=
          ProjectQuote.mk (ProjectQuote.id quote) (ProjectQuote.projectId quote)
            (ProjectQuote.userId quote) (ProjectQuote.baseRate quote)
            (ProjectQuote.complexityAdjustment quote) (ProjectQuote.urgencyAdjustment quote)
            (ProjectQuote.totalEstimate quote) (ProjectQuote.notToExceed quote)
            (ProjectQuote.estimatedTimelineWeeks quote) (ProjectQuote.deliveryDate quote)
            (ProjectQuote.paymentStructure quote) true (Some now)
            (ProjectQuote.validUntil quote) accepted (ProjectQuote.metadata quote) in
        let quotes := <[req_param req := updated]> (prisma.projectQuote db) in
        match prisma.projectAssessment db !! ProjectQuote.projectId quote with
        | None => (Thrown RecordNotFound, set_projectQuote db quotes)
        | Some p =>
            (QuoteReply (Some "Quote accepted successfully"%string) (withNumbers updated),
             prisma.mk
               (<[ProjectQuote.projectId quote :=
                    ProjectAssessment.mk (ProjectAssessment.id p) (ProjectAssessment.userId p)
                      (ProjectAssessment.projectType p) (ProjectAssessment.projectScope p)
                      (ProjectAssessment.urgency p) (ProjectAssessment.complexityScore p)
                      quote_accepted]> (prisma.projectAssessment db))
               quotes
               (prisma.auditLog db
                ++ [AuditLog.mk userId "quote_accepted" "quote" (req_param req) None])
               (prisma.revenueCategory db) (prisma.companyScale db)
               (prisma.basePricing db) (prisma.complexityTier db))
        end
    end
  end.
Proof.
  unfold acceptQuote, run, bind, require, when_, read, write, pure, respond, updateQuote,
    updateProjectStatus, createAuditLog.
  destruct (authenticated req) as [userId |]; [| reflexivity].
  destruct (prisma.projectQuote db !! req_param req) as [quote |] eqn:Hq; [| reflexivity].
  cbv beta iota zeta.
  destruct (negb (ProjectQuote.userId quote =? userId)%string); [reflexivity |].
  destruct (now >? ProjectQuote.validUntil quote)%Z; [reflexivity |].
  destruct (match ProjectQuote.status quote with pending | sent => false | _ => true end);
    [reflexivity |].
  cbv beta iota zeta. rewrite Hq. cbv beta iota zeta.
  unfold set_projectQuote at 1. cbn [prisma.projectAssessment].
  destruct (prisma.projectAssessment db !! ProjectQuote.projectId quote) as [p |];
    reflexivity.
Qed.

(** [declineQuote], branch by branch. *)
Lemma declineQuote_eq (toISOString : Z -> string) (now : Z) (req : Request) (db : DB) :
  declineQuote toISOString now req db =
  match authenticated req with
  | None => (Failure 401 "Unauthorized", db)
  | Some userId =>
    match prisma.projectQuote db !! req_param req with
    | None => (Failure 404 "Quote not found", db)
    | Some quote =>
      if negb (ProjectQuote.userId quote =? userId)%string
      then (Failure 403 "Access denied", db)
      else
        let updated :=
          ProjectQuote.mk (ProjectQuote.id quote) (ProjectQuote.projectId quote)
            (ProjectQuote.userId quote) (ProjectQuote.baseRate quote)
            (ProjectQuote.complexityAdjustment quote) (ProjectQuote.urgencyAdjustment quote)
            (ProjectQuote.totalEstimate quote) (ProjectQuote.notToExceed quote)
            (ProjectQuote.estimatedTimelineWeeks quote) (ProjectQuote.deliveryDate quote)
            (ProjectQuote.paymentStructure quote) (ProjectQuote.termsAccepted quote)
            (ProjectQuote.acceptedAt quote) (ProjectQuote.validUntil quote) declined
            (declineMetadata (ProjectQuote.metadata quote) (req_reason req)
               (toISOString now)) in
        (QuoteReply (Some "Quote declined"%string) updated,
         prisma.mk (prisma.projectAssessment db)
           (<[req_param req := updated]> (prisma.projectQuote db))
           (prisma.auditLog db
            ++ [AuditLog.mk userId "quote_declined" "quote" (req_param req)
                  (Some (JObject match req_reason req with
                                 | Some r => [("reason"%string, r)]
                                 | None => []
                                 end))])
           (prisma.revenueCategory db) (prisma.companyScale db)
           (prisma.basePricing db) (prisma.complexityTier db))
    end
  end.
Proof.
  unfold declineQuote, run, bind, require, when_, read, write, pure, respond, updateQuote,
    createAuditLog.
  destruct (authenticated req) as [userId |]; [| reflexivity].
  destruct (prisma.projectQuote db !! req_param req) as [quote |] eqn:Hq; [| reflexivity].
  cbv beta iota zeta.
  destruct (negb (ProjectQuote.userId quote =? userId)%string); [reflexivity |].
  cbv beta iota zeta. rewrite Hq. reflexivity.
Qed.

End LifecycleRuns.

Section AcceptQuote.

(** X1: the owner of a quote that is pending or sent, and whose validity
    deadline has not passed, accepts it: [acceptQuote] answers "Quote
    accepted successfully", the stored quote becomes accepted with
    [termsAccepted] set and [acceptedAt] the time of the call, its amounts,
    payment structure, deadline and metadata are kept, the project of the
    quote goes to status quote_accepted, and one entry is appended to the
    audit log. *)
Theorem acceptQuote_success (now : Z) (req : Request) (db : DB) (userId : string)
    (quote : ProjectQuote.t) (project : ProjectAssessment.t) :
  authenticated req = Some userId ->
  prisma.projectQuote db !! req_param req = Some quote ->
  ProjectQuote.userId quote = userId ->
  (now <= ProjectQuote.validUntil quote)%Z ->
  ProjectQuote.status quote = pending \/ ProjectQuote.status quote = sent ->
  prisma.projectAssessment db !! ProjectQuote.projectId quote = Some project ->
  exists (updated : ProjectQuote.t) (project' : ProjectAssessment.t) (db' : DB),
    acceptQuote now req db
    = (QuoteReply (Some "Quote accepted successfully"%string) (withNumbers updated), db') /\
    prisma.projectQuote db' = <[req_param req := updated]> (prisma.projectQuote db) /\
    ProjectQuote.status updated = accepted /\
    ProjectQuote.termsAccepted updated = true /\
    ProjectQuote.acceptedAt updated = Some now /\
    ProjectQuote.projectId updated = ProjectQuote.projectId quote /\
    ProjectQuote.userId updated = userId /\
    ProjectQuote.totalEstimate updated = ProjectQuote.totalEstimate quote /\
    ProjectQuote.notToExceed updated = ProjectQuote.notToExceed quote /\
    ProjectQuote.paymentStructure updated = ProjectQuote.paymentStructure quote /\
    ProjectQuote.validUntil updated = ProjectQuote.validUntil quote /\
    ProjectQuote.metadata updated = ProjectQuote.metadata quote /\
    prisma.projectAssessment db'
    = <[ProjectQuote.projectId quote := project']> (prisma.projectAssessment db) /\
    ProjectAssessment.status project' = quote_accepted /\
    ProjectAssessment.userId project' = ProjectAssessment.userId project /\
    ProjectAssessment.complexityScore project' = ProjectAssessment.complexityScore project /\
    prisma.auditLog db'
    = prisma.auditLog db ++ [AuditLog.mk userId "quote_accepted" "quote" (req_param req) None].
Proof.
  intros Ha Hq Ho Hv Hs Hp. rewrite acceptQuote_eq, Ha, Hq, Ho, String.eqb_refl, Hp.
  replace (now >? ProjectQuote.validUntil quote)%Z with false
    by (symmetry; rewrite Z.gtb_ltb; apply Z.ltb_ge; exact Hv).
  cbn [negb].
  replace (match ProjectQuote.status quote with pending | sent => false | _ => true end)
    with false by (destruct Hs as [-> | ->]; reflexivity).
  cbv zeta. eexists _, _, _. split; [reflexivity |].
  cbn [prisma.projectQuote prisma.projectAssessment prisma.auditLog
       ProjectQuote.status ProjectQuote.termsAccepted ProjectQuote.acceptedAt
       ProjectQuote.projectId ProjectQuote.userId ProjectQuote.totalEstimate
       ProjectQuote.notToExceed ProjectQuote.paymentStructure ProjectQuote.validUntil
       ProjectQuote.metadata ProjectAssessment.status ProjectAssessment.userId
       ProjectAssessment.complexityScore].
  repeat split; reflexivity.
Qed.

(** X2: a quote is accepted once.  After [acceptQuote] has succeeded, every
    later call for the same quote, by whoever and whenever, answers a
    failure and leaves the database as it is; for the owner the failure is
    "Quote cannot be accepted (status: accepted)", or "Quote has expired"
    once the deadline has passed. *)
Theorem acceptQuote_twice (now now' : Z) (req req' : Request) (db db' : DB)
    (msg : option string) (quote : ProjectQuote.t) :
  acceptQuote now req db = (QuoteReply msg quote, db') ->
  req_param req' = req_param req ->
  (exists (code : Z) (error : string), acceptQuote now' req' db' = (Failure code error, db')) /\
  (authenticated req' = authenticated req ->
   acceptQuote now' req' db'
   = (if (now' >? ProjectQuote.validUntil quote)%Z
      then Failure 400 "Quote has expired"
      else Failure 400 "Quote cannot be accepted (status: accepted)", db')).
Proof.
  intros H Hp. rewrite acceptQuote_eq in H.
  destruct (authenticated req) as [userId |] eqn:Ha; [| discriminate].
  destruct (prisma.projectQuote db !! req_param req) as [q |] eqn:Hq; [| discriminate].
  destruct (negb (ProjectQuote.userId q =? userId)%string) eqn:Ho; [discriminate |].
  destruct (now >? ProjectQuote.validUntil q)%Z; [discriminate |].
  destruct (match ProjectQuote.status q with pending | sent => false | _ => true end);
    [discriminate |].
  cbv zeta in H.
  destruct (prisma.projectAssessment db !! ProjectQuote.projectId q) as [p |]; [| discriminate].
  injection H as _ <- <-.
  rewrite acceptQuote_eq, Hp. cbn [prisma.projectQuote]. rewrite lookup_insert_eq.
  cbn [ProjectQuote.userId ProjectQuote.validUntil ProjectQuote.status withNumbers
       QuoteStatus_toString].
  split.
  - destruct (authenticated req') as [u' |]; [| eauto].
    destruct (negb (ProjectQuote.userId q =? u')%string); [eauto |].
    destruct (now' >? ProjectQuote.validUntil q)%Z; eauto.
  - intros ->. rewrite Ho.
    destruct (now' >? ProjectQuote.validUntil q)%Z; reflexivity.
Qed.

(** X3: what [acceptQuote] never does.  A call that answers a failure
    changes nothing; no call touches another quote or the pricing tables,
    makes a quote where there was none, or changes the id, the project, the
    owner, the amounts, the timeline, the payment structure, the deadline or
    the metadata of the quote it is given. *)
Theorem acceptQuote_frame (now : Z) (req : Request) (db db' : DB) (reply : Reply) :
  acceptQuote now req db = (reply, db') ->
  (forall (code : Z) (error : string), reply = Failure code error -> db' = db) /\
  (forall k : string, k <> req_param req ->
     prisma.projectQuote db' !! k = prisma.projectQuote db !! k) /\
  (forall q' : ProjectQuote.t, prisma.projectQuote db' !! req_param req = Some q' ->
     exists q : ProjectQuote.t,
       prisma.projectQuote db !! req_param req = Some q /\
       ProjectQuote.id q' = ProjectQuote.id q /\
       ProjectQuote.projectId q' = ProjectQuote.projectId q /\
       ProjectQuote.userId q' = ProjectQuote.userId q /\
       ProjectQuote.baseRate q' = ProjectQuote.baseRate q /\
       ProjectQuote.complexityAdjustment q' = ProjectQuote.complexityAdjustment q /\
       ProjectQuote.urgencyAdjustment q' = ProjectQuote.urgencyAdjustment q /\
       ProjectQuote.totalEstimate q' = ProjectQuote.totalEstimate q /\
       ProjectQuote.notToExceed q' = ProjectQuote.notToExceed q /\
       ProjectQuote.estimatedTimelineWeeks q' = ProjectQuote.estimatedTimelineWeeks q /\
       ProjectQuote.deliveryDate q' = ProjectQuote.deliveryDate q /\
       ProjectQuote.paymentStructure q' = ProjectQuote.paymentStructure q /\
       ProjectQuote.validUntil q' = ProjectQuote.validUntil q /\
       ProjectQuote.metadata q' = ProjectQuote.metadata q) /\
  prisma.revenueCategory db' = prisma.revenueCategory db /\
  prisma.companyScale db' = prisma.companyScale db /\
  prisma.basePricing db' = prisma.basePricing db /\
  prisma.complexityTier db' = prisma.complexityTier db.
Proof.
  intros H.
  assert (Same : forall r, (r, db) = (reply, db') ->
            (forall (code : Z) (error : string), reply = Failure code error -> db' = db) /\
            (forall k : string, k <> req_param req ->
               prisma.projectQuote db' !! k = prisma.projectQuote db !! k) /\
            (forall q' : ProjectQuote.t, prisma.projectQuote db' !! req_param req = Some q' ->
               exists q : ProjectQuote.t,
                 prisma.projectQuote db !! req_param req = Some q /\
                 ProjectQuote.id q' = ProjectQuote.id q /\
                 ProjectQuote.projectId q' = ProjectQuote.projectId q /\
                 ProjectQuote.userId q' = ProjectQuote.userId q /\
                 ProjectQuote.baseRate q' = ProjectQuote.baseRate q /\
                 ProjectQuote.complexityAdjustment q' = ProjectQuote.complexityAdjustment q /\
                 ProjectQuote.urgencyAdjustment q' = ProjectQuote.urgencyAdjustment q /\
                 ProjectQuote.totalEstimate q' = ProjectQuote.totalEstimate q /\
                 ProjectQuote.notToExceed q' = ProjectQuote.notToExceed q /\
                 ProjectQuote.estimatedTimelineWeeks q' = ProjectQuote.estimatedTimelineWeeks q /\
                 ProjectQuote.deliveryDate q' = ProjectQuote.deliveryDate q /\
                 ProjectQuote.paymentStructure q' = ProjectQuote.paymentStructure q /\
                 ProjectQuote.validUntil q' = ProjectQuote.validUntil q /\
                 ProjectQuote.metadata q' = ProjectQuote.metadata q) /\
            prisma.revenueCategory db' = prisma.revenueCategory db /\
            prisma.companyScale db' = prisma.companyScale db /\
            prisma.basePricing db' = prisma.basePricing db /\
            prisma.complexityTier db' = prisma.complexityTier db).
  { intros r E. injection E as _ <-. repeat split; try reflexivity.
    intros q' Hq'. exists q'. repeat split; try reflexivity. exact Hq'. }
  rewrite acceptQuote_eq in H.
  destruct (authenticated req) as [userId |]; [| eapply Same; exact H].
  destruct (prisma.projectQuote db !! req_param req) as [q |] eqn:Hq; [| eapply Same; exact H].
  destruct (negb (ProjectQuote.userId q =? userId)%string); [eapply Same; exact H |].
  destruct (now >? ProjectQuote.validUntil q)%Z; [eapply Same; exact H |].
  destruct (match ProjectQuote.status q with pending | sent => false | _ => true end);
    [eapply Same; exact H |].
  cbv zeta in H. clear Same.
  destruct (prisma.projectAssessment db !! ProjectQuote.projectId q) as [p |];
    injection H as <- <-; unfold set_projectQuote;
    cbn [prisma.projectQuote prisma.revenueCategory prisma.companyScale prisma.basePricing
         prisma.complexityTier].
  all: split; [discriminate |].
  all: split; [intros k Hk; apply lookup_insert_ne; congruence |].
  all: split; [| repeat split; reflexivity].
  all: rewrite lookup_insert_eq; intros q' [= <-]; exists q;
       split; [reflexivity | repeat split; reflexivity].
Qed.

End AcceptQuote.

Section DeclineFrame.

(** X4: what [declineQuote] never does.  It never touches the project
    table (the project of an accepted quote stays as it is when the quote is
    declined), another quote or the pricing tables; a call that answers a
    failure changes nothing, and a call that succeeds stores the quote it
    answers and appends one audit entry, carrying the reason when one was
    given. *)
Theorem declineQuote_frame (toISOString : Z -> string) (now : Z) (req : Request)
    (db db' : DB) (reply : Reply) :
  declineQuote toISOString now req db = (reply, db') ->
  prisma.projectAssessment db' = prisma.projectAssessment db /\
  (forall k : string, k <> req_param req ->
     prisma.projectQuote db' !! k = prisma.projectQuote db !! k) /\
  (forall (code : Z) (error : string), reply = Failure code error -> db' = db) /\
  (forall (msg : option string) (quote : ProjectQuote.t), reply = QuoteReply msg quote ->
     prisma.projectQuote db' !! req_param req = Some quote /\
     exists userId : string,
       authenticated req = Some userId /\
       prisma.auditLog db'
       = prisma.auditLog db
         ++ [AuditLog.mk userId "quote_declined" "quote" (req_param req)
               (Some (JObject match req_reason req with
                              | Some r => [("reason"%string, r)]
                              | None => []
                              end))]) /\
  prisma.revenueCategory db' = prisma.revenueCategory db /\
  prisma.companyScale db' = prisma.companyScale db /\
  prisma.basePricing db' = prisma.basePricing db /\
  prisma.complexityTier db' = prisma.complexityTier db.
Proof.
  rewrite declineQuote_eq.
  destruct (authenticated req) as [userId |].
  2:{ intros [= <- <-]. repeat split; try reflexivity; try discriminate. }
  destruct (prisma.projectQuote db !! req_param req) as [q |].
  2:{ intros [= <- <-]. repeat split; try reflexivity; try discriminate. }
  destruct (negb (ProjectQuote.userId q =? userId)%string).
  { intros [= <- <-]. repeat split; try reflexivity; try discriminate. }
  cbv zeta. intros [= <- <-].
  cbn [prisma.projectAssessment prisma.projectQuote prisma.auditLog prisma.revenueCategory
       prisma.companyScale prisma.basePricing prisma.complexityTier].
  split; [reflexivity |].
  split; [intros k Hk; apply lookup_insert_ne; congruence |].
  split; [discriminate |].
  split; [| repeat split; reflexivity].
  intros msg quote [= <- <-]. split; [apply lookup_insert_eq |].
  exists userId. split; reflexivity.
Qed.

End DeclineFrame.

(* ===================================================================== *)
(** ** generateQuote: its writes, its failures, its deadline              *)
(* ===================================================================== *)

Section GenerateQuoteRuns.

(** [generateQuote], guard by guard, then the four Prisma writes. *)
Lemma generateQuote_eq (env : Env) (now : Z) (uuid : string) (req : Request) (db : DB) :
  generateQuote env now uuid req db =
  match authenticated req with
  | None => (Failure 401 "Unauthorized", db)
  | Some userId =>
    match prisma.projectAssessment db !! req_param req with
    | None => (Failure 404 "Project not found", db)
    | Some project =>
      if negb (ProjectAssessment.userId project =? userId)%string
      then (Failure 403 "Access denied", db)
      else if bool_decide (is_Some (findFirstActiveQuote (prisma.projectQuote db) (req_param req)))
      then (Failure 400 "Active quote already exists for this project", db)
      else
        match match ProjectAssessment.complexityScore project with
              | Some _ => pure tt
              | None => updateComplexityScore (req_param req) (complexityScoreOf project)
              end db with
        | (Respond r, db1) => (r, db1)
        | (Continue _, db1) =>
          match createQuote uuid (req_param req) userId
                  (quoteData env project (complexityScoreOf project) now) db1 with
          | (Respond r, db2) => (r, db2)
          | (Continue quote, db2) =>
            match updateProjectStatus (req_param req) quote_generated db2 with
            | (Respond r, db3) => (r, db3)
            | (Continue _, db3) =>
                (QuoteReply (Some "Quote generated successfully"%string) (withNumbers quote),
                 set_auditLog db3
                   (prisma.auditLog db3
                    ++ [AuditLog.mk userId "quote_generated" "quote" (ProjectQuote.id quote)
                          (Some (JObject [("projectId"%string, JString (req_param req))]))]))
            end
          end
        end
    end
  end.
Proof.
  unfold generateQuote, run, bind, require, when_, read, write, pure, respond, createAuditLog.
  destruct (authenticated req) as [userId |]; [| reflexivity].
  destruct (prisma.projectAssessment db !! req_param req) as [project |]; [| reflexivity].
  cbv beta iota zeta.
  destruct (negb (ProjectAssessment.userId project =? userId)%string); [reflexivity |].
  destruct (bool_decide (is_Some (findFirstActiveQuote (prisma.projectQuote db) (req_param req))));
    [reflexivity |].
  cbv beta iota zeta.
  destruct (ProjectAssessment.complexityScore project) as [d |].
  - destruct (createQuote uuid (req_param req) userId
                (quoteData env project (complexityScoreOf project) now) db)
      as [[quote | r] db2]; [| reflexivity].
    destruct (updateProjectStatus (req_param req) quote_generated db2) as [[[] | r] db3];
      reflexivity.
  - destruct (updateComplexityScore (req_param req) (complexityScoreOf project) db)
      as [[[] | r] db1]; [| reflexivity].
    destruct (createQuote uuid (req_param req) userId
                (quoteData env project (complexityScoreOf project) now) db1)
      as [[quote | r] db2]; [| reflexivity].
    destruct (updateProjectStatus (req_param req) quote_generated db2) as [[[] | r] db3];
      reflexivity.
Qed.

Lemma updateComplexityScore_Continue (id : string) (score : Q) (db db' : DB) (u : unit) :
  updateComplexityScore id score db = (Continue u, db') ->
  exists (p : ProjectAssessment.t) (d : Q),
    prisma.projectAssessment db !! id = Some p /\
    toDecimal 3 2 score = Some d /\
    db' = set_projectAssessment db
            (<[id := ProjectAssessment.mk (ProjectAssessment.id p) (ProjectAssessment.userId p)
                       (ProjectAssessment.projectType p) (ProjectAssessment.projectScope p)
                       (ProjectAssessment.urgency p) (Some d) (ProjectAssessment.status p)]>
               (prisma.projectAssessment db)).
Proof.
  unfold updateComplexityScore.
  destruct (prisma.projectAssessment db !! id) as [p |]; [| discriminate].
  destruct (toDecimal 3 2 score) as [d |]; [| discriminate].
  intros [= <-]. eauto.
Qed.

Lemma updateProjectStatus_Continue (id : string) (st : ProjectStatus) (db db' : DB) (u : unit) :
  updateProjectStatus id st db = (Continue u, db') ->
  exists p : ProjectAssessment.t,
    prisma.projectAssessment db !! id = Some p /\
    db' = set_projectAssessment db
            (<[id := ProjectAssessment.mk (ProjectAssessment.id p) (ProjectAssessment.userId p)
                       (ProjectAssessment.projectType p) (ProjectAssessment.projectScope p)
                       (ProjectAssessment.urgency p) (ProjectAssessment.complexityScore p) st]>
               (prisma.projectAssessment db)).
Proof.
  unfold updateProjectStatus.
  destruct (prisma.projectAssessment db !! id) as [p |]; [| discriminate].
  intros [= <-]. eauto.
Qed.

(** The columns of a created row that [createQuote_Continue] leaves out. *)
Lemma createQuote_defaults (uuid projectId userId : string) (data : QuoteData.t)
    (db db' : DB) (row : ProjectQuote.t) :
  createQuote uuid projectId userId data db = (Continue row, db') ->
  ProjectQuote.termsAccepted row = false /\
  ProjectQuote.acceptedAt row = None /\
  ProjectQuote.metadata row = ∅ /\
  ProjectQuote.estimatedTimelineWeeks row = Qfloor (QuoteData.estimatedTimelineWeeks data) /\
  ProjectQuote.deliveryDate row = toDate (QuoteData.deliveryDate data).
Proof.
  unfold createQuote.
  destruct (prisma.projectQuote db !! uuid); [discriminate |].
  destruct (toDecimal 10 2 (QuoteData.baseRate data)); [| discriminate].
  destruct (toDecimal 10 2 (QuoteData.complexityAdjustment data)); [| discriminate].
  destruct (toDecimal 10 2 (QuoteData.urgencyAdjustment data)); [| discriminate].
  destruct (toDecimal 10 2 (QuoteData.totalEstimate data)); [| discriminate].
  destruct (toDecimal 10 2 (QuoteData.notToExceed data)); [| discriminate].
  intros [= <- <-]. repeat split; reflexivity.
Qed.

(** The database a successful [generateQuote] leaves. *)
Lemma generateQuote_inv (env : Env) (now : Z) (uuid : string) (req : Request)
    (db db' : DB) (msg : option string) (quote : ProjectQuote.t) :
  generateQuote env now uuid req db = (QuoteReply msg quote, db') ->
  exists (userId : string) (project : ProjectAssessment.t) (row : ProjectQuote.t)
         (score : Q) (db1 db2 : DB),
    authenticated req = Some userId /\
    prisma.projectAssessment db !! req_param req = Some project /\
    ProjectAssessment.userId project = userId /\
    findFirstActiveQuote (prisma.projectQuote db) (req_param req) = None /\
    match ProjectAssessment.complexityScore project with
    | Some d => score = d
    | None => toDecimal 3 2 (complexityScoreOf project) = Some score
    end /\
    prisma.projectQuote db1 = prisma.projectQuote db /\
    createQuote uuid (req_param req) userId
      (quoteData env project (complexityScoreOf project) now) db1 = (Continue row, db2) /\
    msg = Some "Quote generated successfully"%string /\
    quote = withNumbers row /\
    db' = prisma.mk
            (<[req_param req :=
                 ProjectAssessment.mk (ProjectAssessment.id project)
                   (ProjectAssessment.userId project) (ProjectAssessment.projectType project)
                   (ProjectAssessment.projectScope project) (ProjectAssessment.urgency project)
                   (Some score) quote_generated]> (prisma.projectAssessment db))
            (<[uuid := row]> (prisma.projectQuote db))
            (prisma.auditLog db
             ++ [AuditLog.mk userId "quote_generated" "quote" uuid
                   (Some (JObject [("projectId"%string, JString (req_param req))]))])
            (prisma.revenueCategory db) (prisma.companyScale db)
            (prisma.basePricing db) (prisma.complexityTier db).
Proof.
  rewrite generateQuote_eq.
  destruct (authenticated req) as [userId |]; [| discriminate].
  destruct (prisma.projectAssessment db !! req_param req) as [project |] eqn:Hp;
    [| discriminate].
  destruct (negb (ProjectAssessment.userId project =? userId)%string) eqn:Ho; [discriminate |].
  destruct (bool_decide (is_Some (findFirstActiveQuote (prisma.projectQuote db) (req_param req))))
    eqn:He; [discriminate |].
  apply negb_false_iff, String.eqb_eq in Ho.
  assert (Hnone : findFirstActiveQuote (prisma.projectQuote db) (req_param req) = None).
  { apply bool_decide_eq_false in He.
    destruct (findFirstActiveQuote (prisma.projectQuote db) (req_param req)); [| reflexivity].
    exfalso. apply He. eauto. }
  clear He.
  destruct (match ProjectAssessment.complexityScore project with
            | Some _ => pure tt
            | None => updateComplexityScore (req_param req) (complexityScoreOf project)
            end db) as [[u | r] db1] eqn:Hu.
  2:{ intros H. injection H as -> _. exfalso.
      destruct (ProjectAssessment.complexityScore project); [discriminate |].
      apply updateComplexityScore_Respond in Hu. destruct Hu as [e [=]]. }
  destruct (createQuote uuid (req_param req) userId
              (quoteData env project (complexityScoreOf project) now) db1)
    as [[row | r] db2] eqn:Hc.
  2:{ intros H. injection H as -> _. exfalso.
      apply createQuote_Respond in Hc. destruct Hc as [_ [e [=]]]. }
  destruct (updateProjectStatus (req_param req) quote_generated db2) as [[u' | r] db3] eqn:Hs.
  2:{ intros H. injection H as -> _. exfalso.
      apply updateProjectStatus_Respond in Hs. destruct Hs as [e [=]]. }
  intros H. injection H as <- <- <-.
  pose proof (createQuote_Continue _ _ _ _ _ _ _ Hc) as (_ & -> & Hid & _).
  apply updateProjectStatus_Continue in Hs. destruct Hs as (p2 & Hp2 & ->).
  destruct (ProjectAssessment.complexityScore project) as [d |] eqn:Hsc.
  - injection Hu as _ <-.
    unfold set_projectQuote in Hp2. cbn [prisma.projectAssessment] in Hp2.
    rewrite Hp in Hp2. injection Hp2 as <-.
    exists userId, project, row, d, db, (set_projectQuote db (<[uuid := row]> (prisma.projectQuote db))).
    rewrite Hsc, Hid. repeat split; try reflexivity; assumption.
  - apply updateComplexityScore_Continue in Hu. destruct Hu as (p1 & d & Hp1 & Hd & ->).
    rewrite Hp in Hp1. injection Hp1 as <-.
    unfold set_projectQuote, set_projectAssessment in Hp2. cbn [prisma.projectAssessment] in Hp2.
    rewrite lookup_insert_eq in Hp2. injection Hp2 as <-.
    eexists userId, project, row, d, _, _. rewrite Hsc.
    split; [reflexivity |]. split; [reflexivity |]. split; [exact Ho |].
    split; [exact Hnone |]. split; [exact Hd |].
    split; [| split; [exact Hc |]].
    + reflexivity.
    + split; [reflexivity |]. split; [reflexivity |].
      unfold set_auditLog, set_projectAssessment, set_projectQuote.
      cbn [prisma.projectAssessment prisma.projectQuote prisma.auditLog prisma.revenueCategory
           prisma.companyScale prisma.basePricing prisma.complexityTier
           ProjectAssessment.id ProjectAssessment.userId ProjectAssessment.projectType
           ProjectAssessment.projectScope ProjectAssessment.urgency
           ProjectAssessment.complexityScore].
      rewrite insert_insert_eq, Hid. reflexivity.
Qed.

(** Past its four checks, [generateQuote] answers a quote or a database error. *)
Lemma generateQuote_not_refused (env : Env) (now : Z) (uuid : string) (req : Request)
    (db db' : DB) (reply : Reply) (userId : string) (project : ProjectAssessment.t) :
  authenticated req = Some userId ->
  prisma.projectAssessment db !! req_param req = Some project ->
  ProjectAssessment.userId project = userId ->
  findFirstActiveQuote (prisma.projectQuote db) (req_param req) = None ->
  generateQuote env now uuid req db = (reply, db') ->
  (exists quote : ProjectQuote.t,
     reply = QuoteReply (Some "Quote generated successfully"%string) quote) \/
  (exists e : PrismaError, reply = Thrown e).
Proof.
  intros Ha Hp Ho Hf. rewrite generateQuote_eq, Ha, Hp, Ho, String.eqb_refl, Hf.
  rewrite bool_decide_eq_false_2 by (intros [? ?]; discriminate).
  cbn [negb].
  destruct (match ProjectAssessment.complexityScore project with
            | Some _ => pure tt
            | None => updateComplexityScore (req_param req) (complexityScoreOf project)
            end db) as [[u | r] db1] eqn:Hu.
  2:{ intros H. injection H as <- _. right.
      destruct (ProjectAssessment.complexityScore project); [discriminate |].
      eapply updateComplexityScore_Respond. exact Hu. }
  destruct (createQuote uuid (req_param req) userId
              (quoteData env project (complexityScoreOf project) now) db1)
    as [[row | r] db2] eqn:Hc.
  2:{ intros H. injection H as <- _. right.
      apply createQuote_Respond in Hc. destruct Hc as [_ Hc]. exact Hc. }
  destruct (updateProjectStatus (req_param req) quote_generated db2) as [[u' | r] db3] eqn:Hs.
  2:{ intros H. injection H as <- _. right.
      eapply updateProjectStatus_Respond. exact Hs. }
  intros H. injection H as <- _. left. eauto.
Qed.

End GenerateQuoteRuns.

Section LocalClock.

(** Where the zone has the same offset at the local time arrived at as at
    the start, the calendar of the zone counts as UTC does. *)
Lemma setDate_plus_same_offset (tz : TimeZone) (t n : Z) :
  tz (LocalTime tz t + n * msPerDay)%Z false = tz t true ->
  setDate_plus tz t n = (t + n * msPerDay)%Z.
Proof. unfold setDate_plus, UTC, LocalTime. intros ->. lia. Qed.

Lemma setMinutes_plus_same_offset (tz : TimeZone) (t n : Z) :
  tz (LocalTime tz t + n * 60000)%Z false = tz t true ->
  setMinutes_plus tz t n = (t + n * 60000)%Z.
Proof. unfold setMinutes_plus, UTC, LocalTime. intros ->. lia. Qed.

Lemma toDate_plus_days (t n : Z) :
  toDate (t + n * msPerDay) = (t / msPerDay * msPerDay + n * msPerDay)%Z.
Proof. unfold toDate. rewrite Z.div_add by (unfold msPerDay; lia). lia. Qed.

End LocalClock.

Section GenerateQuoteEffects.

(** X5: what a successful [generateQuote] has written.  One new quote
    under the fresh id, for the project and the caller, pending, not
    accepted, with empty metadata, its validity deadline the day (in UTC) of
    the instant that lies 30 days ahead on the calendar of the server's time
    zone; the project set to quote_generated, its complexity score kept if
    it had one and else set to the estimate rounded to two decimals; one
    audit entry; the pricing tables as they were. *)
Theorem generateQuote_effects (env : Env) (now : Z) (uuid : string) (req : Request)
    (db db' : DB) (msg : option string) (quote : ProjectQuote.t) :
  generateQuote env now uuid req db = (QuoteReply msg quote, db') ->
  exists (userId : string) (project project' : ProjectAssessment.t) (row : ProjectQuote.t),
    authenticated req = Some userId /\
    prisma.projectAssessment db !! req_param req = Some project /\
    prisma.projectQuote db !! uuid = None /\
    quote = withNumbers row /\
    prisma.projectQuote db' = <[uuid := row]> (prisma.projectQuote db) /\
    ProjectQuote.id row = uuid /\
    ProjectQuote.projectId row = req_param req /\
    ProjectQuote.userId row = userId /\
    ProjectQuote.status row = pending /\
    ProjectQuote.termsAccepted row = false /\
    ProjectQuote.acceptedAt row = None /\
    ProjectQuote.metadata row = ∅ /\
    ProjectQuote.validUntil row = toDate (setDate_plus (TZ env) now 30) /\
    prisma.projectAssessment db'
    = <[req_param req := project']> (prisma.projectAssessment db) /\
    ProjectAssessment.status project' = quote_generated /\
    ProjectAssessment.userId project' = userId /\
    ProjectAssessment.projectType project' = ProjectAssessment.projectType project /\
    ProjectAssessment.projectScope project' = ProjectAssessment.projectScope project /\
    ProjectAssessment.urgency project' = ProjectAssessment.urgency project /\
    ProjectAssessment.complexityScore project'
    = match ProjectAssessment.complexityScore project with
      | Some d => Some d
      | None => toDecimal 3 2
                  (calculateComplexity (ProjectAssessment.projectType project)
                     (ProjectAssessment.projectScope project)
                     (default standard (ProjectAssessment.urgency project)))
      end /\
    is_Some (ProjectAssessment.complexityScore project') /\
    prisma.auditLog db'
    = prisma.auditLog db
      ++ [AuditLog.mk userId "quote_generated" "quote" uuid
            (Some (JObject [("projectId"%string, JString (req_param req))]))] /\
    prisma.revenueCategory db' = prisma.revenueCategory db /\
    prisma.companyScale db' = prisma.companyScale db /\
    prisma.basePricing db' = prisma.basePricing db /\
    prisma.complexityTier db' = prisma.complexityTier db.
Proof.
  intros H. apply generateQuote_inv in H.
  destruct H as (userId & project & row & score & db1 & db2
                 & Ha & Hp & Ho & _ & Hsc & Hq1 & Hc & _ & -> & ->).
  pose proof (createQuote_Continue _ _ _ _ _ _ _ Hc)
    as (Hfresh & _ & Hid & Hpid & Hu & _ & _ & _ & _ & _ & _ & Hv & Hst).
  pose proof (createQuote_defaults _ _ _ _ _ _ _ Hc) as (Ht & Hat & Hm & _ & _).
  rewrite Hq1 in Hfresh.
  eexists userId, project, _, row.
  cbn [prisma.projectAssessment prisma.projectQuote prisma.auditLog prisma.revenueCategory
       prisma.companyScale prisma.basePricing prisma.complexityTier].
  repeat match goal with |- _ /\ _ => split end; try reflexivity; try assumption.
  - destruct (ProjectAssessment.complexityScore project) as [d |] eqn:E.
    + cbn [ProjectAssessment.complexityScore]. rewrite Hsc. reflexivity.
    + cbn [ProjectAssessment.complexityScore]. rewrite <- Hsc.
      unfold complexityScoreOf. rewrite E. reflexivity.
  - cbn [ProjectAssessment.complexityScore]. eauto.
Qed.

Lemma toDecimal_3_2_overflow (v : Q) : 9.995 <= v -> toDecimal 3 2 v = None.
Proof.
  intros H. unfold toDecimal.
  assert (L : (1000 <= round_half_away (v * inject_Z (10 ^ 2)))%Z).
  { change 1000%Z with (round_half_away (9.995 * inject_Z (10 ^ 2))).
    apply round_half_away_le.
    change (inject_Z (10 ^ 2)) with 100. lra. }
  replace (Z.abs (round_half_away (v * inject_Z (10 ^ 2))) <? 10 ^ 3)%Z with false;
    [reflexivity |].
  symmetry. apply Z.ltb_ge. change (10 ^ 3)%Z with 1000%Z. lia.
Qed.

(** X6: a project without stored score whose estimated complexity reaches
    the cap of 10 (any estimate from 9.995 on) gets no quote: the score does
    not fit the column [complexity_score], a DECIMAL(3,2), the update of the
    project raises, and [generateQuote] passes the error on and leaves the
    database unchanged. *)
Theorem generateQuote_score_overflow (env : Env) (now : Z) (uuid : string) (req : Request)
    (db : DB) (userId : string) (project : ProjectAssessment.t) :
  authenticated req = Some userId ->
  prisma.projectAssessment db !! req_param req = Some project ->
  ProjectAssessment.userId project = userId ->
  findFirstActiveQuote (prisma.projectQuote db) (req_param req) = None ->
  ProjectAssessment.complexityScore project = None ->
  9.995 <= calculateComplexity (ProjectAssessment.projectType project)
             (ProjectAssessment.projectScope project)
             (default standard (ProjectAssessment.urgency project)) ->
  generateQuote env now uuid req db = (Thrown NumericOverflow, db).
Proof.
  intros Ha Hp Ho Hf Hs Hmax.
  rewrite generateQuote_eq, Ha, Hp, Ho, String.eqb_refl, Hf.
  rewrite bool_decide_eq_false_2 by (intros [? ?]; discriminate).
  cbn [negb]. rewrite Hs. unfold updateComplexityScore. rewrite Hp.
  rewrite toDecimal_3_2_overflow; [reflexivity |].
  unfold complexityScoreOf. rewrite Hs. exact Hmax.
Qed.

(** X7: how long a new quote can be accepted.  The deadline of a quote
    generated at [now] is midnight UTC of the day (the column is a DATE) of
    the instant that lies 30 days ahead on the calendar of the server's time
    zone.  The caller who generated the quote accepts it at any time up to
    the deadline and gets "Quote has expired" after it.  Where the zone has
    the same offset at that local time as it has at [now], the deadline is
    midnight UTC of the day 30 days after the UTC day of [now]: then 30 days
    after [now] is too late, unless [now] is midnight UTC. *)
Theorem generateQuote_then_acceptQuote (env : Env) (now : Z) (uuid : string) (req : Request)
    (db db' : DB) (msg : option string) (quote : ProjectQuote.t) (t : Z) (req' : Request) :
  generateQuote env now uuid req db = (QuoteReply msg quote, db') ->
  authenticated req' = authenticated req ->
  req_param req' = uuid ->
  let deadline := toDate (setDate_plus (TZ env) now 30) in
  ProjectQuote.validUntil quote = deadline /\
  ((t <= deadline)%Z ->
   exists (accepted_ : ProjectQuote.t) (db'' : DB),
     acceptQuote t req' db'
     = (QuoteReply (Some "Quote accepted successfully"%string) accepted_, db'') /\
     ProjectQuote.status accepted_ = accepted /\
     ProjectQuote.acceptedAt accepted_ = Some t /\
     ProjectQuote.totalEstimate accepted_ = ProjectQuote.totalEstimate quote /\
     ProjectQuote.notToExceed accepted_ = ProjectQuote.notToExceed quote) /\
  ((deadline < t)%Z ->
   acceptQuote t req' db' = (Failure 400 "Quote has expired", db')) /\
  (TZ env (LocalTime (TZ env) now + 30 * msPerDay)%Z false = TZ env now true ->
   deadline = (now / msPerDay * msPerDay + 30 * msPerDay)%Z).
Proof.
  intros H Ha' Hr' deadline. apply generateQuote_inv in H.
  destruct H as (userId & project & row & score & db1 & db2
                 & Ha & Hp & Ho & _ & Hsc & Hq1 & Hc & _ & -> & ->).
  pose proof (createQuote_Continue _ _ _ _ _ _ _ Hc)
    as (_ & _ & _ & Hpid & Hu & _ & _ & _ & _ & _ & _ & Hv & Hst).
  assert (Hvalid : ProjectQuote.validUntil row = deadline) by exact Hv.
  split; [exact Hvalid |].
  split; [| split].
  3:{ intros Hz. unfold deadline. rewrite (setDate_plus_same_offset _ _ _ Hz).
      apply toDate_plus_days. }
  all: rewrite acceptQuote_eq, Ha', Ha, Hr';
       cbn [prisma.projectQuote prisma.projectAssessment];
       rewrite lookup_insert_eq, Hu, String.eqb_refl, Hvalid, Hst, Hpid, lookup_insert_eq;
       cbn [negb].
  - intros Ht.
    replace (t >? deadline)%Z with false
      by (symmetry; rewrite Z.gtb_ltb; apply Z.ltb_ge; exact Ht).
    cbv zeta. eexists _, _. split; [reflexivity |].
    cbn [withNumbers ProjectQuote.status ProjectQuote.acceptedAt ProjectQuote.totalEstimate
         ProjectQuote.notToExceed].
    repeat split; reflexivity.
  - intros Ht.
    replace (t >? deadline)%Z with true
      by (symmetry; apply Z.gtb_lt; exact Ht).
    reflexivity.
Qed.

(** Across a change of the clocks the deadline is a day off the count in
    UTC: in [spring_zone], a quote generated on 2026-03-01 at 00:30 UTC is
    valid until 2026-03-30, not 2026-03-31. *)
Example deadline_across_clock_change :
  exists (quote : ProjectQuote.t) (db' : DB),
    generateQuote spring_env 1772325000000 "q1" example_request example_db
    = (QuoteReply (Some "Quote generated successfully"%string) quote, db') /\
    ProjectQuote.validUntil quote = 1774828800000%Z /\
    (1772325000000 / msPerDay * msPerDay + 30 * msPerDay = 1774915200000)%Z.
Proof. eexists _, _. split; [vm_compute; reflexivity | split; reflexivity]. Qed.

End GenerateQuoteEffects.

Section GenerateQuoteColumns.

(** X23: the timeline columns of a new quote agree: the timeline lies
    between 4 and 22 weeks, and the delivery date is the day (in UTC, the
    column is a DATE) of the instant that lies that many weeks ahead on the
    calendar of the server's time zone.  Where the zone has the same offset
    at that local time as it has at [now], this is the UTC day of the call
    plus [estimatedTimelineWeeks] weeks. *)
Theorem generateQuote_delivery_date (env : Env) (now : Z) (uuid : string) (req : Request)
    (db db' : DB) (msg : option string) (quote : ProjectQuote.t) :
  generateQuote env now uuid req db = (QuoteReply msg quote, db') ->
  let days := (ProjectQuote.estimatedTimelineWeeks quote * 7)%Z in
  (4 <= ProjectQuote.estimatedTimelineWeeks quote <= 22)%Z /\
  ProjectQuote.deliveryDate quote = toDate (setDate_plus (TZ env) now days) /\
  (TZ env (LocalTime (TZ env) now + days * msPerDay)%Z false = TZ env now true ->
   ProjectQuote.deliveryDate quote
   = (now / msPerDay * msPerDay
      + ProjectQuote.estimatedTimelineWeeks quote * 7 * msPerDay)%Z).
Proof.
  intros H days. apply generateQuote_inv in H.
  destruct H as (userId & project & row & score & db1 & db2
                 & _ & _ & _ & _ & _ & _ & Hc & _ & -> & _).
  apply createQuote_defaults in Hc. destruct Hc as (_ & _ & _ & Hw & Hd).
  subst days.
  cbn [withNumbers ProjectQuote.estimatedTimelineWeeks ProjectQuote.deliveryDate].
  rewrite Hd, Hw.
  set (data := quoteData env project (complexityScoreOf project) now).
  change (QuoteData.deliveryDate data)
    with (setDate_plus (TZ env) now (Qfloor (QuoteData.estimatedTimelineWeeks data) * 7)).
  split; [| split; [reflexivity |]].
  - unfold data, quoteData. cbn [QuoteData.estimatedTimelineWeeks].
    destruct (ProjectAssessment.projectType project);
      destruct (complexityLevel (complexityScoreOf project)); vm_compute;
      split; discriminate.
  - intros Hz. rewrite (setDate_plus_same_offset _ _ _ Hz). apply toDate_plus_days.
Qed.

(** X24: [generateQuote] is not one transaction.  When the quote cannot be
    stored because its total does not fit the DECIMAL(10,2) column, the call
    passes the database error on and creates no quote and no audit entry,
    but the complexity score it had computed stays written on the project. *)
Theorem generateQuote_partial_write (env : Env) (now : Z) (uuid : string) (req : Request)
    (db : DB) (userId : string) (project : ProjectAssessment.t) (d : Q) :
  authenticated req = Some userId ->
  prisma.projectAssessment db !! req_param req = Some project ->
  ProjectAssessment.userId project = userId ->
  findFirstActiveQuote (prisma.projectQuote db) (req_param req) = None ->
  ProjectAssessment.complexityScore project = None ->
  toDecimal 3 2 (complexityScoreOf project) = Some d ->
  toDecimal 10 2 (QuoteData.totalEstimate
                    (quoteData env project (complexityScoreOf project) now)) = None ->
  exists (e : PrismaError) (project' : ProjectAssessment.t) (db' : DB),
    generateQuote env now uuid req db = (Thrown e, db') /\
    prisma.projectQuote db' = prisma.projectQuote db /\
    prisma.auditLog db' = prisma.auditLog db /\
    prisma.projectAssessment db'
    = <[req_param req := project']> (prisma.projectAssessment db) /\
    ProjectAssessment.complexityScore project' = Some d /\
    ProjectAssessment.status project' = ProjectAssessment.status project.
Proof.
  intros Ha Hp Ho Hf Hs Hd Ht.
  rewrite generateQuote_eq, Ha, Hp, Ho, String.eqb_refl, Hf.
  rewrite bool_decide_eq_false_2 by (intros [? ?]; discriminate).
  cbn [negb]. rewrite Hs. unfold updateComplexityScore. rewrite Hp, Hd.
  match goal with
  | |- context [createQuote ?u ?p ?w ?data ?d1] =>
      destruct (createQuote u p w data d1) as [[row | r] db2] eqn:Hc
  end.
  - exfalso. apply createQuote_Continue in Hc.
    destruct Hc as (_ & _ & _ & _ & _ & _ & _ & _ & C & _). congruence.
  - apply createQuote_Respond in Hc. destruct Hc as [-> [e ->]].
    eexists e, _, _. split; [reflexivity |].
    unfold set_projectAssessment.
    cbn [prisma.projectQuote prisma.auditLog prisma.projectAssessment].
    repeat split; reflexivity.
Qed.

End GenerateQuoteColumns.

Section AuditTrail.

Lemma updateComplexityScore_log (id : string) (score : Q) (db db' : DB) (s : Step unit) :
  updateComplexityScore id score db = (s, db') -> prisma.auditLog db' = prisma.auditLog db.
Proof.
  unfold updateComplexityScore.
  destruct (prisma.projectAssessment db !! id); [| intros [= _ <-]; reflexivity].
  destruct (toDecimal 3 2 score); intros [= _ <-]; reflexivity.
Qed.

Lemma updateProjectStatus_log (id : string) (st : ProjectStatus) (db db' : DB) (s : Step unit) :
  updateProjectStatus id st db = (s, db') -> prisma.auditLog db' = prisma.auditLog db.
Proof.
  unfold updateProjectStatus.
  destruct (prisma.projectAssessment db !! id); intros [= _ <-]; reflexivity.
Qed.

Lemma createQuote_log (uuid projectId userId : string) (data : QuoteData.t) (db db' : DB)
    (s : Step ProjectQuote.t) :
  createQuote uuid projectId userId data db = (s, db') ->
  prisma.auditLog db' = prisma.auditLog db.
Proof.
  destruct s as [row | r]; intros H.
  - apply createQuote_Continue in H. destruct H as (_ & -> & _). reflexivity.
  - apply createQuote_Respond in H. destruct H as [-> _]. reflexivity.
Qed.

(** X25: the audit log only grows, by one entry for each quote answered.
    [generateQuote], [acceptQuote] and [declineQuote] leave the entries that
    were there; a call that answers a quote appends exactly one entry, of
    entity type "quote" under the user id of the caller, and a call that
    answers anything else appends none. *)
Theorem auditLog_append_only (env : Env) (toISOString : Z -> string) (now : Z) (uuid : string)
    (req : Request) (db : DB) :
  let appended (result : Reply * DB) :=
    exists entries : list AuditLog.t,
      prisma.auditLog (snd result) = prisma.auditLog db ++ entries /\
      match fst result with
      | QuoteReply _ _ =>
          exists entry : AuditLog.t,
            entries = [entry] /\
            authenticated req = Some (AuditLog.userId entry) /\
            AuditLog.entityType entry = "quote"%string
      | Failure _ _ | Thrown _ => entries = []
      end in
  appended (generateQuote env now uuid req db) /\
  appended (acceptQuote now req db) /\
  appended (declineQuote toISOString now req db).
Proof.
  cbv zeta.
  assert (Same : forall (r : Reply) (d : DB),
            prisma.auditLog d = prisma.auditLog db ->
            (forall msg quote, r <> QuoteReply msg quote) ->
            exists entries : list AuditLog.t,
              prisma.auditLog (snd (r, d)) = prisma.auditLog db ++ entries /\
              match fst (r, d) with
              | QuoteReply _ _ =>
                  exists entry : AuditLog.t,
                    entries = [entry] /\
                    authenticated req = Some (AuditLog.userId entry) /\
                    AuditLog.entityType entry = "quote"%string
              | Failure _ _ | Thrown _ => entries = []
              end).
  { intros r d E N. exists []. cbn [snd fst]. rewrite E, app_nil_r.
    split; [reflexivity |]. destruct r; [reflexivity | | reflexivity].
    exfalso. eapply N. reflexivity. }
  assert (One : forall (msg : option string) (quote : ProjectQuote.t) (d : DB)
                       (entry : AuditLog.t),
            prisma.auditLog d = prisma.auditLog db ++ [entry] ->
            authenticated req = Some (AuditLog.userId entry) ->
            AuditLog.entityType entry = "quote"%string ->
            exists entries : list AuditLog.t,
              prisma.auditLog (snd (QuoteReply msg quote, d)) = prisma.auditLog db ++ entries /\
              match fst (QuoteReply msg quote, d) with
              | QuoteReply _ _ =>
                  exists entry : AuditLog.t,
                    entries = [entry] /\
                    authenticated req = Some (AuditLog.userId entry) /\
                    AuditLog.entityType entry = "quote"%string
              | Failure _ _ | Thrown _ => entries = []
              end).
  { intros msg quote d entry E A T. exists [entry]. cbn [snd fst]. eauto. }
  split; [| split].
  - rewrite generateQuote_eq.
    destruct (authenticated req) as [userId |]; [| apply Same; [reflexivity | discriminate]].
    destruct (prisma.projectAssessment db !! req_param req) as [project |];
      [| apply Same; [reflexivity | discriminate]].
    destruct (negb (ProjectAssessment.userId project =? userId)%string);
      [apply Same; [reflexivity | discriminate] |].
    destruct (bool_decide (is_Some (findFirstActiveQuote (prisma.projectQuote db)
                                      (req_param req))));
      [apply Same; [reflexivity | discriminate] |].
    destruct (match ProjectAssessment.complexityScore project with
              | Some _ => pure tt
              | None => updateComplexityScore (req_param req) (complexityScoreOf project)
              end db) as [[u | r] db1] eqn:Hu.
    2:{ destruct (ProjectAssessment.complexityScore project); [discriminate |].
        apply Same.
        - eapply updateComplexityScore_log. exact Hu.
        - apply updateComplexityScore_Respond in Hu. destruct Hu as [e ->]. discriminate. }
    assert (L1 : prisma.auditLog db1 = prisma.auditLog db).
    { destruct (ProjectAssessment.complexityScore project).
      - injection Hu as _ <-. reflexivity.
      - eapply updateComplexityScore_log. exact Hu. }
    destruct (createQuote uuid (req_param req) userId
                (quoteData env project (complexityScoreOf project) now) db1)
      as [[row | r] db2] eqn:Hc.
    2:{ apply Same.
        - rewrite (createQuote_log _ _ _ _ _ _ _ Hc). exact L1.
        - apply createQuote_Respond in Hc. destruct Hc as [_ [e ->]]. discriminate. }
    pose proof (createQuote_log _ _ _ _ _ _ _ Hc) as L2.
    destruct (updateProjectStatus (req_param req) quote_generated db2) as [[u' | r] db3] eqn:Hs.
    2:{ apply Same.
        - rewrite (updateProjectStatus_log _ _ _ _ _ Hs), L2. exact L1.
        - apply updateProjectStatus_Respond in Hs. destruct Hs as [e ->]. discriminate. }
    pose proof (updateProjectStatus_log _ _ _ _ _ Hs) as L3.
    eapply One.
    + unfold set_auditLog. cbn [prisma.auditLog]. rewrite L3, L2, L1. reflexivity.
    + reflexivity.
    + reflexivity.
  - rewrite acceptQuote_eq.
    destruct (authenticated req) as [userId |]; [| apply Same; [reflexivity | discriminate]].
    destruct (prisma.projectQuote db !! req_param req) as [q |] eqn:Hq;
      [| apply Same; [reflexivity | discriminate]].
    destruct (negb (ProjectQuote.userId q =? userId)%string);
      [apply Same; [reflexivity | discriminate] |].
    destruct (now >? ProjectQuote.validUntil q)%Z; [apply Same; [reflexivity | discriminate] |].
    destruct (match ProjectQuote.status q with pending | sent => false | _ => true end);
      [apply Same; [reflexivity | discriminate] |].
    cbv zeta.
    destruct (prisma.projectAssessment db !! ProjectQuote.projectId q) as [p |];
      [| apply Same; [reflexivity | discriminate]].
    eapply One; reflexivity.
  - rewrite declineQuote_eq.
    destruct (authenticated req) as [userId |]; [| apply Same; [reflexivity | discriminate]].
    destruct (prisma.projectQuote db !! req_param req) as [q |] eqn:Hq;
      [| apply Same; [reflexivity | discriminate]].
    destruct (negb (ProjectQuote.userId q =? userId)%string);
      [apply Same; [reflexivity | discriminate] |].
    cbv zeta.
    eapply One; reflexivity.
Qed.

End AuditTrail.

(* ===================================================================== *)
(** ** The lifecycle and the one-active-quote invariant                   *)
(* ===================================================================== *)

Section LifecycleInvariant.

(** Replacing a quote by one of the same project that is active only if the
    old one was keeps the invariant. *)
Lemma at_most_one_active_update (quotes : gmap string ProjectQuote.t) (k : string)
    (q q' : ProjectQuote.t) :
  at_most_one_active quotes ->
  quotes !! k = Some q ->
  ProjectQuote.projectId q' = ProjectQuote.projectId q ->
  (isActive (ProjectQuote.status q') = true -> isActive (ProjectQuote.status q) = true) ->
  at_most_one_active (<[k := q']> quotes).
Proof.
  intros Inv Hk Hp Hact i j qi qj Hi Hj Hpid Ai Aj.
  destruct (decide (i = k)) as [-> | Ni]; destruct (decide (j = k)) as [-> | Nj].
  - reflexivity.
  - rewrite lookup_insert_eq in Hi. injection Hi as <-.
    rewrite lookup_insert_ne in Hj by congruence.
    apply (Inv k j q qj Hk Hj); [congruence | auto | exact Aj].
  - rewrite lookup_insert_eq in Hj. injection Hj as <-.
    rewrite lookup_insert_ne in Hi by congruence.
    apply (Inv i k qi q Hi Hk); [congruence | exact Ai | auto].
  - rewrite lookup_insert_ne in Hi, Hj by congruence.
    exact (Inv i j qi qj Hi Hj Hpid Ai Aj).
Qed.

(** X8: [acceptQuote] and [declineQuote] keep the invariant that a project
    has at most one quote that is pending, sent or accepted. *)
Theorem lifecycle_keeps_one_active (toISOString : Z -> string) (now : Z) (req : Request)
    (db : DB) :
  at_most_one_active (prisma.projectQuote db) ->
  at_most_one_active (prisma.projectQuote (snd (acceptQuote now req db))) /\
  at_most_one_active (prisma.projectQuote (snd (declineQuote toISOString now req db))).
Proof.
  intros Inv. split.
  - rewrite acceptQuote_eq.
    destruct (authenticated req) as [userId |]; [| exact Inv].
    destruct (prisma.projectQuote db !! req_param req) as [q |] eqn:Hq; [| exact Inv].
    destruct (negb (ProjectQuote.userId q =? userId)%string); [exact Inv |].
    destruct (now >? ProjectQuote.validUntil q)%Z; [exact Inv |].
    destruct (match ProjectQuote.status q with pending | sent => false | _ => true end)
      eqn:Hs; [exact Inv |].
    cbv zeta.
    destruct (prisma.projectAssessment db !! ProjectQuote.projectId q) as [p |];
      unfold set_projectQuote; cbn [snd prisma.projectQuote];
      (apply (at_most_one_active_update _ _ q); [exact Inv | exact Hq | reflexivity |]);
      intros _; destruct (ProjectQuote.status q); try discriminate; reflexivity.
  - rewrite declineQuote_eq.
    destruct (authenticated req) as [userId |]; [| exact Inv].
    destruct (prisma.projectQuote db !! req_param req) as [q |] eqn:Hq; [| exact Inv].
    destruct (negb (ProjectQuote.userId q =? userId)%string); [exact Inv |].
    cbv zeta. cbn [snd prisma.projectQuote].
    apply (at_most_one_active_update _ _ q); [exact Inv | exact Hq | reflexivity |].
    cbn [ProjectQuote.status isActive]. discriminate.
Qed.

(** X9: declining frees the project for a new quote.  When the invariant
    holds and the active quote of a project is declined, the project has no
    active quote left, and [generateQuote], called for it by the owner of
    the project, is not refused: it answers a quote, or passes on a database
    error. *)
Theorem declineQuote_then_generateQuote (toISOString : Z -> string) (now : Z) (req : Request)
    (db db' : DB) (msg : option string) (declined_ : ProjectQuote.t) (quote : ProjectQuote.t) :
  at_most_one_active (prisma.projectQuote db) ->
  prisma.projectQuote db !! req_param req = Some quote ->
  isActive (ProjectQuote.status quote) = true ->
  declineQuote toISOString now req db = (QuoteReply msg declined_, db') ->
  findFirstActiveQuote (prisma.projectQuote db') (ProjectQuote.projectId quote) = None /\
  forall (env : Env) (now' : Z) (uuid : string) (req' : Request) (userId : string)
         (project : ProjectAssessment.t),
    req_param req' = ProjectQuote.projectId quote ->
    authenticated req' = Some userId ->
    prisma.projectAssessment db' !! req_param req' = Some project ->
    ProjectAssessment.userId project = userId ->
    (exists generated : ProjectQuote.t,
       fst (generateQuote env now' uuid req' db')
       = QuoteReply (Some "Quote generated successfully"%string) generated) \/
    (exists e : PrismaError, fst (generateQuote env now' uuid req' db') = Thrown e).
Proof.
  intros Inv Hq Hact H. rewrite declineQuote_eq, Hq in H.
  destruct (authenticated req) as [u |]; [| discriminate].
  destruct (negb (ProjectQuote.userId quote =? u)%string); [discriminate |].
  cbv zeta in H. injection H as _ _ <-. cbn [prisma.projectQuote prisma.projectAssessment].
  match goal with |- ?P /\ _ => assert (Hnone : P) end.
  { apply findFirstActiveQuote_None. intros k q Hk Hp.
    destruct (decide (k = req_param req)) as [-> | Nk].
    - rewrite lookup_insert_eq in Hk. injection Hk as <-. reflexivity.
    - rewrite lookup_insert_ne in Hk by congruence.
      destruct (isActive (ProjectQuote.status q)) eqn:Aq; [exfalso | reflexivity].
      apply Nk. apply (Inv k (req_param req) q quote Hk Hq Hp Aq Hact). }
  split; [exact Hnone |].
  intros env now' uuid req' userId project Hr Ha Hp Ho.
  destruct (generateQuote env now' uuid req' _) as [reply db''] eqn:G.
  cbn [fst].
  eapply generateQuote_not_refused; [exact Ha | | exact Ho | | exact G].
  - exact Hp.
  - rewrite Hr. exact Hnone.
Qed.

(** X10: an accepted quote can be declined by its owner, and the decline
    takes nothing else back: the quote is stored as declined with
    [termsAccepted] still true and [acceptedAt] still the time of the
    acceptance, and the project stays in status quote_accepted. *)
Theorem acceptQuote_then_declineQuote (toISOString : Z -> string) (now now' : Z)
    (req req' : Request) (db db' : DB) (msg : option string) (quote : ProjectQuote.t) :
  acceptQuote now req db = (QuoteReply msg quote, db') ->
  authenticated req' = authenticated req ->
  req_param req' = req_param req ->
  exists (declined_ : ProjectQuote.t) (project : ProjectAssessment.t) (db'' : DB),
    declineQuote toISOString now' req' db'
    = (QuoteReply (Some "Quote declined"%string) declined_, db'') /\
    prisma.projectQuote db'' !! req_param req = Some declined_ /\
    ProjectQuote.status declined_ = declined /\
    ProjectQuote.termsAccepted declined_ = true /\
    ProjectQuote.acceptedAt declined_ = Some now /\
    prisma.projectAssessment db'' !! ProjectQuote.projectId declined_ = Some project /\
    ProjectAssessment.status project = quote_accepted.
Proof.
  intros H Ha' Hr'. rewrite acceptQuote_eq in H.
  destruct (authenticated req) as [userId |] eqn:Ha; [| discriminate].
  destruct (prisma.projectQuote db !! req_param req) as [q |] eqn:Hq; [| discriminate].
  destruct (negb (ProjectQuote.userId q =? userId)%string) eqn:Ho; [discriminate |].
  destruct (now >? ProjectQuote.validUntil q)%Z; [discriminate |].
  destruct (match ProjectQuote.status q with pending | sent => false | _ => true end);
    [discriminate |].
  cbv zeta in H.
  destruct (prisma.projectAssessment db !! ProjectQuote.projectId q) as [p |]; [| discriminate].
  injection H as _ _ <-.
  rewrite declineQuote_eq, Ha', Hr'. cbn [prisma.projectQuote].
  rewrite lookup_insert_eq. cbn [ProjectQuote.userId]. rewrite Ho. cbv zeta.
  eexists _, _, _. split; [reflexivity |].
  cbn [prisma.projectQuote prisma.projectAssessment ProjectQuote.status
       ProjectQuote.termsAccepted ProjectQuote.acceptedAt ProjectQuote.projectId].
  split; [apply lookup_insert_eq |].
  split; [reflexivity |]. split; [reflexivity |]. split; [reflexivity |].
  split; [apply lookup_insert_eq | reflexivity].
Qed.

(** X11: only the owner.  [generateQuote] for the project of someone else,
    and [acceptQuote] and [declineQuote] for the quote of someone else,
    answer 401 (no user id on the request, or an empty one) or 403, and
    leave the database unchanged. *)
Theorem quote_owner_only (env : Env) (toISOString : Z -> string) (now : Z) (uuid : string)
    (req : Request) (db : DB) :
  (forall project : ProjectAssessment.t,
     prisma.projectAssessment db !! req_param req = Some project ->
     authenticated req <> Some (ProjectAssessment.userId project) ->
     generateQuote env now uuid req db
     = (match authenticated req with
        | Some _ => Failure 403 "Access denied"
        | None => Failure 401 "Unauthorized"
        end, db)) /\
  (forall quote : ProjectQuote.t,
     prisma.projectQuote db !! req_param req = Some quote ->
     authenticated req <> Some (ProjectQuote.userId quote) ->
     acceptQuote now req db
     = (match authenticated req with
        | Some _ => Failure 403 "Access denied"
        | None => Failure 401 "Unauthorized"
        end, db) /\
     declineQuote toISOString now req db
     = (match authenticated req with
        | Some _ => Failure 403 "Access denied"
        | None => Failure 401 "Unauthorized"
        end, db)).
Proof.
  split.
  - intros project Hp Hn. rewrite generateQuote_eq, Hp.
    destruct (authenticated req) as [u |]; [| reflexivity].
    replace (negb (ProjectAssessment.userId project =? u)%string) with true; [reflexivity |].
    symmetry. apply negb_true_iff, String.eqb_neq. congruence.
  - intros quote Hq Hn. rewrite acceptQuote_eq, declineQuote_eq, Hq.
    destruct (authenticated req) as [u |]; [| split; reflexivity].
    replace (negb (ProjectQuote.userId quote =? u)%string) with true; [split; reflexivity |].
    symmetry. apply negb_true_iff, String.eqb_neq. congruence.
Qed.

End LifecycleInvariant.

(* ===================================================================== *)
(** ** Cents and binary64 numbers                                         *)
(* ===================================================================== *)

Section Cents.

(** One rounding moves a number by at most 2^-53 of its size. *)
Lemma rnd_abs_err (q b : Q) : - b <= q -> q <= b ->
  rnd q - q <= b * (1 # 9007199254740992) /\ q - rnd q <= b * (1 # 9007199254740992).
Proof.
  intros L U. destruct (Qlt_le_dec q 0) as [N | P].
  - pose proof (rnd_rel_err (- q)) as [A B]; [lra |].
    rewrite rnd_opp in A, B. split; lra.
  - pose proof (rnd_rel_err q P) as [A B]. split; lra.
Qed.

Lemma round_half_away_near (y : Q) (c : Z) :
  inject_Z c - (1 # 2) < y -> y < inject_Z c + (1 # 2) -> round_half_away y = c.
Proof.
  intros L U. unfold round_half_away. destruct (Qle_bool 0 y).
  - pose proof (Qfloor_bounds (y + (1 # 2))) as [A B].
    assert (C1 : (Qfloor (y + (1 # 2)) < c + 1)%Z).
    { rewrite Zlt_Qlt, inject_Z_plus. change (inject_Z 1) with 1. lra. }
    assert (C2 : (c < Qfloor (y + (1 # 2)) + 1)%Z).
    { rewrite Zlt_Qlt, inject_Z_plus. change (inject_Z 1) with 1. lra. }
    lia.
  - pose proof (Qle_ceiling (y - (1 # 2))) as A.
    pose proof (Qceiling_lt (y - (1 # 2))) as B.
    rewrite inject_Z_sub in B. change (inject_Z 1) with 1 in B.
    assert (C1 : (Qceiling (y - (1 # 2)) < c + 1)%Z).
    { rewrite Zlt_Qlt, inject_Z_plus. change (inject_Z 1) with 1. lra. }
    assert (C2 : (c - 1 < Qceiling (y - (1 # 2)))%Z).
    { rewrite Zlt_Qlt, inject_Z_sub. change (inject_Z 1) with 1. lra. }
    lia.
Qed.

Lemma round_near (y : Q) (c : Z) :
  inject_Z c - (1 # 2) < y -> y < inject_Z c + (1 # 2) -> Math.round y = inject_Z c.
Proof.
  intros L U. unfold Math.round. f_equal.
  pose proof (Qfloor_bounds (y + (1 # 2))) as [A B].
  assert (C1 : (Qfloor (y + (1 # 2)) < c + 1)%Z).
  { rewrite Zlt_Qlt, inject_Z_plus. change (inject_Z 1) with 1. lra. }
  assert (C2 : (c < Qfloor (y + (1 # 2)) + 1)%Z).
  { rewrite Zlt_Qlt, inject_Z_plus. change (inject_Z 1) with 1. lra. }
  lia.
Qed.

(** A number of cents below 10^10, read as a binary64 number and multiplied
    by 100, is within a millionth of the number of cents. *)
Lemma cents_times_100 (c : Z) (d : Q) :
  (Z.abs c < 10 ^ 10)%Z -> d == inject_Z c / 100 ->
  rnd d * 100 - inject_Z c <= 1 # 100000 /\ inject_Z c - rnd d * 100 <= 1 # 100000.
Proof.
  intros B E.
  assert (B1 : (- 10 ^ 10 < c)%Z) by lia. assert (B2 : (c < 10 ^ 10)%Z) by lia.
  rewrite Zlt_Qlt in B1, B2.
  change (inject_Z (- 10 ^ 10)) with (- 10000000000) in B1.
  change (inject_Z (10 ^ 10)) with 10000000000 in B2.
  assert (E' : d * 100 == inject_Z c) by (rewrite E; field).
  pose proof (rnd_abs_err d 100000000) as [A1 A2]; [lra | lra |].
  split; lra.
Qed.

(** A DECIMAL(10,2) value survives the conversion to a number. *)
Lemma parseFloat_toDecimal (x d : Q) :
  toDecimal 10 2 x = Some d -> toDecimal 10 2 (parseFloat d) = Some d.
Proof.
  unfold toDecimal at 1.
  set (c := round_half_away (x * inject_Z (10 ^ 2))).
  destruct (Z.ltb_spec (Z.abs c) (10 ^ 10)) as [B |]; [| discriminate].
  intros [= <-].
  assert (E : Qred (inject_Z c / inject_Z (10 ^ 2)) == inject_Z c / 100)
    by (rewrite Qred_correct; reflexivity).
  pose proof (cents_times_100 c _ B E) as [A1 A2].
  unfold toDecimal, parseFloat, lit.
  change (inject_Z (10 ^ 2)) with 100 in *.
  rewrite (round_half_away_near _ c) by lra.
  replace (Z.abs c <? 10 ^ 10)%Z with true by (symmetry; apply Z.ltb_lt; exact B).
  reflexivity.
Qed.

(** [Math.round(x * 100) / 100] leaves a number of cents as it is. *)
Lemma round2_cents (c : Z) (d : Q) :
  (Z.abs c < 10 ^ 10)%Z -> d == inject_Z c / 100 -> round2 (Number d) = Number d.
Proof.
  intros B E. pose proof (cents_times_100 c d B E) as [A1 A2].
  assert (B1 : (- 10 ^ 10 < c)%Z) by lia. assert (B2 : (c < 10 ^ 10)%Z) by lia.
  rewrite Zlt_Qlt in B1, B2.
  change (inject_Z (- 10 ^ 10)) with (- 10000000000) in B1.
  change (inject_Z (10 ^ 10)) with 10000000000 in B2.
  unfold round2, Number, lit, fmul, fdiv.
  pose proof (rnd_abs_err (rnd d * 100) 10000000001) as [R1 R2]; [lra | lra |].
  rewrite (round_near _ c) by lra.
  apply rnd_comp. rewrite E. reflexivity.
Qed.

(** The product by 100 alone is not exact, [0.07 * 100] is not 7, and agrees
    with the reference implementation. *)
Example round2_inexact_product :
  ~ fmul (lit 0.07) 100 == 7 /\
  to_spec (fmul (lit 0.07) 100) = SFmul 53 1024 (to_spec (lit 0.07)) (to_spec 100) /\
  round2 (lit 0.07) = lit 0.07.
Proof.
  split; [| split; vm_compute; reflexivity].
  intros C. apply Qeq_bool_iff in C. vm_compute in C. discriminate.
Qed.

End Cents.

Section ReplyAmounts.

(** X12: the amounts of the answer are those of the stored row.
    [generateQuote] answers the five amounts as numbers ([parseFloat]); each
    of them, rounded to two decimals, is the DECIMAL(10,2) value of the row
    stored under the new id, and the payment structure, the deadline and
    the status of the answer are those of the row. *)
Theorem generateQuote_reply_amounts (env : Env) (now : Z) (uuid : string) (req : Request)
    (db db' : DB) (msg : option string) (quote : ProjectQuote.t) :
  generateQuote env now uuid req db = (QuoteReply msg quote, db') ->
  exists row : ProjectQuote.t,
    prisma.projectQuote db' !! uuid = Some row /\
    toDecimal 10 2 (ProjectQuote.baseRate quote) = Some (ProjectQuote.baseRate row) /\
    toDecimal 10 2 (ProjectQuote.complexityAdjustment quote)
    = Some (ProjectQuote.complexityAdjustment row) /\
    toDecimal 10 2 (ProjectQuote.urgencyAdjustment quote)
    = Some (ProjectQuote.urgencyAdjustment row) /\
    toDecimal 10 2 (ProjectQuote.totalEstimate quote) = Some (ProjectQuote.totalEstimate row) /\
    toDecimal 10 2 (ProjectQuote.notToExceed quote) = Some (ProjectQuote.notToExceed row) /\
    ProjectQuote.paymentStructure quote = ProjectQuote.paymentStructure row /\
    ProjectQuote.validUntil quote = ProjectQuote.validUntil row /\
    ProjectQuote.status quote = ProjectQuote.status row.
Proof.
  intros H. apply generateQuote_inv in H.
  destruct H as (userId & project & row & score & db1 & db2
                 & _ & _ & _ & _ & _ & _ & Hc & _ & -> & ->).
  apply createQuote_Continue in Hc.
  destruct Hc as (_ & _ & _ & _ & _ & H1 & H2 & H3 & H4 & H5 & _).
  exists row. cbn [prisma.projectQuote]. split; [apply lookup_insert_eq |].
  cbn [withNumbers ProjectQuote.baseRate ProjectQuote.complexityAdjustment
       ProjectQuote.urgencyAdjustment ProjectQuote.totalEstimate ProjectQuote.notToExceed
       ProjectQuote.paymentStructure ProjectQuote.validUntil ProjectQuote.status].
  repeat split; try reflexivity; eapply parseFloat_toDecimal; eassumption.
Qed.

End ReplyAmounts.

Section NeutralPricing.

(** X13: at a scale whose multiplier is 1, and for a rating that fits the
    INTEGER column of the tiers and has a tier whose multiplier is 1 or no
    tier, [calculatePricing] answers the base price itself, with both
    adjustments 0: rounding to cents does not move a DECIMAL(10,2) price. *)
Theorem calculatePricing_neutral (db : DB)
    (bundleId revenueCategory companyRevenueScale : string) (complexityRating : Z)
    (c : RevenueCategory.t) (s : CompanyScale.t) (p : BasePricing.t) (x : Q) :
  findFirst (categoryWhere revenueCategory) (prisma.revenueCategory db) = Some c ->
  findFirst (scaleWhere companyRevenueScale) (prisma.companyScale db) = Some s ->
  findFirst (pricingWhere bundleId (RevenueCategory.id c) (CompanyScale.id s))
    (prisma.basePricing db) = Some p ->
  toDecimal 10 2 x = Some (BasePricing.basePrice p) ->
  CompanyScale.multiplier s == 1 ->
  isInt4 complexityRating = true ->
  (forall t : ComplexityTier.t,
     findFirst (tierWhere complexityRating) (prisma.complexityTier db) = Some t ->
     ComplexityTier.adjustmentMultiplier t == 1) ->
  exists res : PricingCalculation.t,
    calculatePricing db bundleId revenueCategory companyRevenueScale complexityRating = Ok res /\
    PricingCalculation.finalPrice res = Number (BasePricing.basePrice p) /\
    Breakdown.scaleAdjustment (PricingCalculation.breakdown res) = 0 /\
    Breakdown.complexityAdjustment (PricingCalculation.breakdown res) = 0.
Proof.
  intros Hc Hs Hp Hd Hm Hr Ht. unfold calculatePricing. rewrite Hc, Hs, Hp, Hr.
  change (negb true) with false. cbv iota zeta.
  eexists. split; [reflexivity |]. unfold pricingOf.
  cbn [PricingCalculation.finalPrice PricingCalculation.breakdown Breakdown.scaleAdjustment
       Breakdown.complexityAdjustment].
  rewrite (Number_comp _ _ Hm).
  assert (Z1 : fsub (Number 1) 1 == 0) by qdecide.
  assert (Z2 : fsub match findFirst (tierWhere complexityRating) (prisma.complexityTier db) with
                    | Some tier => Number (ComplexityTier.adjustmentMultiplier tier)
                    | None => lit 1.0
                    end 1 == 0).
  { destruct (findFirst (tierWhere complexityRating) (prisma.complexityTier db)) as [t |].
    - rewrite (Number_comp _ _ (Ht t eq_refl)). exact Z1.
    - qdecide. }
  assert (R0 : round2 0 = 0) by (vm_compute; reflexivity).
  rewrite (fmul_zero_r _ _ Z1), (fmul_zero_r _ _ Z2), R0.
  split; [| split; reflexivity].
  assert (D : is_double (Number (BasePricing.basePrice p))) by apply is_double_lit.
  rewrite (round2_comp _ (Number (BasePricing.basePrice p))).
  - unfold toDecimal in Hd.
    set (k := round_half_away (x * inject_Z (10 ^ 2))) in Hd.
    destruct (Z.ltb_spec (Z.abs k) (10 ^ 10)) as [B |]; [| discriminate].
    injection Hd as Hd. apply (round2_cents k); [exact B |].
    rewrite <- Hd, Qred_correct. reflexivity.
  - rewrite (fadd_zero_r _ 0) by (try apply is_double_fadd; reflexivity).
    apply fadd_zero_r; [exact D | reflexivity].
Qed.

End NeutralPricing.

(* ===================================================================== *)
(** ** Monotonicity of the estimates                                      *)
(* ===================================================================== *)

Section Monotone.

Lemma fadd_le (x y y' : Q) : y <= y' -> fadd x y <= fadd x y'.
Proof. intros H. apply rnd_le. lra. Qed.

Lemma fsub_le (x x' y : Q) : x <= x' -> fsub x y <= fsub x' y.
Proof. intros H. apply rnd_le. lra. Qed.

Lemma fmul_le (x y y' : Q) : 0 <= x -> y <= y' -> fmul x y <= fmul x y'.
Proof. intros P H. apply rnd_le. nra. Qed.

Lemma round2_le (x y : Q) : x <= y -> round2 x <= round2 y.
Proof.
  intros H. unfold round2, fdiv, Math.round, fmul. apply rnd_le.
  assert (F : (Qfloor (rnd (x * 100) + (1 # 2)) <= Qfloor (rnd (y * 100) + (1 # 2)))%Z).
  { apply Qfloor_resp_le. assert (R : rnd (x * 100) <= rnd (y * 100)) by (apply rnd_le; lra).
    lra. }
  rewrite Zle_Qle in F.
  apply Qle_shift_div_l; [lra |]. rewrite Qdiv_cancel by lra. exact F.
Qed.

Lemma ceil_le (x y : Q) : x <= y -> Math.ceil x <= Math.ceil y.
Proof. intros H. unfold Math.ceil. rewrite <- Zle_Qle. apply Qceiling_resp_le, H. Qed.

(** A multiplier that is not negative takes off at most the whole amount. *)
Lemma surcharge_ge_opp (x m : Q) : is_double x -> 0 <= x -> 0 <= m ->
  - x <= fmul x (fsub m 1).
Proof.
  intros D P M.
  assert (A : - 1 <= fsub m 1).
  { assert (E : - 1 <= rnd (- 1)) by qdecide.
    assert (R : rnd (- 1) <= rnd (m - 1)) by (apply rnd_le; lra).
    unfold fsub. lra. }
  assert (R : rnd (- x) <= rnd (x * fsub m 1)) by (apply rnd_le; nra).
  pose proof (rnd_opp x) as O. unfold is_double in D. unfold fmul. lra.
Qed.

Lemma complexityLevel_le (s1 s2 : Q) : s1 <= s2 ->
  COMPLEXITY_MULTIPLIERS (complexityLevel s1) <= COMPLEXITY_MULTIPLIERS (complexityLevel s2).
Proof.
  intros H. unfold complexityLevel, ltb.
  destruct (Qle_bool 3 s1) eqn:A1; destruct (Qle_bool 6 s1) eqn:B1;
    destruct (Qle_bool 8 s1) eqn:C1; destruct (Qle_bool 3 s2) eqn:A2;
    destruct (Qle_bool 6 s2) eqn:B2; destruct (Qle_bool 8 s2) eqn:C2;
    cbn [negb]; try qdecide; exfalso;
    repeat match goal with
           | E : Qle_bool _ _ = true |- _ => apply Qle_bool_iff in E
           | E : Qle_bool ?a ?b = false |- _ =>
               assert (~ a <= b) by (intros C; apply Qle_bool_iff in C; congruence); clear E
           end; lra.
Qed.

End Monotone.

Section CeilingOfTotal.





(** The hypothesis on the base rates is needed: with BASE_RATE_CREATIVE=-1000
    the total estimate of a creative project is -1000 and its ceiling -1150. *)
Lemma negative_rate_ceiling_below_total :
  exists (quote : ProjectQuote.t) (db' : DB),
    generateQuote env_negative 0 "q1" example_request creative_db
    = (QuoteReply (Some "Quote generated successfully"%string) quote, db') /\
    ProjectQuote.notToExceed quote < ProjectQuote.totalEstimate quote.
Proof.
  eexists _, _. split; [vm_compute; reflexivity |]. vm_compute. reflexivity.
Qed.

End CeilingOfTotal.

Section QuoteMonotone.

Variable env : Env.
Hypothesis rates_nonneg : forall t, 0 <= BASE_RATES env t.

(** X14: under base rates that are not negative, a higher complexity score
    never gives a lower total estimate, a lower not-to-exceed ceiling or a
    shorter timeline. *)
Theorem quoteData_monotone (project : ProjectAssessment.t) (score score' : Q) (now : Z) :
  score <= score' ->
  QuoteData.totalEstimate (quoteData env project score now)
  <= QuoteData.totalEstimate (quoteData env project score' now) /\
  QuoteData.notToExceed (quoteData env project score now)
  <= QuoteData.notToExceed (quoteData env project score' now) /\
  QuoteData.estimatedTimelineWeeks (quoteData env project score now)
  <= QuoteData.estimatedTimelineWeeks (quoteData env project score' now).
Proof.
  intros H. pose proof (complexityLevel_le score score' H) as M.
  pose proof (baseRate_nonneg env (ProjectAssessment.projectType project) rates_nonneg) as B.
  assert (T : QuoteData.totalEstimate (quoteData env project score now)
              <= QuoteData.totalEstimate (quoteData env project score' now)).
  { unfold quoteData. cbn [QuoteData.totalEstimate].
    apply rnd_le.
    assert (A : fmul (js_or (BASE_RATES env (ProjectAssessment.projectType project)) 5000)
                  (fsub (COMPLEXITY_MULTIPLIERS (complexityLevel score)) 1)
                <= fmul (js_or (BASE_RATES env (ProjectAssessment.projectType project)) 5000)
                     (fsub (COMPLEXITY_MULTIPLIERS (complexityLevel score')) 1)).
    { apply fmul_le; [exact B | apply fsub_le, M]. }
    pose proof (fadd_le (js_or (BASE_RATES env (ProjectAssessment.projectType project)) 5000)
                  _ _ A) as S.
    lra. }
  split; [exact T |]. split.
  - change (QuoteData.notToExceed (quoteData env project score now))
      with (Math.ceil (fmul (QuoteData.totalEstimate (quoteData env project score now))
                         (lit 1.15))).
    change (QuoteData.notToExceed (quoteData env project score' now))
      with (Math.ceil (fmul (QuoteData.totalEstimate (quoteData env project score' now))
                         (lit 1.15))).
    apply ceil_le, rnd_le.
    assert (P : 0 <= lit 1.15) by qdecide.
    destruct (totalEstimate_nonneg env project score now rates_nonneg) as [N _].
    nra.
  - unfold quoteData. cbn [QuoteData.estimatedTimelineWeeks].
    apply ceil_le, fmul_le; [| exact M].
    destruct (ProjectAssessment.projectType project); qdecide.
Qed.

End QuoteMonotone.

Section PricingMonotone.

(** X15: for a base price and multipliers that are not negative, the final
    price that [calculatePricing] computes is not negative, and a higher
    complexity multiplier never gives a lower final price. *)
Theorem pricingOf_monotone (base scaleMultiplier c c' : Q) :
  is_double base -> 0 <= base -> 0 <= scaleMultiplier -> 0 <= c -> c <= c' ->
  0 <= PricingCalculation.finalPrice (pricingOf base scaleMultiplier c) /\
  PricingCalculation.finalPrice (pricingOf base scaleMultiplier c)
  <= PricingCalculation.finalPrice (pricingOf base scaleMultiplier c').
Proof.
  intros D P S C H. unfold pricingOf. cbn [PricingCalculation.finalPrice].
  set (scaled := fadd base (fmul base (fsub scaleMultiplier 1))).
  assert (Ps : 0 <= scaled).
  { unfold scaled. pose proof (surcharge_ge_opp base scaleMultiplier D P S) as A.
    apply rnd_nonneg. lra. }
  assert (Ds : is_double scaled) by apply is_double_fadd.
  split.
  - assert (Z : round2 0 = 0) by (vm_compute; reflexivity).
    rewrite <- Z at 1. apply round2_le, rnd_nonneg.
    pose proof (surcharge_ge_opp scaled c Ds Ps C). lra.
  - apply round2_le, fadd_le, fmul_le; [exact Ps | apply fsub_le, H].
Qed.

End PricingMonotone.

Section ComplexityMonotone.

Lemma min_mono_l (x x' c : Q) : x <= x' -> Math.min x c <= Math.min x' c.
Proof.
  intros H. apply min_glb; [| apply min_le_r].
  apply Qle_trans with x; [apply min_le_l | exact H].
Qed.

Lemma fadd_mono (x x' y y' : Q) : x <= x' -> y <= y' -> fadd x y <= fadd x' y'.
Proof. intros Hx Hy. apply rnd_le. lra. Qed.

Lemma lengthOf_le {A B} (l : list A) (l' : list B) :
  (length l <= length l')%nat -> lengthOf l <= lengthOf l'.
Proof. intros H. unfold lengthOf. rewrite <- Zle_Qle. lia. Qed.

(** X16: more scope never lowers the score.  For the same project type,
    urgency and timeline, a scope with at least as many features and at
    least as many integrations of the complex kinds gets at least the same
    complexity score. *)
Theorem calculateComplexity_monotone (t : ProjectType) (u : Urgency)
    (scope scope' : option Scope) :
  (length (default [] (scope ≫= features)) <= length (default [] (scope' ≫= features)))%nat ->
  (length (List.filter isComplexIntegration (default [] (scope ≫= integrations)))
   <= length (List.filter isComplexIntegration (default [] (scope' ≫= integrations))))%nat ->
  scope ≫= timeline = scope' ≫= timeline ->
  calculateComplexity t scope u <= calculateComplexity t scope' u.
Proof.
  intros Hf Hi Ht. unfold calculateComplexity. rewrite Ht.
  set (tl := match scope' ≫= timeline with
             | Some s => if (s =? "")%string then "standard"%string else s
             | None => "standard"%string
             end).
  apply min_mono_l.
  assert (P05 : 0 <= lit 0.5) by qdecide. assert (P08 : 0 <= lit 0.8) by qdecide.
  assert (S2 : fadd (fadd 0 (Math.min (fmul (lengthOf (default [] (scope ≫= features)))
                                         (lit 0.5)) (lit 3.0)))
                 (Math.min (fmul (lengthOf (List.filter isComplexIntegration
                                              (default [] (scope ≫= integrations))))
                              (lit 0.8)) (lit 3.0))
               <= fadd (fadd 0 (Math.min (fmul (lengthOf (default [] (scope' ≫= features)))
                                            (lit 0.5)) (lit 3.0)))
                    (Math.min (fmul (lengthOf (List.filter isComplexIntegration
                                                 (default [] (scope' ≫= integrations))))
                                 (lit 0.8)) (lit 3.0))).
  { apply fadd_mono; [apply fadd_mono; [lra |] |]; apply min_mono_l, rnd_le.
    - apply Qmult_le_compat_r; [apply lengthOf_le, Hf | exact P05].
    - apply Qmult_le_compat_r; [apply lengthOf_le, Hi | exact P08]. }
  match type of S2 with ?x <= ?y => set (a := x) in *; set (b := y) in * end.
  assert (S3 : (if (tl =? "urgent")%string then fadd a (lit 1.5) else a)
               <= (if (tl =? "urgent")%string then fadd b (lit 1.5) else b)).
  { destruct (tl =? "urgent")%string; [apply fadd_mono; lra | exact S2]. }
  set (a3 := if (tl =? "urgent")%string then _ else a) in *.
  set (b3 := if (tl =? "urgent")%string then _ else b) in *.
  assert (S4 : (if (tl =? "critical")%string then fadd a3 (lit 2.5) else a3)
               <= (if (tl =? "critical")%string then fadd b3 (lit 2.5) else b3)).
  { destruct (tl =? "critical")%string; [apply fadd_mono; lra | exact S3]. }
  set (a4 := if (tl =? "critical")%string then _ else a3) in *.
  set (b4 := if (tl =? "critical")%string then _ else b3) in *.
  assert (S5 : fadd a4 (js_or (typeComplexity t) (lit 1.0))
               <= fadd b4 (js_or (typeComplexity t) (lit 1.0))) by (apply fadd_mono; lra).
  destruct u.
  - exact S5.
  - apply fadd_mono; [exact S5 | lra].
  - apply fadd_mono; [exact S5 | lra].
Qed.

End ComplexityMonotone.

(* ===================================================================== *)
(** ** PricingController.calculatePricing                                 *)
(* ===================================================================== *)

Section Controller.

(** X17: the controller of POST /api/pricing/calculate answers its 400
    exactly when [bundleId], [revenueCategory] or [companyRevenueScale] is
    missing or empty, whatever the database holds; every failure it answers
    has status 400 or 500; and a [complexityRating] that is missing or 0 is
    priced as rating 5. *)
Theorem PricingController_calculatePricing_validation (messageOf : PrismaError -> string)
    (db : DB) (body : PricingBody.t) :
  (PricingController.calculatePricing messageOf db body
   = PricingFailure 400 "bundleId, revenueCategory, and companyRevenueScale are required"
   <-> truthy (PricingBody.bundleId body) = None \/
       truthy (PricingBody.revenueCategory body) = None \/
       truthy (PricingBody.companyRevenueScale body) = None) /\
  (forall (code : Z) (error : string),
     PricingController.calculatePricing messageOf db body = PricingFailure code error ->
     code = 400%Z \/ code = 500%Z) /\
  (PricingBody.complexityRating body = None \/ PricingBody.complexityRating body = Some 0%Z ->
   PricingController.calculatePricing messageOf db body
   = PricingController.calculatePricing messageOf db
       (PricingBody.mk (PricingBody.bundleId body) (PricingBody.revenueCategory body)
          (PricingBody.companyRevenueScale body) (Some 5%Z))).
Proof.
  unfold PricingController.calculatePricing. cbn [PricingBody.bundleId
    PricingBody.revenueCategory PricingBody.companyRevenueScale PricingBody.complexityRating].
  split; [| split].
  - destruct (truthy (PricingBody.bundleId body)) as [b |]; [| intuition].
    destruct (truthy (PricingBody.revenueCategory body)) as [rc |]; [| intuition].
    destruct (truthy (PricingBody.companyRevenueScale body)) as [sc |]; [| intuition].
    cbv zeta. split.
    + destruct (calculatePricing db b rc sc _); discriminate.
    + intros [[=] | [[=] | [=]]].
  - intros code error.
    destruct (truthy (PricingBody.bundleId body)) as [b |]; [| intros [= <- _]; auto].
    destruct (truthy (PricingBody.revenueCategory body)) as [rc |]; [| intros [= <- _]; auto].
    destruct (truthy (PricingBody.companyRevenueScale body)) as [sc |];
      [| intros [= <- _]; auto].
    cbv zeta. destruct (calculatePricing db b rc sc _); [discriminate | |];
      intros [= <- _]; auto.
  - intros [-> | ->]; reflexivity.
Qed.

(** X18: a lookup miss is answered with status 500, not 404: when no
    category or no scale answers its key (ASCII keys without a backslash,
    over tables with ASCII names), or no price row is there for the bundle,
    the category and the scale, the controller answers 500 with the message
    of the service. *)
Theorem PricingController_calculatePricing_not_found (messageOf : PrismaError -> string)
    (db : DB) (body : PricingBody.t) (bundleId revenueCategory companyRevenueScale : string) :
  truthy (PricingBody.bundleId body) = Some bundleId ->
  truthy (PricingBody.revenueCategory body) = Some revenueCategory ->
  truthy (PricingBody.companyRevenueScale body) = Some companyRevenueScale ->
  (isText revenueCategory = true -> noEscape revenueCategory = true ->
   (forall r, r ∈ prisma.revenueCategory db -> isText (RevenueCategory.name r) = true) ->
   (forall r, r ∈ prisma.revenueCategory db -> ~ categoryMatches revenueCategory r) ->
   PricingController.calculatePricing messageOf db body
   = PricingFailure 500 ("Revenue category '" ++ revenueCategory ++ "' not found")) /\
  (forall c,
     findFirst (categoryWhere revenueCategory) (prisma.revenueCategory db) = Some c ->
     (isText companyRevenueScale = true -> noEscape companyRevenueScale = true ->
      (forall r, r ∈ prisma.companyScale db -> isText (CompanyScale.name r) = true) ->
      (forall r, r ∈ prisma.companyScale db -> ~ scaleMatches companyRevenueScale r) ->
      PricingController.calculatePricing messageOf db body
      = PricingFailure 500 ("Company scale '" ++ companyRevenueScale ++ "' not found")) /\
     (forall s,
        findFirst (scaleWhere companyRevenueScale) (prisma.companyScale db) = Some s ->
        (forall p, p ∈ prisma.basePricing db ->
           ~ (BasePricing.bundleId p = bundleId /\
              BasePricing.revenueCategoryId p = RevenueCategory.id c /\
              BasePricing.companyScaleId p = CompanyScale.id s)) ->
        PricingController.calculatePricing messageOf db body
        = PricingFailure 500
            ("No pricing found for bundle '" ++ bundleId ++ "', category '"
             ++ revenueCategory ++ "', and scale '" ++ companyRevenueScale ++ "'"))).
Proof.
  intros Hb Hrc Hsc. unfold PricingController.calculatePricing. rewrite Hb, Hrc, Hsc.
  cbv zeta. unfold calculatePricing. split.
  - intros _ _ _ H. rewrite (category_miss db revenueCategory H). reflexivity.
  - intros c ->. split.
    + intros _ _ _ H. rewrite (scale_miss db companyRevenueScale H). reflexivity.
    + intros s -> H.
      replace (findFirst (pricingWhere bundleId (RevenueCategory.id c) (CompanyScale.id s))
                 (prisma.basePricing db)) with (@None BasePricing.t); [reflexivity |].
      symmetry. apply findFirst_None. intros p Hin.
      destruct (pricingWhere bundleId (RevenueCategory.id c) (CompanyScale.id s) p) eqn:B;
        [exfalso | reflexivity].
      unfold pricingWhere in B. rewrite !andb_true_iff, !String.eqb_eq in B.
      apply (H p Hin). tauto.
Qed.

End Controller.

(* ===================================================================== *)
(** ** otpService                                                         *)
(* ===================================================================== *)

Section OtpCode.

(** The binary64 numbers below 1 end at 1 - 2^-53. *)
Lemma double_below_one (r : Q) : is_double r -> r < 1 -> r <= 1 - (1 # 9007199254740992).
Proof.
  intros D U. destruct (Qlt_le_dec r (1 # 2)) as [S | L]; [lra |].
  assert (P : 0 < r) by lra.
  assert (E : ilog2 r = (- 1)%Z).
  { apply ilog2_unique.
    - apply Qle_trans with (1 # 2); [qdecide | exact L].
    - apply Qlt_le_trans with 1; [exact U | qdecide]. }
  assert (Hu : ulp r = 1 # 9007199254740992).
  { rewrite (ulp_of_pos r P), E. reflexivity. }
  unfold is_double in D. rewrite rnd_nz in D by lra. rewrite Hu in D.
  set (m := rne (r / (1 # 9007199254740992))) in D.
  assert (M : (m < 9007199254740992)%Z).
  { rewrite Zlt_Qlt. change (inject_Z 9007199254740992) with 9007199254740992. lra. }
  assert (M' : (m <= 9007199254740991)%Z) by lia.
  rewrite Zle_Qle in M'. change (inject_Z 9007199254740991) with 9007199254740991 in M'.
  lra.
Qed.

(** The number whose digits are the code lies between 100000 and 999999. *)
Lemma otp_number_range (random : Q) : is_double random -> 0 <= random -> random < 1 ->
  (100000 <= Qfloor (Math.floor (fadd 100000 (fmul random 900000))) <= 999999)%Z.
Proof.
  intros D P U. apply double_below_one in U; [| exact D].
  unfold Math.floor. rewrite Qfloor_Z.
  set (v := fadd 100000 (fmul random 900000)).
  assert (Lo : 100000 <= v).
  { unfold v. assert (N : 0 <= fmul random 900000) by (apply fmul_nonneg; lra).
    assert (R : rnd 100000 <= rnd (100000 + fmul random 900000)) by (apply rnd_le; lra).
    assert (E : rnd 100000 == 100000) by qdecide.
    unfold fadd. lra. }
  assert (Hi : v < 1000000).
  { unfold v.
    assert (A : fmul random 900000 <= fmul (1 - (1 # 9007199254740992)) 900000)
      by (apply rnd_le; lra).
    assert (B : fadd 100000 (fmul random 900000)
                <= fadd 100000 (fmul (1 - (1 # 9007199254740992)) 900000))
      by (apply rnd_le; lra).
    assert (C : fadd 100000 (fmul (1 - (1 # 9007199254740992)) 900000) < 1000000) by qdecide.
    lra. }
  split.
  - assert (F : (Qfloor 100000 <= Qfloor v)%Z) by (apply Qfloor_resp_le, Lo). exact F.
  - assert (F : (Qfloor v < 1000000)%Z).
    { rewrite Zlt_Qlt. pose proof (Qfloor_le v).
      change (inject_Z 1000000) with 1000000. lra. }
    lia.
Qed.

(** The largest value of [100000 + Math.random() * 900000], against the
    reference implementation. *)
Example otp_code_agrees :
  to_spec (fadd 100000 (fmul (1 - (1 # 9007199254740992)) 900000))
  = SFadd 53 1024 (to_spec 100000)
      (SFmul 53 1024 (to_spec (1 - (1 # 9007199254740992))) (to_spec 900000)).
Proof. vm_compute. reflexivity. Qed.

Lemma digits_more (fuel : nat) (n : Z) (acc : string) : (10 <= n)%Z ->
  digits (S fuel) n acc = digits fuel (n / 10) (String (digit (n mod 10)) acc).
Proof.
  intros H. cbn [digits]. replace (n <? 10)%Z with false; [reflexivity |].
  symmetry. apply Z.ltb_ge. exact H.
Qed.

Lemma digits_last (fuel : nat) (n : Z) (acc : string) : (n < 10)%Z ->
  digits (S fuel) n acc = String (digit (n mod 10)) acc.
Proof.
  intros H. cbn [digits]. replace (n <? 10)%Z with true; [reflexivity |].
  symmetry. apply Z.ltb_lt. exact H.
Qed.

Lemma div10_range (n a b : Z) : (a * 10 <= n < b * 10)%Z -> (a <= n / 10 < b)%Z.
Proof.
  intros [L U]. split.
  - apply Z.div_le_lower_bound; lia.
  - apply Z.div_lt_upper_bound; lia.
Qed.

Lemma digit_code (n : Z) :
  (48 <= Ascii.nat_of_ascii (digit (n mod 10)) <= 57)%nat.
Proof.
  unfold digit. pose proof (Z.mod_pos_bound n 10 ltac:(lia)) as B.
  rewrite Ascii.nat_ascii_embedding by lia. lia.
Qed.

(** The digits of a number between 100000 and 999999. *)
Lemma digits_six (n : Z) : (100000 <= n <= 999999)%Z ->
  digits 21 n ""
  = String (digit (n / 100000 mod 10)) (String (digit (n / 10000 mod 10))
      (String (digit (n / 1000 mod 10)) (String (digit (n / 100 mod 10))
         (String (digit (n / 10 mod 10)) (String (digit (n mod 10)) ""))))).
Proof.
  intros B.
  assert (B1 : (10000 <= n / 10 < 100000)%Z) by (apply div10_range; lia).
  assert (B2 : (1000 <= n / 10 / 10 < 10000)%Z) by (apply div10_range; lia).
  assert (B3 : (100 <= n / 10 / 10 / 10 < 1000)%Z) by (apply div10_range; lia).
  assert (B4 : (10 <= n / 10 / 10 / 10 / 10 < 100)%Z) by (apply div10_range; lia).
  assert (B5 : (1 <= n / 10 / 10 / 10 / 10 / 10 < 10)%Z) by (apply div10_range; lia).
  rewrite digits_more by lia. rewrite digits_more by lia. rewrite digits_more by lia.
  rewrite digits_more by lia. rewrite digits_more by lia. rewrite digits_last by lia.
  rewrite !Z.div_div by lia. reflexivity.
Qed.

(** X19: the code has six digits.  For every value that [Math.random()]
    can return, a binary64 number in [0, 1), the code is 6 characters long,
    all of them decimal digits and the first not 0; so it fits its column, a
    VARCHAR(6). *)
Theorem generateOtpCode_six_digits (random : Q) :
  is_double random -> 0 <= random -> random < 1 ->
  String.length (generateOtpCode random) = 6%nat /\
  (forall c : Ascii.ascii, In c (String.list_ascii_of_string (generateOtpCode random)) ->
     (48 <= Ascii.nat_of_ascii c <= 57)%nat) /\
  (forall first rest, generateOtpCode random = String first rest ->
     Ascii.nat_of_ascii first <> 48%nat).
Proof.
  intros D P U. pose proof (otp_number_range random D P U) as R.
  unfold generateOtpCode, Number_toString.
  set (n := Qfloor (Math.floor (fadd 100000 (fmul random 900000)))) in *.
  rewrite (digits_six n R). split; [reflexivity |]. split.
  - cbn [String.list_ascii_of_string In].
    intros c [<- | [<- | [<- | [<- | [<- | [<- | []]]]]]]; apply digit_code.
  - intros first rest [= <- _].
    assert (B : (1 <= n / 100000 < 10)%Z).
    { split; [apply Z.div_le_lower_bound | apply Z.div_lt_upper_bound]; lia. }
    rewrite Z.mod_small by lia. unfold digit.
    rewrite Ascii.nat_ascii_embedding by lia. lia.
Qed.

End OtpCode.

Section OtpRows.

Lemma generateOtpCode_length (random : Q) :
  is_double random -> 0 <= random -> random < 1 ->
  String.length (generateOtpCode random) = 6%nat.
Proof.
  intros D P U. unfold generateOtpCode, Number_toString.
  rewrite (digits_six _ (otp_number_range random D P U)). reflexivity.
Qed.

Lemma fold_later_spec (rest : list (string * OtpVerification.t))
    (kr : string * OtpVerification.t) :
  fold_left later rest kr ∈ kr :: rest /\
  (forall x, x ∈ kr :: rest ->
     (OtpVerification.createdAt (snd x)
      <= OtpVerification.createdAt (snd (fold_left later rest kr)))%Z).
Proof.
  revert kr. induction rest as [| y rest IH]; intros kr.
  - cbn [fold_left]. split; [left |].
    intros x Hx. apply list_elem_of_singleton in Hx. subst x. lia.
  - cbn [fold_left]. destruct (IH (later kr y)) as [Hin Hmax]. split.
    + apply elem_of_cons in Hin. destruct Hin as [-> | Hin].
      * unfold later.
        destruct (OtpVerification.createdAt (snd kr) <? OtpVerification.createdAt (snd y))%Z;
          [right; left | left].
      * right. right. exact Hin.
    + intros x Hx.
      assert (Hl : (OtpVerification.createdAt (snd kr)
                    <= OtpVerification.createdAt (snd (later kr y)) /\
                    OtpVerification.createdAt (snd y)
                    <= OtpVerification.createdAt (snd (later kr y)))%Z).
      { unfold later.
        destruct (Z.ltb_spec (OtpVerification.createdAt (snd kr))
                    (OtpVerification.createdAt (snd y))); lia. }
      pose proof (Hmax (later kr y) ltac:(left)) as H0.
      apply elem_of_cons in Hx. destruct Hx as [-> | Hx]; [lia |].
      apply elem_of_cons in Hx. destruct Hx as [-> | Hx]; [lia |].
      apply Hmax. right. exact Hx.
Qed.

Lemma findFirstLatest_None (where_ : OtpVerification.t -> bool)
    (rows : gmap string OtpVerification.t) :
  findFirstLatest where_ rows = None <->
  (forall k r, rows !! k = Some r -> where_ r = false).
Proof.
  unfold findFirstLatest. split.
  - intros H k r Hk.
    destruct (List.filter (fun kr => where_ (snd kr)) (map_to_list rows)) as [| kr rest] eqn:F;
      [| discriminate].
    destruct (where_ r) eqn:W; [exfalso | reflexivity].
    assert (Hin : In (k, r) (List.filter (fun kr => where_ (snd kr)) (map_to_list rows))).
    { apply filter_In. split; [| exact W].
      apply list_elem_of_In, elem_of_map_to_list. exact Hk. }
    rewrite F in Hin. destruct Hin.
  - intros H.
    destruct (List.filter (fun kr => where_ (snd kr)) (map_to_list rows)) as [| kr rest] eqn:F;
      [reflexivity | exfalso].
    assert (Hin : In kr (List.filter (fun kr => where_ (snd kr)) (map_to_list rows)))
      by (rewrite F; left; reflexivity).
    apply filter_In in Hin. destruct Hin as [Hin W]. destruct kr as [k r].
    apply list_elem_of_In, elem_of_map_to_list in Hin.
    cbn [snd] in W. rewrite (H k r Hin) in W. discriminate.
Qed.

Lemma findFirstLatest_Some (where_ : OtpVerification.t -> bool)
    (rows : gmap string OtpVerification.t) (k : string) (r : OtpVerification.t) :
  findFirstLatest where_ rows = Some (k, r) ->
  rows !! k = Some r /\ where_ r = true /\
  (forall k' r', rows !! k' = Some r' -> where_ r' = true ->
     (OtpVerification.createdAt r' <= OtpVerification.createdAt r)%Z).
Proof.
  unfold findFirstLatest.
  destruct (List.filter (fun kr => where_ (snd kr)) (map_to_list rows)) as [| kr rest] eqn:F;
    [discriminate |].
  intros [= E]. destruct (fold_later_spec rest kr) as [Hin Hmax]. rewrite E in Hin, Hmax.
  assert (Hall : forall x, x ∈ kr :: rest -> rows !! fst x = Some (snd x) /\ where_ (snd x) = true).
  { intros [k' r'] Hx. rewrite <- F in Hx. apply list_elem_of_In, filter_In in Hx.
    destruct Hx as [Hx W]. apply list_elem_of_In, elem_of_map_to_list in Hx. auto. }
  destruct (Hall _ Hin) as [Hk W]. split; [exact Hk |]. split; [exact W |].
  intros k' r' Hk' W'.
  apply (Hmax (k', r')). rewrite <- F. apply list_elem_of_In, filter_In. split; [| exact W'].
  apply list_elem_of_In, elem_of_map_to_list. exact Hk'.
Qed.

Lemma verifyOTP_hit (now : Z) (phoneNumber otpCode : string) (db db' : otpTables.DB) :
  verifyOTP now phoneNumber otpCode db = (true, db') ->
  exists (id : string) (r : OtpVerification.t),
    otpTables.otpVerification db !! id = Some r /\
    otpWhere phoneNumber otpCode now r = true /\
    (forall k' r'', otpTables.otpVerification db !! k' = Some r'' ->
       otpWhere phoneNumber otpCode now r'' = true ->
       (OtpVerification.createdAt r'' <= OtpVerification.createdAt r)%Z) /\
    db' = otpTables.mk (otpTables.user db)
            (<[id := OtpVerification.mk (OtpVerification.userId r)
                       (OtpVerification.otpType r) (OtpVerification.otpCode r)
                       (OtpVerification.destination r) true
                       (OtpVerification.expiresAt r) (OtpVerification.createdAt r)]>
               (otpTables.otpVerification db)).
Proof.
  unfold verifyOTP.
  destruct (findFirstLatest (otpWhere phoneNumber otpCode now) (otpTables.otpVerification db))
    as [[id r] |] eqn:F; [| discriminate].
  intros [= <-]. apply findFirstLatest_Some in F. destruct F as (Hk & W & Hmax).
  exists id, r. auto.
Qed.

Lemma verifyOTP_miss (now : Z) (phoneNumber otpCode : string) (db db' : otpTables.DB) :
  verifyOTP now phoneNumber otpCode db = (false, db') ->
  db' = db /\
  forall k r, otpTables.otpVerification db !! k = Some r ->
              otpWhere phoneNumber otpCode now r = false.
Proof.
  unfold verifyOTP.
  destruct (findFirstLatest (otpWhere phoneNumber otpCode now) (otpTables.otpVerification db))
    as [[id r] |] eqn:F; [discriminate |].
  intros [= <-]. split; [reflexivity |]. apply findFirstLatest_None. exact F.
Qed.

Lemma otpWhere_true (phoneNumber otpCode : string) (now : Z) (r : OtpVerification.t) :
  otpWhere phoneNumber otpCode now r = true <->
  OtpVerification.destination r = phoneNumber /\
  OtpVerification.otpCode r = otpCode /\
  OtpVerification.verified r = false /\
  (now <= OtpVerification.expiresAt r)%Z.
Proof.
  unfold otpWhere.
  rewrite !andb_true_iff, !String.eqb_eq, negb_true_iff, Z.leb_le. tauto.
Qed.

(** X20: [verifyOTP] answers false exactly when no row for the phone number
    and the code is unverified and unexpired, and then changes nothing; when
    it answers true it has marked one such row as verified, one that no
    other such row was created after, and changed nothing else.  Neither
    the user nor the kind of the code is looked at. *)
Theorem verifyOTP_spec (now : Z) (phoneNumber otpCode : string) (db : otpTables.DB) :
  (forall db', verifyOTP now phoneNumber otpCode db = (false, db') ->
     db' = db /\
     forall k r, otpTables.otpVerification db !! k = Some r ->
                 otpWhere phoneNumber otpCode now r = false) /\
  (forall db', verifyOTP now phoneNumber otpCode db = (true, db') ->
     exists (id : string) (r r' : OtpVerification.t),
       otpTables.otpVerification db !! id = Some r /\
       OtpVerification.destination r = phoneNumber /\
       OtpVerification.otpCode r = otpCode /\
       OtpVerification.verified r = false /\
       (now <= OtpVerification.expiresAt r)%Z /\
       (forall k' r'', otpTables.otpVerification db !! k' = Some r'' ->
          otpWhere phoneNumber otpCode now r'' = true ->
          (OtpVerification.createdAt r'' <= OtpVerification.createdAt r)%Z) /\
       otpTables.otpVerification db' = <[id := r']> (otpTables.otpVerification db) /\
       OtpVerification.verified r' = true /\
       OtpVerification.userId r' = OtpVerification.userId r /\
       OtpVerification.otpType r' = OtpVerification.otpType r /\
       OtpVerification.otpCode r' = OtpVerification.otpCode r /\
       OtpVerification.destination r' = OtpVerification.destination r /\
       OtpVerification.expiresAt r' = OtpVerification.expiresAt r /\
       OtpVerification.createdAt r' = OtpVerification.createdAt r /\
       otpTables.user db' = otpTables.user db).
Proof.
  split.
  - intros db' H. apply verifyOTP_miss. exact H.
  - intros db' H. apply verifyOTP_hit in H. destruct H as (id & r & Hk & W & Hmax & ->).
    apply otpWhere_true in W. destruct W as (Hd & Hc & Hv & He).
    eexists id, r, _. cbn [otpTables.otpVerification otpTables.user].
    split; [exact Hk |]. split; [exact Hd |]. split; [exact Hc |]. split; [exact Hv |].
    split; [exact He |]. split; [exact Hmax |]. split; [reflexivity |].
    repeat split; reflexivity.
Qed.

End OtpRows.

Section OtpRoundTrip.

Lemma verifyOTP_true (now : Z) (phoneNumber otpCode : string) (db : otpTables.DB)
    (k : string) (r : OtpVerification.t) :
  otpTables.otpVerification db !! k = Some r ->
  otpWhere phoneNumber otpCode now r = true ->
  fst (verifyOTP now phoneNumber otpCode db) = true.
Proof.
  intros Hk W. unfold verifyOTP.
  destruct (findFirstLatest (otpWhere phoneNumber otpCode now) (otpTables.otpVerification db))
    as [[id r'] |] eqn:F; [reflexivity |].
  rewrite (proj1 (findFirstLatest_None _ _) F k r Hk) in W. discriminate.
Qed.

Lemma verifyOTP_false (now : Z) (phoneNumber otpCode : string) (db : otpTables.DB) :
  (forall k r, otpTables.otpVerification db !! k = Some r ->
               otpWhere phoneNumber otpCode now r = false) ->
  verifyOTP now phoneNumber otpCode db = (false, db).
Proof.
  intros H. unfold verifyOTP.
  rewrite (proj2 (findFirstLatest_None _ _) H). reflexivity.
Qed.

(** X21: a code sent to a phone number verifies once, until it expires.
    After [sendWhatsAppOTP], for an existing user and a phone number of at
    most 255 characters, the code is stored, also when its delivery failed
    and the call raised, with the expiry that [setMinutes] gives: 5 minutes
    ahead on the clock of the server's time zone.  [verifyOTP] with the code
    answers true up to the expiry; and when no older unverified row holds
    the same code for the number, it answers false after the expiry, and
    false to every call after one that was made in time.  Where the zone has
    the same offset at that local time as it has at the send, the expiry is
    5 minutes after the send. *)
Theorem sendWhatsAppOTP_then_verifyOTP (tz : TimeZone) (random : Q) (now dbNow : Z)
    (uuid : string) (delivered : bool) (phoneNumber userId : string) (db : otpTables.DB) :
  is_double random -> 0 <= random -> random < 1 ->
  userId ∈ otpTables.user db ->
  otpTables.otpVerification db !! uuid = None ->
  (String.length phoneNumber <= 255)%nat ->
  let otpCode := generateOtpCode random in
  let expiry := setMinutes_plus tz now 5 in
  let db' := snd (sendWhatsAppOTP tz random now dbNow uuid delivered phoneNumber userId db) in
  fst (sendWhatsAppOTP tz random now dbNow uuid delivered phoneNumber userId db)
  = (if delivered then Ok otpCode else Throw "Failed to send WhatsApp OTP") /\
  otpTables.otpVerification db'
  = <[uuid := OtpVerification.mk userId whatsapp otpCode phoneNumber false
                expiry dbNow]> (otpTables.otpVerification db) /\
  (forall t : Z, (t <= expiry)%Z -> fst (verifyOTP t phoneNumber otpCode db') = true) /\
  ((forall k r, otpTables.otpVerification db !! k = Some r ->
                OtpVerification.destination r = phoneNumber ->
                OtpVerification.otpCode r = otpCode ->
                OtpVerification.verified r = true) ->
   (forall t : Z, (expiry < t)%Z -> verifyOTP t phoneNumber otpCode db' = (false, db')) /\
   (forall t t' : Z, (t <= expiry)%Z ->
      let db'' := snd (verifyOTP t phoneNumber otpCode db') in
      verifyOTP t' phoneNumber otpCode db'' = (false, db''))) /\
  (tz (LocalTime tz now + 5 * 60000)%Z false = tz now true -> expiry = (now + 300000)%Z).
Proof.
  intros D P U Hu Hfresh Hlen otpCode expiry db'.
  pose proof (generateOtpCode_length random D P U) as L6.
  assert (E : sendWhatsAppOTP tz random now dbNow uuid delivered phoneNumber userId db
              = (if delivered then Ok otpCode else Throw "Failed to send WhatsApp OTP",
                 otpTables.mk (otpTables.user db)
                   (<[uuid := OtpVerification.mk userId whatsapp otpCode phoneNumber false
                                expiry dbNow]> (otpTables.otpVerification db)))).
  { unfold sendWhatsAppOTP, createOtpVerification. fold otpCode. fold expiry.
    rewrite Hfresh. rewrite bool_decide_eq_false_2 by (intros [? ?]; discriminate).
    rewrite (bool_decide_eq_true_2 _ Hu). cbn [negb].
    unfold otpCode at 1. rewrite L6.
    replace (6 <? 6)%nat with false by reflexivity.
    replace (255 <? String.length phoneNumber)%nat with false
      by (symmetry; apply Nat.ltb_ge; exact Hlen).
    destruct delivered; reflexivity. }
  subst db'. rewrite E. cbn [fst snd otpTables.otpVerification].
  set (row := OtpVerification.mk userId whatsapp otpCode phoneNumber false expiry dbNow).
  set (db1 := otpTables.mk (otpTables.user db) (<[uuid := row]> (otpTables.otpVerification db))).
  assert (Wrow : forall t, otpWhere phoneNumber otpCode t row = (t <=? expiry)%Z).
  { intros t. unfold otpWhere, row.
    cbn [OtpVerification.destination OtpVerification.otpCode OtpVerification.verified
         OtpVerification.expiresAt].
    rewrite !String.eqb_refl. reflexivity. }
  split; [reflexivity |]. split; [reflexivity |]. split; [| split].
  - intros t Ht. apply (verifyOTP_true t phoneNumber otpCode db1 uuid row).
    + apply lookup_insert_eq.
    + rewrite Wrow. apply Z.leb_le. exact Ht.
  - intros Hold.
    assert (Wold : forall t k r, otpTables.otpVerification db !! k = Some r ->
              otpWhere phoneNumber otpCode t r = false).
    { intros t k r Hk. unfold otpWhere.
      destruct (String.eqb_spec (OtpVerification.destination r) phoneNumber) as [Hd |];
        [| reflexivity].
      destruct (String.eqb_spec (OtpVerification.otpCode r) otpCode) as [Hc |];
        [| reflexivity].
      rewrite (Hold k r Hk Hd Hc). reflexivity. }
    split.
    + intros t Ht. apply verifyOTP_false. intros k r Hk.
      cbn [db1 otpTables.otpVerification] in Hk.
      destruct (decide (k = uuid)) as [-> | Nk].
      * rewrite lookup_insert_eq in Hk. injection Hk as <-.
        rewrite Wrow. apply Z.leb_gt. exact Ht.
      * rewrite lookup_insert_ne in Hk by congruence. eapply Wold. exact Hk.
    + intros t t' Ht. cbv zeta.
      destruct (verifyOTP t phoneNumber otpCode db1) as [[] db2] eqn:V.
      * apply verifyOTP_hit in V. destruct V as (id & r & Hid & W & _ & ->).
        cbn [snd]. apply verifyOTP_false. intros k r0 Hk.
        cbn [db1 otpTables.otpVerification] in Hid, Hk.
        assert (id = uuid) as ->.
        { destruct (decide (id = uuid)) as [| Nid]; [assumption | exfalso].
          rewrite lookup_insert_ne in Hid by congruence.
          rewrite (Wold t id r Hid) in W. discriminate. }
        rewrite lookup_insert_eq in Hid. injection Hid as <-.
        rewrite insert_insert_eq in Hk.
        destruct (decide (k = uuid)) as [-> | Nk].
        -- rewrite lookup_insert_eq in Hk. injection Hk as <-.
           unfold otpWhere. cbn [OtpVerification.verified negb].
           rewrite andb_false_r. reflexivity.
        -- rewrite lookup_insert_ne in Hk by congruence. eapply Wold. exact Hk.
      * apply verifyOTP_miss in V. destruct V as [-> Hnone]. cbn [snd].
        exfalso. pose proof (Hnone uuid row (lookup_insert_eq _ _ _)) as W.
        rewrite Wrow in W. apply Z.leb_gt in W. lia.
  - intros Hz. unfold expiry. rewrite (setMinutes_plus_same_offset _ _ _ Hz). lia.
Qed.

End OtpRoundTrip.

(* ===================================================================== *)
(** ** The theorems at sample inputs                                      *)
(* ===================================================================== *)

Lemma default_rates_nonneg (t : ProjectType) : 0 <= BASE_RATES default_env t.
Proof. destruct t; qdecide. Defined.


Lemma generateQuote_example_witness :
  (BASE_RATE_FULLSTACK default_env = None /\
   authenticated example_request = Some "u1"%string /\
   prisma.projectAssessment example_db !! req_param example_request = Some example_project /\
   findFirstActiveQuote (prisma.projectQuote example_db) (req_param example_request) = None /\
   prisma.projectQuote example_db !! "q1"%string = None) /\
  calculateComplexity fullstack (Some example_scope) urgent = lit 6.1 /\
  exists (quote : ProjectQuote.t) (db' : DB),
    generateQuote default_env 0 "q1" example_request example_db
    = (QuoteReply (Some "Quote generated successfully"%string) quote, db') /\
    ProjectQuote.baseRate quote = 8000 /\
    ProjectQuote.complexityAdjustment quote = 4000 /\
    ProjectQuote.urgencyAdjustment quote = 2400 /\
    ProjectQuote.totalEstimate quote = 14400 /\
    ProjectQuote.notToExceed quote = 16560.
Proof.
  assert (H1 : BASE_RATE_FULLSTACK default_env = None) by reflexivity.
  assert (H2 : authenticated example_request = Some "u1"%string) by reflexivity.
  assert (H3 : prisma.projectAssessment example_db !! req_param example_request
               = Some example_project) by reflexivity.
  assert (H4 : findFirstActiveQuote (prisma.projectQuote example_db)
                 (req_param example_request) = None) by reflexivity.
  assert (H5 : prisma.projectQuote example_db !! "q1"%string = None) by reflexivity.
  split; [repeat split; assumption |].
  destruct (generateQuote_example default_env 0 "q1" example_request example_db "p1" "u1"
              (JString "catalog") (JString "cart") (JString "checkout") (JString "admin")
              initiated H1 H2 H3 H4 H5) as (S & _ & _ & _ & R).
  split; [exact S | exact R].
Defined.

Lemma calculateComplexity_range_witness :
  baseContribution fullstack <= calculateComplexity fullstack (Some example_scope) urgent /\
  calculateComplexity fullstack (Some example_scope) urgent <= 10.
Proof.
  destruct (calculateComplexity_range fullstack (Some example_scope) urgent) as (L & U & _).
  split; [exact L | exact U].
Defined.

Lemma generateQuote_installments_witness :
  (forall t, 0 <= BASE_RATES env_4995 t) /\
  exists (quote : ProjectQuote.t) (db' : DB),
    generateQuote env_4995 0 "q1" example_request creative_db
    = (QuoteReply (Some "Quote generated successfully"%string) quote, db') /\
    let ps := ProjectQuote.paymentStructure quote in
    Qabs (deposit ps + milestone_1 ps + milestone_2 ps + final ps
          - ProjectQuote.totalEstimate quote) <= 2.
Proof.
  assert (Hr : forall t, 0 <= BASE_RATES env_4995 t) by (intros []; qdecide).
  split; [exact Hr |].
  eassert (E : generateQuote env_4995 0 "q1" example_request creative_db
               = (QuoteReply _ _, _)) by (vm_compute; reflexivity).
  eexists _, _. split; [exact E |].
  destruct (generateQuote_installments _ _ _ _ _ _ _ _ Hr E)
    as (project & _ & _ & _ & _ & _ & _ & Hle).
  exact Hle.
Defined.

Lemma acceptQuote_expired_witness :
  (authenticated (quote_request None) = Some "u1"%string /\
   prisma.projectQuote (quote_db accepted) !! req_param (quote_request None)
   = Some (sample_quote accepted) /\
   ProjectQuote.userId (sample_quote accepted) = "u1"%string /\
   (ProjectQuote.validUntil (sample_quote accepted) < 2592000001)%Z) /\
  acceptQuote 2592000001 (quote_request None) (quote_db accepted)
  = (Failure 400 "Quote has expired", quote_db accepted).
Proof.
  assert (H1 : authenticated (quote_request None) = Some "u1"%string) by reflexivity.
  assert (H2 : prisma.projectQuote (quote_db accepted) !! req_param (quote_request None)
               = Some (sample_quote accepted)) by reflexivity.
  assert (H3 : ProjectQuote.userId (sample_quote accepted) = "u1"%string) by reflexivity.
  assert (H4 : (ProjectQuote.validUntil (sample_quote accepted) < 2592000001)%Z)
    by reflexivity.
  split; [repeat split; assumption |].
  exact (acceptQuote_expired 2592000001 (quote_request None) (quote_db accepted) "u1"
           (sample_quote accepted) H1 H2 H3 H4).
Defined.

Lemma declineQuote_any_status_witness :
  (authenticated (quote_request (Some (JString "over budget"))) = Some "u1"%string /\
   prisma.projectQuote (quote_db accepted) !! "q1"%string = Some (sample_quote accepted) /\
   ProjectQuote.userId (sample_quote accepted) = "u1"%string) /\
  exists (updated : ProjectQuote.t) (db' : DB),
    declineQuote (fun _ => "2026-03-01T00:00:00.000Z"%string) 1000
      (quote_request (Some (JString "over budget"))) (quote_db accepted)
    = (QuoteReply (Some "Quote declined"%string) updated, db') /\
    ProjectQuote.status updated = declined /\
    ProjectQuote.metadata updated !! "declineReason"%string = Some (JString "over budget").
Proof.
  assert (H1 : authenticated (quote_request (Some (JString "over budget")))
               = Some "u1"%string) by reflexivity.
  assert (H2 : prisma.projectQuote (quote_db accepted) !! "q1"%string
               = Some (sample_quote accepted)) by reflexivity.
  assert (H3 : ProjectQuote.userId (sample_quote accepted) = "u1"%string) by reflexivity.
  split; [repeat split; assumption |].
  destruct (declineQuote_any_status (fun _ => "2026-03-01T00:00:00.000Z"%string) 1000
              (quote_request (Some (JString "over budget"))) (quote_db accepted) "u1"
              (sample_quote accepted) H1 H2 H3)
    as (updated & db' & E & _ & St & Re & _).
  exists updated, db'. repeat split; assumption.
Defined.

Lemma singleton_one_active (k : string) (q : ProjectQuote.t) :
  at_most_one_active {[ k := q ]}.
Proof.
  intros i j qi qj Hi Hj _ _ _.
  apply lookup_singleton_Some in Hi. apply lookup_singleton_Some in Hj.
  destruct Hi as [<- _]. destruct Hj as [<- _]. reflexivity.
Defined.

Lemma generateQuote_one_active_quote_witness :
  at_most_one_active (prisma.projectQuote (quote_db pending)) /\
  generateQuote default_env 0 "q2" example_request (quote_db pending)
  = (Failure 400 "Active quote already exists for this project", quote_db pending) /\
  at_most_one_active
    (prisma.projectQuote
       (snd (generateQuote default_env 0 "q2" example_request (quote_db pending)))).
Proof.
  assert (Inv : at_most_one_active (prisma.projectQuote (quote_db pending)))
    by apply singleton_one_active.
  split; [exact Inv |].
  destruct (generateQuote default_env 0 "q2" example_request (quote_db pending))
    as [reply db'] eqn:E.
  destruct (generateQuote_one_active_quote default_env 0 "q2" example_request
              (quote_db pending) db' reply Inv E) as [Inv' Dup].
  destruct (Dup "q1"%string (sample_quote pending) eq_refl eq_refl eq_refl)
    as (-> & _ & Owner).
  rewrite (Owner "u1"%string example_project eq_refl eq_refl eq_refl).
  split; [reflexivity | exact Inv'].
Defined.

Lemma seed_category_names (r : RevenueCategory.t) :
  r ∈ seed_categories -> isText (RevenueCategory.name r) = true.
Proof.
  intros Hin. apply list_elem_of_In in Hin. simpl in Hin.
  repeat (destruct Hin as [<- | Hin]; [reflexivity |]). destruct Hin.
Defined.

Lemma seed_scale_names (r : CompanyScale.t) :
  r ∈ seed_scales -> isText (CompanyScale.name r) = true.
Proof.
  intros Hin. apply list_elem_of_In in Hin. simpl in Hin.
  repeat (destruct Hin as [<- | Hin]; [reflexivity |]). destruct Hin.
Defined.


Lemma no_tier_eleven (t : ComplexityTier.t) :
  t ∈ prisma.complexityTier pricing_db -> ComplexityTier.rating t <> 11%Z.
Proof.
  intros Hin. apply list_elem_of_In in Hin. simpl in Hin.
  repeat (destruct Hin as [<- | Hin]; [discriminate |]). destruct Hin.
Defined.

Lemma calculatePricing_missing_tier_witness :
  ((forall t, t ∈ prisma.complexityTier pricing_db -> ComplexityTier.rating t <> 11%Z) /\
   isInt4 11 = true) /\
  exists res,
    calculatePricing pricing_db "bundle_saas_pro" "saas" "medium_10m" 11 = Ok res /\
    PricingCalculation.complexityAdjustment res == 1 /\
    PricingCalculation.finalPrice res = 7500.
Proof.
  split; [split; [exact no_tier_eleven | reflexivity] |].
  destruct (calculatePricing_missing_tier pricing_db "bundle_saas_pro" "saas" "medium_10m" 11
              no_tier_eleven) as [_ Hcat].
  destruct (Hcat (RevenueCategory.mk "rc-1" "SaaS" "saas") eq_refl) as [_ Hscale].
  destruct (Hscale (CompanyScale.mk "cs-4" "Medium ($1M - $10M)" "medium_10m" 1.5) eq_refl)
    as [_ Hprice].
  destruct (Hprice (BasePricing.mk "bundle_saas_pro" "rc-1" "cs-4" 5000) eq_refl)
    as [Hfits _].
  destruct (Hfits eq_refl) as (res & E & M & _ & F).
  exists res. split; [exact E |]. split; [exact M |].
  rewrite F. vm_compute. reflexivity.
Defined.

Lemma calculatePricing_compounds_witness :
  (findFirst (categoryWhere "saas") (prisma.revenueCategory pricing_db)
   = Some (RevenueCategory.mk "rc-1" "SaaS" "saas") /\
   findFirst (scaleWhere "medium_10m") (prisma.companyScale pricing_db)
   = Some (CompanyScale.mk "cs-4" "Medium ($1M - $10M)" "medium_10m" 1.5) /\
   findFirst (pricingWhere "bundle_saas_pro" "rc-1" "cs-4") (prisma.basePricing pricing_db)
   = Some (BasePricing.mk "bundle_saas_pro" "rc-1" "cs-4" 5000) /\
   findFirst (tierWhere 7) (prisma.complexityTier pricing_db)
   = Some (ComplexityTier.mk 7 "Very High" 1.35)) /\
  exists res,
    calculatePricing pricing_db "bundle_saas_pro" "saas" "medium_10m" 7 = Ok res /\
    Breakdown.scaleAdjustment (PricingCalculation.breakdown res) = 2500 /\
    Breakdown.complexityAdjustment (PricingCalculation.breakdown res) = 2625 /\
    PricingCalculation.finalPrice res = 10125.
Proof.
  split; [repeat split; reflexivity |].
  destruct (calculatePricing_compounds pricing_db "bundle_saas_pro" "saas" "medium_10m" 7
              (RevenueCategory.mk "rc-1" "SaaS" "saas")
              (CompanyScale.mk "cs-4" "Medium ($1M - $10M)" "medium_10m" 1.5)
              (BasePricing.mk "bundle_saas_pro" "rc-1" "cs-4" 5000)
              (ComplexityTier.mk 7 "Very High" 1.35)
              eq_refl eq_refl eq_refl eq_refl)
    as (res & E & _ & _ & _ & _ & V).
  exists res. split; [exact E |].
  apply V; reflexivity.
Defined.

Lemma acceptQuote_success_witness :
  (authenticated (quote_request None) = Some "u1"%string /\
   prisma.projectQuote (quote_db pending) !! req_param (quote_request None)
   = Some (sample_quote pending) /\
   ProjectQuote.userId (sample_quote pending) = "u1"%string /\
   (1000 <= ProjectQuote.validUntil (sample_quote pending))%Z /\
   (ProjectQuote.status (sample_quote pending) = pending \/
    ProjectQuote.status (sample_quote pending) = sent) /\
   prisma.projectAssessment (quote_db pending) !! ProjectQuote.projectId (sample_quote pending)
   = Some example_project) /\
  exists (updated : ProjectQuote.t) (db' : DB),
    acceptQuote 1000 (quote_request None) (quote_db pending)
    = (QuoteReply (Some "Quote accepted successfully"%string) (withNumbers updated), db') /\
    ProjectQuote.status updated = accepted /\
    ProjectQuote.acceptedAt updated = Some 1000%Z.
Proof.
  assert (H1 : authenticated (quote_request None) = Some "u1"%string) by reflexivity.
  assert (H2 : prisma.projectQuote (quote_db pending) !! req_param (quote_request None)
               = Some (sample_quote pending)) by reflexivity.
  assert (H3 : ProjectQuote.userId (sample_quote pending) = "u1"%string) by reflexivity.
  assert (H4 : (1000 <= ProjectQuote.validUntil (sample_quote pending))%Z)
    by (apply Z.leb_le; reflexivity).
  assert (H5 : ProjectQuote.status (sample_quote pending) = pending \/
               ProjectQuote.status (sample_quote pending) = sent) by (left; reflexivity).
  assert (H6 : prisma.projectAssessment (quote_db pending)
                 !! ProjectQuote.projectId (sample_quote pending) = Some example_project)
    by reflexivity.
  split; [repeat split; assumption |].
  destruct (acceptQuote_success 1000 (quote_request None) (quote_db pending) "u1"
              (sample_quote pending) example_project H1 H2 H3 H4 H5 H6)
    as (updated & project' & db' & E & _ & St & _ & At & _).
  exists updated, db'. repeat split; assumption.
Defined.

Lemma acceptQuote_twice_witness :
  exists (msg : option string) (quote : ProjectQuote.t) (db' : DB),
    acceptQuote 1000 (quote_request None) (quote_db pending) = (QuoteReply msg quote, db') /\
    acceptQuote 2000 (quote_request None) db'
    = (Failure 400 "Quote cannot be accepted (status: accepted)", db').
Proof.
  eassert (E : acceptQuote 1000 (quote_request None) (quote_db pending)
               = (QuoteReply _ _, _)) by (vm_compute; reflexivity).
  eexists _, _, _. split; [exact E |].
  exact (proj2 (acceptQuote_twice 1000 2000 (quote_request None) (quote_request None)
                  _ _ _ _ E eq_refl) eq_refl).
Defined.

Lemma acceptQuote_frame_witness :
  exists (reply : Reply) (db' : DB),
    acceptQuote 1000 (quote_request None) (quote_db pending) = (reply, db') /\
    forall k : string, k <> "q1"%string ->
      prisma.projectQuote db' !! k = prisma.projectQuote (quote_db pending) !! k.
Proof.
  destruct (acceptQuote 1000 (quote_request None) (quote_db pending)) as [reply db'] eqn:E.
  exists reply, db'. split; [reflexivity |].
  exact (proj1 (proj2 (acceptQuote_frame 1000 (quote_request None) (quote_db pending)
                         db' reply E))).
Defined.

Lemma declineQuote_frame_witness :
  exists (reply : Reply) (db' : DB),
    declineQuote (fun _ => "2026-03-01T00:00:00.000Z"%string) 1000
      (quote_request None) (quote_db accepted) = (reply, db') /\
    prisma.projectAssessment db' = prisma.projectAssessment (quote_db accepted).
Proof.
  destruct (declineQuote (fun _ => "2026-03-01T00:00:00.000Z"%string) 1000
              (quote_request None) (quote_db accepted)) as [reply db'] eqn:E.
  exists reply, db'. split; [reflexivity |].
  exact (proj1 (declineQuote_frame _ 1000 (quote_request None) (quote_db accepted)
                  db' reply E)).
Defined.

Lemma generateQuote_effects_witness :
  exists (quote : ProjectQuote.t) (db' : DB) (userId : string),
    generateQuote default_env 0 "q1" example_request example_db
    = (QuoteReply (Some "Quote generated successfully"%string) quote, db') /\
    authenticated example_request = Some userId /\
    prisma.auditLog db'
    = prisma.auditLog example_db
      ++ [AuditLog.mk userId "quote_generated" "quote" "q1"
            (Some (JObject [("projectId"%string, JString (req_param example_request))]))].
Proof.
  eassert (E : generateQuote default_env 0 "q1" example_request example_db
               = (QuoteReply _ _, _)) by (vm_compute; reflexivity).
  destruct (generateQuote_effects _ _ _ _ _ _ _ _ E)
    as (userId & project & project' & row & Ha & _ & _ & _ & _ & _ & _ & _ & _ & _ & _ & _
        & _ & _ & _ & _ & _ & _ & _ & _ & _ & Hlog & _).
  eexists _, _, userId. split; [exact E |]. split; [exact Ha | exact Hlog].
Defined.

Lemma generateQuote_score_overflow_witness :
  (authenticated example_request = Some "u1"%string /\
   prisma.projectAssessment maximal_db !! req_param example_request = Some maximal_project /\
   ProjectAssessment.userId maximal_project = "u1"%string /\
   findFirstActiveQuote (prisma.projectQuote maximal_db) (req_param example_request) = None /\
   ProjectAssessment.complexityScore maximal_project = None /\
   9.995 <= calculateComplexity (ProjectAssessment.projectType maximal_project)
              (ProjectAssessment.projectScope maximal_project)
              (default standard (ProjectAssessment.urgency maximal_project))) /\
  generateQuote default_env 0 "q1" example_request maximal_db
  = (Thrown NumericOverflow, maximal_db).
Proof.
  assert (H1 : authenticated example_request = Some "u1"%string) by reflexivity.
  assert (H2 : prisma.projectAssessment maximal_db !! req_param example_request
               = Some maximal_project) by reflexivity.
  assert (H3 : ProjectAssessment.userId maximal_project = "u1"%string) by reflexivity.
  assert (H4 : findFirstActiveQuote (prisma.projectQuote maximal_db)
                 (req_param example_request) = None) by reflexivity.
  assert (H5 : ProjectAssessment.complexityScore maximal_project = None) by reflexivity.
  assert (H6 : 9.995 <= calculateComplexity (ProjectAssessment.projectType maximal_project)
                          (ProjectAssessment.projectScope maximal_project)
                          (default standard (ProjectAssessment.urgency maximal_project)))
    by qdecide.
  split; [repeat split; assumption |].
  exact (generateQuote_score_overflow default_env 0 "q1" example_request maximal_db "u1"
           maximal_project H1 H2 H3 H4 H5 H6).
Defined.

Lemma generateQuote_then_acceptQuote_witness :
  exists (quote : ProjectQuote.t) (db' : DB),
    generateQuote default_env 1000 "q1" example_request example_db
    = (QuoteReply (Some "Quote generated successfully"%string) quote, db') /\
    TZ default_env (LocalTime (TZ default_env) 1000 + 30 * msPerDay)%Z false
    = TZ default_env 1000%Z true /\
    ProjectQuote.validUntil quote = (30 * msPerDay)%Z /\
    acceptQuote (1000 + 30 * msPerDay) (quote_request None) db'
    = (Failure 400 "Quote has expired", db').
Proof.
  eassert (E : generateQuote default_env 1000 "q1" example_request example_db
               = (QuoteReply _ _, _)) by (vm_compute; reflexivity).
  destruct (generateQuote_then_acceptQuote default_env 1000 "q1" example_request example_db
              _ _ _ (1000 + 30 * msPerDay) (quote_request None) E eq_refl eq_refl)
    as (Hv & _ & Hlate & Hutc).
  eexists _, _. split; [exact E |]. split; [reflexivity |].
  split; [rewrite Hv; exact (Hutc eq_refl) |].
  apply Hlate. rewrite (Hutc eq_refl). reflexivity.
Defined.

Lemma lifecycle_keeps_one_active_witness :
  at_most_one_active (prisma.projectQuote (quote_db pending)) /\
  at_most_one_active
    (prisma.projectQuote (snd (acceptQuote 1000 (quote_request None) (quote_db pending)))).
Proof.
  assert (Inv : at_most_one_active (prisma.projectQuote (quote_db pending)))
    by apply singleton_one_active.
  split; [exact Inv |].
  exact (proj1 (lifecycle_keeps_one_active (fun _ => ""%string) 1000 (quote_request None)
                  (quote_db pending) Inv)).
Defined.

Lemma declineQuote_then_generateQuote_witness :
  (at_most_one_active (prisma.projectQuote (quote_db pending)) /\
   prisma.projectQuote (quote_db pending) !! req_param (quote_request None)
   = Some (sample_quote pending) /\
   isActive (ProjectQuote.status (sample_quote pending)) = true) /\
  exists (declined_ : ProjectQuote.t) (db' : DB),
    declineQuote (fun _ => "2026-03-01T00:00:00.000Z"%string) 1000
      (quote_request None) (quote_db pending)
    = (QuoteReply (Some "Quote declined"%string) declined_, db') /\
    findFirstActiveQuote (prisma.projectQuote db') "p1" = None.
Proof.
  assert (Inv : at_most_one_active (prisma.projectQuote (quote_db pending)))
    by apply singleton_one_active.
  assert (H2 : prisma.projectQuote (quote_db pending) !! req_param (quote_request None)
               = Some (sample_quote pending)) by reflexivity.
  assert (H3 : isActive (ProjectQuote.status (sample_quote pending)) = true) by reflexivity.
  split; [repeat split; assumption |].
  eassert (E : declineQuote (fun _ => "2026-03-01T00:00:00.000Z"%string) 1000
                 (quote_request None) (quote_db pending)
               = (QuoteReply _ _, _)) by (vm_compute; reflexivity).
  eexists _, _. split; [exact E |].
  exact (proj1 (declineQuote_then_generateQuote _ 1000 (quote_request None) (quote_db pending)
                  _ _ _ (sample_quote pending) Inv H2 H3 E)).
Defined.

Lemma acceptQuote_then_declineQuote_witness :
  exists (msg : option string) (quote : ProjectQuote.t) (db' : DB)
         (declined_ : ProjectQuote.t) (project : ProjectAssessment.t) (db'' : DB),
    acceptQuote 1000 (quote_request None) (quote_db pending) = (QuoteReply msg quote, db') /\
    declineQuote (fun _ => "2026-03-01T00:00:00.000Z"%string) 2000 (quote_request None) db'
    = (QuoteReply (Some "Quote declined"%string) declined_, db'') /\
    ProjectQuote.status declined_ = declined /\
    ProjectQuote.termsAccepted declined_ = true /\
    prisma.projectAssessment db'' !! ProjectQuote.projectId declined_ = Some project /\
    ProjectAssessment.status project = quote_accepted.
Proof.
  eassert (E : acceptQuote 1000 (quote_request None) (quote_db pending)
               = (QuoteReply _ _, _)) by (vm_compute; reflexivity).
  destruct (acceptQuote_then_declineQuote (fun _ => "2026-03-01T00:00:00.000Z"%string)
              1000 2000 (quote_request None) (quote_request None) _ _ _ _ E eq_refl eq_refl)
    as (declined_ & project & db'' & D & _ & St & Ta & _ & Hp & Ps).
  eexists _, _, _, declined_, project, db''. split; [exact E |].
  repeat split; assumption.
Defined.

Lemma generateQuote_reply_amounts_witness :
  exists (quote : ProjectQuote.t) (db' : DB) (row : ProjectQuote.t),
    generateQuote default_env 0 "q1" example_request example_db
    = (QuoteReply (Some "Quote generated successfully"%string) quote, db') /\
    prisma.projectQuote db' !! "q1"%string = Some row /\
    toDecimal 10 2 (ProjectQuote.totalEstimate quote) = Some (ProjectQuote.totalEstimate row).
Proof.
  eassert (E : generateQuote default_env 0 "q1" example_request example_db
               = (QuoteReply _ _, _)) by (vm_compute; reflexivity).
  destruct (generateQuote_reply_amounts _ _ _ _ _ _ _ _ E)
    as (row & Hrow & _ & _ & _ & Ht & _).
  eexists _, _, row. split; [exact E |]. split; [exact Hrow | exact Ht].
Defined.

Lemma calculatePricing_neutral_witness :
  (findFirst (categoryWhere "saas") (prisma.revenueCategory startup_db)
   = Some (RevenueCategory.mk "rc-1" "SaaS" "saas") /\
   findFirst (scaleWhere "startup_100k") (prisma.companyScale startup_db)
   = Some (CompanyScale.mk "cs-2" "Startup (< $100K)" "startup_100k" 1.0) /\
   findFirst (pricingWhere "bundle_starter" "rc-1" "cs-2") (prisma.basePricing startup_db)
   = Some (BasePricing.mk "bundle_starter" "rc-1" "cs-2" 1999.99) /\
   toDecimal 10 2 1999.99 = Some 1999.99 /\
   isInt4 4 = true /\
   findFirst (tierWhere 4) (prisma.complexityTier startup_db)
   = Some (ComplexityTier.mk 4 "Medium" 1.0)) /\
  exists res : PricingCalculation.t,
    calculatePricing startup_db "bundle_starter" "saas" "startup_100k" 4 = Ok res /\
    PricingCalculation.finalPrice res = Number 1999.99.
Proof.
  assert (H1 : findFirst (categoryWhere "saas") (prisma.revenueCategory startup_db)
               = Some (RevenueCategory.mk "rc-1" "SaaS" "saas")) by reflexivity.
  assert (H2 : findFirst (scaleWhere "startup_100k") (prisma.companyScale startup_db)
               = Some (CompanyScale.mk "cs-2" "Startup (< $100K)" "startup_100k" 1.0))
    by reflexivity.
  assert (H3 : findFirst (pricingWhere "bundle_starter" "rc-1" "cs-2")
                 (prisma.basePricing startup_db)
               = Some (BasePricing.mk "bundle_starter" "rc-1" "cs-2" 1999.99))
    by reflexivity.
  assert (H4 : toDecimal 10 2 1999.99 = Some 1999.99) by (vm_compute; reflexivity).
  assert (H5 : findFirst (tierWhere 4) (prisma.complexityTier startup_db)
               = Some (ComplexityTier.mk 4 "Medium" 1.0)) by reflexivity.
  split; [repeat split; try assumption; reflexivity |].
  destruct (calculatePricing_neutral startup_db "bundle_starter" "saas" "startup_100k" 4
              (RevenueCategory.mk "rc-1" "SaaS" "saas")
              (CompanyScale.mk "cs-2" "Startup (< $100K)" "startup_100k" 1.0)
              (BasePricing.mk "bundle_starter" "rc-1" "cs-2" 1999.99) 1999.99
              H1 H2 H3 H4 ltac:(reflexivity) eq_refl
              ltac:(intros t Ht; rewrite H5 in Ht; injection Ht as <-; reflexivity))
    as (res & E & F & _).
  exists res. split; [exact E | exact F].
Defined.

Lemma quoteData_monotone_witness :
  (forall t, 0 <= BASE_RATES default_env t) /\
  QuoteData.totalEstimate (quoteData default_env example_project 2 0)
  <= QuoteData.totalEstimate (quoteData default_env example_project 7 0).
Proof.
  split; [exact default_rates_nonneg |].
  exact (proj1 (quoteData_monotone default_env default_rates_nonneg example_project 2 7 0
                  ltac:(qdecide))).
Defined.

Lemma pricingOf_monotone_witness :
  (is_double 5000 /\ 0 <= 5000 /\ 0 <= lit 1.5 /\ 0 <= lit 1.1 /\ lit 1.1 <= lit 1.35) /\
  PricingCalculation.finalPrice (pricingOf 5000 (lit 1.5) (lit 1.1))
  <= PricingCalculation.finalPrice (pricingOf 5000 (lit 1.5) (lit 1.35)).
Proof.
  assert (H1 : is_double 5000) by qdecide.
  assert (H2 : 0 <= 5000) by qdecide.
  assert (H3 : 0 <= lit 1.5) by qdecide.
  assert (H4 : 0 <= lit 1.1) by qdecide.
  assert (H5 : lit 1.1 <= lit 1.35) by qdecide.
  split; [repeat split; assumption |].
  exact (proj2 (pricingOf_monotone 5000 (lit 1.5) (lit 1.1) (lit 1.35) H1 H2 H3 H4 H5)).
Defined.

Lemma calculateComplexity_monotone_witness :
  ((length (default [] (Some small_scope ≫= features))
    <= length (default [] (Some maximal_scope ≫= features)))%nat /\
   (length (List.filter isComplexIntegration (default [] (Some small_scope ≫= integrations)))
    <= length (List.filter isComplexIntegration
                 (default [] (Some maximal_scope ≫= integrations))))%nat /\
   Some small_scope ≫= timeline = Some maximal_scope ≫= timeline) /\
  calculateComplexity web3 (Some small_scope) critical
  <= calculateComplexity web3 (Some maximal_scope) critical.
Proof.
  assert (H1 : (length (default [] (Some small_scope ≫= features))
                <= length (default [] (Some maximal_scope ≫= features)))%nat)
    by (apply Nat.leb_le; reflexivity).
  assert (H2 : (length (List.filter isComplexIntegration
                          (default [] (Some small_scope ≫= integrations)))
                <= length (List.filter isComplexIntegration
                             (default [] (Some maximal_scope ≫= integrations))))%nat)
    by (apply Nat.leb_le; reflexivity).
  assert (H3 : Some small_scope ≫= timeline = Some maximal_scope ≫= timeline) by reflexivity.
  split; [repeat split; assumption |].
  exact (calculateComplexity_monotone web3 critical (Some small_scope) (Some maximal_scope)
           H1 H2 H3).
Defined.

Lemma no_crypto_category (r : RevenueCategory.t) :
  r ∈ prisma.revenueCategory pricing_db -> ~ categoryMatches "crypto" r.
Proof.
  intros Hin. apply list_elem_of_In in Hin. simpl in Hin.
  repeat (destruct Hin as [<- | Hin];
          [intros [C | C]; [discriminate C | apply Like_like in C; discriminate C] |]).
  destruct Hin.
Defined.

Lemma PricingController_calculatePricing_not_found_witness :
  (truthy (PricingBody.bundleId unknown_category_body) = Some "bundle_saas_pro"%string /\
   truthy (PricingBody.revenueCategory unknown_category_body) = Some "crypto"%string /\
   truthy (PricingBody.companyRevenueScale unknown_category_body) = Some "medium_10m"%string /\
   isText "crypto" = true /\ noEscape "crypto" = true /\
   (forall r, r ∈ prisma.revenueCategory pricing_db ->
              isText (RevenueCategory.name r) = true) /\
   forall r, r ∈ prisma.revenueCategory pricing_db -> ~ categoryMatches "crypto" r) /\
  PricingController.calculatePricing (fun _ => "Invalid invocation"%string) pricing_db
    unknown_category_body
  = PricingFailure 500 "Revenue category 'crypto' not found".
Proof.
  split.
  { repeat split; try reflexivity; [exact seed_category_names | exact no_crypto_category]. }
  exact (proj1 (PricingController_calculatePricing_not_found _ pricing_db
                  unknown_category_body "bundle_saas_pro" "crypto" "medium_10m"
                  eq_refl eq_refl eq_refl)
           eq_refl eq_refl seed_category_names no_crypto_category).
Defined.

Lemma generateOtpCode_six_digits_witness :
  (is_double (1 # 2) /\ 0 <= 1 # 2 /\ 1 # 2 < 1) /\
  generateOtpCode (1 # 2) = "550000"%string /\
  String.length (generateOtpCode (1 # 2)) = 6%nat.
Proof.
  assert (H1 : is_double (1 # 2)) by qdecide.
  assert (H2 : 0 <= 1 # 2) by qdecide.
  assert (H3 : 1 # 2 < 1) by qdecide.
  split; [repeat split; assumption |].
  split; [vm_compute; reflexivity |].
  exact (proj1 (generateOtpCode_six_digits (1 # 2) H1 H2 H3)).
Defined.

Lemma sendWhatsAppOTP_then_verifyOTP_witness :
  (is_double (1 # 2) /\ 0 <= 1 # 2 /\ 1 # 2 < 1 /\
   "u1"%string ∈ otpTables.user otp_db /\
   otpTables.otpVerification otp_db !! "o1"%string = None /\
   (String.length "+15550100" <= 255)%nat /\
   utc (LocalTime utc 0 + 5 * 60000)%Z false = utc 0%Z true) /\
  fst (sendWhatsAppOTP utc (1 # 2) 0 0 "o1" true "+15550100" "u1" otp_db)
  = Ok "550000"%string /\
  fst (verifyOTP 300000 "+15550100" (generateOtpCode (1 # 2))
         (snd (sendWhatsAppOTP utc (1 # 2) 0 0 "o1" true "+15550100" "u1" otp_db))) = true /\
  setMinutes_plus utc 0 5 = 300000%Z.
Proof.
  assert (H1 : is_double (1 # 2)) by qdecide.
  assert (H2 : 0 <= 1 # 2) by qdecide.
  assert (H3 : 1 # 2 < 1) by qdecide.
  assert (H4 : "u1"%string ∈ otpTables.user otp_db) by (vm_compute; reflexivity).
  assert (H5 : otpTables.otpVerification otp_db !! "o1"%string = None) by reflexivity.
  assert (H6 : (String.length "+15550100" <= 255)%nat) by (apply Nat.leb_le; reflexivity).
  split; [repeat split; assumption |].
  destruct (sendWhatsAppOTP_then_verifyOTP utc (1 # 2) 0 0 "o1" true "+15550100" "u1" otp_db
              H1 H2 H3 H4 H5 H6) as (R & _ & V & _ & X).
  split; [| split].
  - rewrite R. vm_compute. reflexivity.
  - apply V. reflexivity.
  - exact (X eq_refl).
Defined.

Lemma generateQuote_delivery_date_witness :
  exists (quote : ProjectQuote.t) (db' : DB),
    generateQuote default_env 1000 "q1" example_request example_db
    = (QuoteReply (Some "Quote generated successfully"%string) quote, db') /\
    ProjectQuote.estimatedTimelineWeeks quote = 12%Z /\
    TZ default_env
      (LocalTime (TZ default_env) 1000
       + ProjectQuote.estimatedTimelineWeeks quote * 7 * msPerDay)%Z false
    = TZ default_env 1000%Z true /\
    ProjectQuote.deliveryDate quote
    = (1000 / msPerDay * msPerDay
       + ProjectQuote.estimatedTimelineWeeks quote * 7 * msPerDay)%Z.
Proof.
  eassert (E : generateQuote default_env 1000 "q1" example_request example_db
               = (QuoteReply _ _, _)) by (vm_compute; reflexivity).
  eexists _, _. split; [exact E |]. split; [reflexivity |]. split; [reflexivity |].
  exact (proj2 (proj2 (generateQuote_delivery_date _ _ _ _ _ _ _ _ E)) eq_refl).
Defined.

Lemma generateQuote_partial_write_witness :
  (authenticated example_request = Some "u1"%string /\
   prisma.projectAssessment example_db !! req_param example_request = Some example_project /\
   ProjectAssessment.userId example_project = "u1"%string /\
   findFirstActiveQuote (prisma.projectQuote example_db) (req_param example_request) = None /\
   ProjectAssessment.complexityScore example_project = None /\
   toDecimal 3 2 (complexityScoreOf example_project) = Some 6.1 /\
   toDecimal 10 2 (QuoteData.totalEstimate
                     (quoteData env_60m example_project
                        (complexityScoreOf example_project) 0)) = None) /\
  exists (e : PrismaError) (project' : ProjectAssessment.t) (db' : DB),
    generateQuote env_60m 0 "q1" example_request example_db = (Thrown e, db') /\
    prisma.projectQuote db' = prisma.projectQuote example_db /\
    prisma.projectAssessment db' !! "p1"%string = Some project' /\
    ProjectAssessment.complexityScore project' = Some 6.1.
Proof.
  assert (H1 : authenticated example_request = Some "u1"%string) by reflexivity.
  assert (H2 : prisma.projectAssessment example_db !! req_param example_request
               = Some example_project) by reflexivity.
  assert (H3 : ProjectAssessment.userId example_project = "u1"%string) by reflexivity.
  assert (H4 : findFirstActiveQuote (prisma.projectQuote example_db)
                 (req_param example_request) = None) by reflexivity.
  assert (H5 : ProjectAssessment.complexityScore example_project = None) by reflexivity.
  assert (H6 : toDecimal 3 2 (complexityScoreOf example_project) = Some 6.1)
    by (vm_compute; reflexivity).
  assert (H7 : toDecimal 10 2 (QuoteData.totalEstimate
                                 (quoteData env_60m example_project
                                    (complexityScoreOf example_project) 0)) = None)
    by (vm_compute; reflexivity).
  split; [repeat split; assumption |].
  destruct (generateQuote_partial_write env_60m 0 "q1" example_request example_db "u1"
              example_project 6.1 H1 H2 H3 H4 H5 H6 H7)
    as (e & project' & db' & E & Hq & _ & Hp & Hs & _).
  exists e, project', db'. split; [exact E |]. split; [exact Hq |].
  split; [| exact Hs]. rewrite Hp. apply lookup_insert_eq.
Defined.
